(** * AutoRPM2PARK: the permit lifecycle of [automatic_parking_permit.py]

    A shallow embedding of the pipeline that fills the rpm2park.com wizard,
    reads the expiration date, handles the permit screenshot, sends it over
    Discord and re-arms itself in Windows Task Scheduler.

    The Python code is straight-line code over external collaborators
    (Selenium, the file system, discord.py, schtasks, the clock).  It is
    embedded as a state-and-exception monad over a [World]; everything the
    collaborators decide is read from an [Env] of oracles that may depend
    on the history of the run.  All theorems quantify over every [Env]. *)

From Stdlib Require Import ZArith List Ascii String Bool Lia.
From stdpp Require Import base gmap strings list sets.

Import ListNotations.
Local Open Scope string_scope.
Local Open Scope list_scope.
Local Open Scope Z_scope.

Set Default Proof Using "Type".

(** ** Naive datetimes, as [datetime.datetime] without tzinfo *)

Record datetime := mkDatetime {
  year : Z;
  month : Z;
  day : Z;
  hour : Z;
  minute : Z;
  second : Z;
  microsecond : Z
}.

Definition datetime_fields (t : datetime) : list Z :=
  [year t; month t; day t; hour t; minute t; second t; microsecond t].

(** [datetime.__gt__] compares the field tuples lexicographically. *)
Fixpoint tuple_gt (a b : list Z) : bool :=
  match a, b with
  | x :: a', y :: b' => if x >? y then true else if x <? y then false else tuple_gt a' b'
  | _ :: _, [] => true
  | [], _ => false
  end.

Definition datetime_gt (a b : datetime) : bool :=
  tuple_gt (datetime_fields a) (datetime_fields b).

(** ** Characters and decimal numerals

    The classes are those of ASCII text: there [is_digit] is what [\d]
    matches and [int] reads, and [is_space] is [str.isspace], what [\s]
    matches and what [str.strip] removes.  Outside ASCII Python's classes
    hold further digits and blanks, which these do not. *)

Definition is_digit (c : ascii) : bool :=
  let n := nat_of_ascii c in (48 <=? n)%nat && (n <=? 57)%nat.

(** [str.isspace] on the ASCII range, which is also what [\s] matches. *)
Definition is_space (c : ascii) : bool :=
  let n := nat_of_ascii c in
  ((9 <=? n)%nat && (n <=? 13)%nat) || ((28 <=? n)%nat && (n <=? 32)%nat).

Definition digit_val (c : ascii) : Z := Z.of_nat (nat_of_ascii c) - 48.

Definition digit_char (d : Z) : ascii := ascii_of_nat (Z.to_nat (48 + d)).

(** [int(text)] for a run of decimal digits, leading blanks allowed. *)
Definition int_of_digits (cs : list ascii) : Z :=
  fold_left (fun acc c => if is_digit c then 10 * acc + digit_val c else acc) cs 0.

(** Zero-padded decimal of fixed width, as [%02d] and [%04d]. *)
Fixpoint pad_digits (width : nat) (n : Z) : list ascii :=
  match width with
  | O => []
  | S w => pad_digits w (n / 10) ++ [digit_char (n mod 10)]
  end.

Definition chars (s : string) : list ascii := list_ascii_of_string s.
Definition text (cs : list ascii) : string := string_of_list_ascii cs.

(** ** Exceptions of the run *)

Inductive Exn :=
| ValueError                                        (* strptime: text does not match *)
| TimeoutException (element_id : string) (timeout : Z)
    (* WebDriverWait.until; the arguments name the wait that raised it *)
| NoSuchElementException (what : string)            (* Select.select_by_visible_text *)
| WebDriverException (what : string)                (* command on a closed session, start-up failure *)
| DiscordException (what : string).                 (* raised out of client.start *)

Inductive Try (A : Type) :=
| Returns (a : A)
| Raises (e : Exn).
Arguments Returns {A} a.
Arguments Raises {A} e.

(** ** [datetime.strptime]

    The library turns the format into a regular expression (one named
    group per directive, a whitespace run of the format into [\s+],
    every other character into itself), matches it case-insensitively at
    the start of the text, rejects text left over after the match and
    converts the groups.  The alternatives of a group are tried in the
    order the library writes them, backtracking on later failure.  The
    [C] locale is assumed for [%p] ("AM"/"PM"), and the text is ASCII
    text. *)

Module Strptime.

Inductive directive :=
| D_m | D_d | D_Y | D_H | D_I | D_M | D_S | D_p
| D_space
| D_lit (c : ascii).

Definition directive_of_letter (c : ascii) : option directive :=
  if Ascii.eqb c "m" then Some D_m
  else if Ascii.eqb c "d" then Some D_d
  else if Ascii.eqb c "Y" then Some D_Y
  else if Ascii.eqb c "H" then Some D_H
  else if Ascii.eqb c "I" then Some D_I
  else if Ascii.eqb c "M" then Some D_M
  else if Ascii.eqb c "S" then Some D_S
  else if Ascii.eqb c "p" then Some D_p
  else if Ascii.eqb c "%" then Some (D_lit "%")
  else None.

(** [in_space] remembers that the previous format character was blank, so
    that a run of blanks yields one [D_space]. *)
Fixpoint compile_format (in_space : bool) (fmt : list ascii) : option (list directive) :=
  match fmt with
  | [] => Some []
  | c :: fmt' =>
    if is_space c then
      if in_space then compile_format true fmt'
      else cons D_space <$> compile_format true fmt'
    else if Ascii.eqb c "%" then
      match fmt' with
      | l :: fmt'' =>
        match directive_of_letter l with
        | Some d => cons d <$> compile_format false fmt''
        | None => None
        end
      | [] => None
      end
    else cons (D_lit c) <$> compile_format false fmt'
  end.

(** Character classes of the regular expressions. *)
Definition between (lo hi : ascii) (c : ascii) : bool :=
  (nat_of_ascii lo <=? nat_of_ascii c)%nat && (nat_of_ascii c <=? nat_of_ascii hi)%nat.

Definition lower (c : ascii) : ascii :=
  if between "A" "Z" c then ascii_of_nat (nat_of_ascii c + 32) else c.

Definition same_letter (a c : ascii) : bool := Ascii.eqb (lower a) (lower c).

(** The alternatives of each group, in the library's order; an
    alternative is a sequence of character classes. *)
Definition group_alternatives (d : directive) : list (list (ascii -> bool)) :=
  match d with
  | D_m => [[Ascii.eqb "1"; between "0" "2"]; [Ascii.eqb "0"; between "1" "9"]; [between "1" "9"]]
  | D_d => [[Ascii.eqb "3"; between "0" "1"]; [between "1" "2"; is_digit];
            [Ascii.eqb "0"; between "1" "9"]; [between "1" "9"]; [Ascii.eqb " "; between "1" "9"]]
  | D_Y => [[is_digit; is_digit; is_digit; is_digit]]
  | D_H => [[Ascii.eqb "2"; between "0" "3"]; [between "0" "1"; is_digit]; [is_digit]]
  | D_I => [[Ascii.eqb "1"; between "0" "2"]; [Ascii.eqb "0"; between "1" "9"]; [between "1" "9"]]
  | D_M => [[between "0" "5"; is_digit]; [is_digit]]
  | D_S => [[Ascii.eqb "6"; between "0" "1"]; [between "0" "5"; is_digit]; [is_digit]]
  | D_p => [[same_letter "a"; same_letter "m"]; [same_letter "p"; same_letter "m"]]
  | D_lit c => [[same_letter c]]
  | D_space => []
  end.

(** Match a sequence of classes at the head of the text. *)
Fixpoint match_classes (cls : list (ascii -> bool)) (s : list ascii)
  : option (list ascii * list ascii) :=
  match cls with
  | [] => Some ([], s)
  | p :: cls' =>
    match s with
    | c :: s' =>
      if p c then
        match match_classes cls' s' with
        | Some (m, r) => Some (c :: m, r)
        | None => None
        end
      else None
    | [] => None
    end
  end.

(** [\s+] is greedy: the longest blank prefix first, then shorter ones. *)
Fixpoint space_runs (s : list ascii) : list (list ascii * list ascii) :=
  match s with
  | c :: s' =>
    if is_space c then map (fun mr => (c :: fst mr, snd mr)) (space_runs s') ++ [([c], s')]
    else []
  | [] => []
  end.

Definition alternatives (d : directive) (s : list ascii) : list (list ascii * list ascii) :=
  match d with
  | D_space => space_runs s
  | _ => omap (fun cls => match_classes cls s) (group_alternatives d)
  end.

(** The groups found so far: directive and matched text. *)
Definition found_dict := list (directive * list ascii).

Definition record_group (d : directive) (m : list ascii) (found : found_dict) : found_dict :=
  match d with
  | D_space | D_lit _ => found
  | _ => found ++ [(d, m)]
  end.

Fixpoint first_success {A B} (f : A -> option B) (l : list A) : option B :=
  match l with
  | [] => None
  | a :: l' => match f a with Some b => Some b | None => first_success f l' end
  end.

Fixpoint regex_match (ds : list directive) (s : list ascii) (found : found_dict)
  : option (found_dict * list ascii) :=
  match ds with
  | [] => Some (found, s)
  | d :: ds' =>
    first_success (fun mr => regex_match ds' (snd mr) (record_group d (fst mr) found))
                  (alternatives d s)
  end.

Definition directive_eqb (a b : directive) : bool :=
  match a, b with
  | D_m, D_m | D_d, D_d | D_Y, D_Y | D_H, D_H | D_I, D_I
  | D_M, D_M | D_S, D_S | D_p, D_p | D_space, D_space => true
  | D_lit x, D_lit y => Ascii.eqb x y
  | _, _ => false
  end.

Fixpoint group (d : directive) (found : found_dict) : option (list ascii) :=
  match found with
  | [] => None
  | (d', m) :: found' => if directive_eqb d d' then Some m else group d found'
  end.

Definition int_group (d : directive) (found : found_dict) (dflt : Z) : Z :=
  match group d found with
  | Some m => int_of_digits m
  | None => dflt
  end.

(** The hour: [%H] as it is, [%I] by the AM/PM rule (12 AM is 0, 12 PM is
    12, other PM hours add 12; no designator counts as AM). *)
Definition hour_of (found : found_dict) : Z :=
  match group D_I found with
  | Some m =>
    let h := int_of_digits m in
    let ampm := text (map lower (default [] (group D_p found))) in
    if String.eqb ampm "" || String.eqb ampm "am" then (if h =? 12 then 0 else h)
    else if String.eqb ampm "pm" then (if h =? 12 then h else h + 12)
    else h
  | None => int_group D_H found 0
  end.

Definition is_leap (y : Z) : bool :=
  (y mod 4 =? 0) && (negb (y mod 100 =? 0) || (y mod 400 =? 0)).

Definition days_in_month (y m : Z) : Z :=
  if m =? 2 then (if is_leap y then 29 else 28)
  else if (m =? 4) || (m =? 6) || (m =? 9) || (m =? 11) then 30
  else 31.

(** The checks of the [date] and [datetime] constructors. *)
Definition valid_datetime (t : datetime) : bool :=
  (1 <=? year t) && (year t <=? 9999) &&
  (1 <=? month t) && (month t <=? 12) &&
  (1 <=? day t) && (day t <=? days_in_month (year t) (month t)) &&
  (0 <=? hour t) && (hour t <=? 23) &&
  (0 <=? minute t) && (minute t <=? 59) &&
  (0 <=? second t) && (second t <=? 59) &&
  (0 <=? microsecond t) && (microsecond t <=? 999999).

Definition convert (found : found_dict) : datetime :=
  {| year := int_group D_Y found 1900;
     month := int_group D_m found 1;
     day := int_group D_d found 1;
     hour := hour_of found;
     minute := int_group D_M found 0;
     second := int_group D_S found 0;
     microsecond := 0 |}.

Definition strptime (data_string format : string) : Try datetime :=
  match compile_format false (chars format) with
  | None => Raises ValueError
  | Some ds =>
    match regex_match ds (chars data_string) [] with
    | None => Raises ValueError
    | Some (found, _ :: _) => Raises ValueError
    | Some (found, []) =>
      let t := convert found in
      if valid_datetime t then Returns t else Raises ValueError
    end
  end.

End Strptime.

(** ** [datetime.strftime] for the directives the program uses *)

Definition strftime_directive (t : datetime) (c : ascii) : list ascii :=
  if Ascii.eqb c "Y" then pad_digits 4 (year t)
  else if Ascii.eqb c "m" then pad_digits 2 (month t)
  else if Ascii.eqb c "d" then pad_digits 2 (day t)
  else if Ascii.eqb c "H" then pad_digits 2 (hour t)
  else if Ascii.eqb c "M" then pad_digits 2 (minute t)
  else if Ascii.eqb c "S" then pad_digits 2 (second t)
  else ["%"%char; c].

Fixpoint strftime_chars (t : datetime) (fmt : list ascii) : list ascii :=
  match fmt with
  | [] => []
  | c :: fmt' =>
    if Ascii.eqb c "%" then
      match fmt' with
      | l :: fmt'' => strftime_directive t l ++ strftime_chars t fmt''
      | [] => [c]
      end
    else c :: strftime_chars t fmt'
  end.

Definition strftime (t : datetime) (format : string) : string :=
  text (strftime_chars t (chars format)).

(** ** Configuration and command line *)

(** [config] is the dictionary loaded from the YAML file; the run reads
    these keys.  A record: every key is present and well typed. *)
Module Config.
Record t := mk {
  i_read_the_config_warning : bool;
  timeout : Z;
  property_location : string;
  apartment_number_str : string;
  plate_number : string;
  vehicle_make : string;
  vehicle_model : string;
  vehicle_color : string;
  screenshot_folder : string;
  save_screenshot_of_permit : bool;
  send_screenshot_in_discord : bool;
  discord_bot_token : string;
  discord_channel_id : Z;
  automatically_renew_permit : bool
}.
End Config.

(** The [argparse.Namespace] of [parse_arguments]. *)
Module Args.
Record t := mk {
  config : string;
  verbose : bool
}.
End Args.

(** ** The world *)

Inductive Event :=
| Print (msg : string)
| LogInfo (msg : string)
| LogError (msg : string)
| Started                                     (* webdriver.Firefox() *)
| Get (url : string)                          (* driver.get *)
| SelectByVisibleText (element_id visible_text : string)
| SendKeys (element_id keys : string)
| Click (element_id : string)
| SaveFullPageScreenshot (path : string) (written : bool)
| Close                                       (* driver.close() *)
| Quit                                        (* driver.quit(), by the with block *)
| Remove (path : string)                      (* os.remove *)
| ClientStart (token : string)                (* client.start *)
| ChannelSend (channel_id : Z) (path : string)
| ClientClose                                 (* client.http.close(); client.close() *)
| Run (argv : list string).                   (* subprocess.run *)

Inductive Browser := NoSession | SessionOpen | WindowClosed | SessionEnded.

(** A task of Windows Task Scheduler, as [schtasks /create] is given it. *)
Record Task := mkTask {
  task_run : string;        (* /tr *)
  schedule : string;        (* /sc *)
  start_date : string;      (* /sd *)
  start_time : string;      (* /st *)
  run_level : string        (* /rl *)
}.

Record World := mkWorld {
  browser : Browser;
  files : gset string;            (* paths that exist on disk *)
  tasks : gmap string Task;       (* Task Scheduler, by task name *)
  trace : list Event              (* what the run has done, oldest first *)
}.

Definition set_browser (b : Browser) (w : World) : World :=
  mkWorld b (files w) (tasks w) (trace w).
Definition set_files (fs : gset string) (w : World) : World :=
  mkWorld (browser w) fs (tasks w) (trace w).
Definition set_tasks (ts : gmap string Task) (w : World) : World :=
  mkWorld (browser w) (files w) ts (trace w).
Definition record_event (e : Event) (w : World) : World :=
  mkWorld (browser w) (files w) (tasks w) (trace w ++ [e]).

(** What the notification session does, seen from [await client.start]:
    the ready handler ran to its end and the call returned; the call
    raised; or the call never returns.  [sent] tells whether
    [channel.send] had completed by then. *)
Inductive DiscordOutcome :=
| Delivered
| StartRaised (e : Exn) (sent : bool)
| NeverReturned (sent : bool).

(** The collaborators.  Each oracle sees the history of the run. *)
Record Env := mkEnv {
  firefox_starts : bool;
  page_loads : list Event -> string -> bool;
  appears : list Event -> string -> bool;        (* visible within the timeout *)
  has_option : list Event -> string -> string -> bool;
  element_text : list Event -> string -> string;
  screenshot_written : list Event -> string -> bool;
  now : list Event -> datetime;
  discord : list Event -> DiscordOutcome;
  client_user : string;
  program_path : string                          (* os.path.abspath(__file__) *)
}.

(** ** The monad of the run: state, exceptions, [sys.exit], divergence *)

Inductive Result (A : Type) :=
| Ok (a : A)
| Raise (e : Exn)
| Exit (code : Z)
| Diverge.
Arguments Ok {A} a.
Arguments Raise {A} e.
Arguments Exit {A} code.
Arguments Diverge {A}.

Definition M (A : Type) : Type := World -> Result A * World.

Definition ret {A} (a : A) : M A := fun w => (Ok a, w).

Definition bind {A B} (m : M A) (k : A -> M B) : M B := fun w =>
  match m w with
  | (Ok a, w') => k a w'
  | (Raise e, w') => (Raise e, w')
  | (Exit c, w') => (Exit c, w')
  | (Diverge, w') => (Diverge, w')
  end.

Definition raise {A} (e : Exn) : M A := fun w => (Raise e, w).
Definition sys_exit {A} (code : Z) : M A := fun w => (Exit code, w).
Definition emit (e : Event) : M unit := fun w => (Ok tt, record_event e w).
Definition when (b : bool) (m : M unit) : M unit := if b then m else ret tt.

Declare Scope run_scope.
Delimit Scope run_scope with run.
Notation "x <- m ;; k" := (bind m (fun x => k))
  (at level 100, m at next level, right associativity) : run_scope.
Notation "m ;; k" := (bind m (fun _ => k))
  (at level 100, right associativity) : run_scope.
Local Open Scope run_scope.

(** The process exit status of a finished run, if it finishes. *)
Definition exit_status {A} (r : Result A) : option Z :=
  match r with
  | Ok _ => Some 0
  | Raise _ => Some 1
  | Exit c => Some c
  | Diverge => None
  end.

(** ** Strings of the program *)

Definition dquote : string := String (ascii_of_nat 34) EmptyString.
Definition newline : string := String (ascii_of_nat 10) EmptyString.
Definition backslash : ascii := ascii_of_nat 92.

(** [s.replace("\\", "\\\\")]: every backslash is doubled. *)
Definition escape_backslashes (s : string) : string :=
  text (flat_map (fun c => if Ascii.eqb c backslash then [c; c] else [c]) (chars s)).

Fixpoint lstrip (cs : list ascii) : list ascii :=
  match cs with
  | c :: cs' => if is_space c then lstrip cs' else cs
  | [] => []
  end.

(** [s.strip()], on ASCII text *)
Definition strip (s : string) : string :=
  text (rev (lstrip (rev (lstrip (chars s))))).

Definition generate_command_line_arguments_as_str (args : Args.t) : string :=
  let arg_str := "" in
  let arg_str :=
    if negb (String.eqb (Args.config args) "config.yaml")
    then arg_str +:+ "--config " +:+ Args.config args +:+ " "
    else arg_str in
  let arg_str :=
    if Args.verbose args then arg_str +:+ "--verbose " else arg_str in
  strip arg_str.

(** ** Windows Task Scheduler, as far as [schtasks /create] goes

    The external command: [/create] registers the task under its name
    [/tn]; with [/f] an existing task of that name is overwritten,
    without it the existing task is kept. *)

(** The command line after the verb: [/f] stands alone, every other
    option takes the argument that follows it. *)
Fixpoint parse_options (argv : list string) : list (string * string) :=
  match argv with
  | [] => []
  | [k] => [(k, "")]
  | k :: ((v :: argv'') as argv') =>
    if String.eqb k "/f" then (k, "") :: parse_options argv'
    else (k, v) :: parse_options argv''
  end.

Fixpoint option_value (opt : string) (opts : list (string * string)) : option string :=
  match opts with
  | [] => None
  | (k, v) :: opts' => if String.eqb k opt then Some v else option_value opt opts'
  end.

Definition schtasks_create (argv : list string) (ts : gmap string Task) : gmap string Task :=
  let opts := parse_options argv in
  match option_value "/tn" opts, option_value "/tr" opts, option_value "/sc" opts,
        option_value "/sd" opts, option_value "/st" opts, option_value "/rl" opts with
  | Some tn, Some tr, Some sc, Some sd, Some st, Some rl =>
    if bool_decide (is_Some (option_value "/f" opts)) || bool_decide (ts !! tn = None)
    then <[tn := mkTask tr sc sd st rl]> ts
    else ts
  | _, _, _, _, _, _ => ts
  end.

Definition run_command (argv : list string) (ts : gmap string Task) : gmap string Task :=
  match argv with
  | prog :: verb :: opts =>
    if String.eqb prog "schtasks" && String.eqb verb "/create"
    then schtasks_create opts ts
    else ts
  | _ => ts
  end.

(** The instant at which the scheduler fires a once-task: its start date
    (month/day/year) at its start time (24-hour [HH:mm]). *)
Definition trigger_time (t : Task) : Try datetime :=
  Strptime.strptime (start_date t +:+ " " +:+ start_time t) "%m/%d/%Y %H:%M".

(** ** The program *)

Section Program.

Variable env : Env.

Definition WebElement := string.

(** [datetime.now()] *)
Definition datetime_now : M datetime := fun w => (Ok (now env (trace w)), w).

Definition logging_error (msg : string) : M unit := emit (LogError msg).
Definition logging_info (msg : string) : M unit := emit (LogInfo msg).

Definition validate_config_warning (i_read_the_config_warning : bool) : M unit :=
  if negb i_read_the_config_warning then
    emit (Print "Did not set up config correctly, read debug.log for details");;
    logging_error "Read the config warning and then set the bool under it to true.";;
    sys_exit 1
  else ret tt.

(** [WebDriverWait(driver, timeout).until(visibility_of_element_located)]:
    the element once it is visible, [TimeoutException] when the timeout
    elapses first.  A session whose window is gone answers no command. *)
Definition wait_for_element (timeout_duration : Z) (element_id : string) : M WebElement :=
  fun w =>
    match browser w with
    | SessionOpen =>
      if appears env (trace w) element_id then (Ok element_id, w)
      else (Raise (TimeoutException element_id timeout_duration), w)
    | _ => (Raise (WebDriverException "no such window"), w)
    end.

Definition select_by_visible_text (el : WebElement) (visible_text : string) : M unit :=
  fun w =>
    if has_option env (trace w) el visible_text
    then emit (SelectByVisibleText el visible_text) w
    else (Raise (NoSuchElementException visible_text), w).

(** The commands on an element that the wait has returned are taken to
    go through. *)
Definition send_keys (el : WebElement) (keys : string) : M unit := emit (SendKeys el keys).
Definition click (el : WebElement) : M unit := emit (Click el).
Definition get_text (el : WebElement) : M string := fun w => (Ok (element_text env (trace w) el), w).

Definition create_parking_permit (config : Config.t) : M unit :=
  el <- wait_for_element (Config.timeout config) "MainContent_ddl_Property";;
  select_by_visible_text el (Config.property_location config);;
  (* page 1 *)
  el <- wait_for_element (Config.timeout config) "MainContent_txt_Apartment";;
  send_keys el (Config.apartment_number_str config);;
  el <- wait_for_element (Config.timeout config) "MainContent_btn_PropertyNext";;
  click el;;
  (* page 2 *)
  el <- wait_for_element (Config.timeout config) "MainContent_txt_Plate";;
  send_keys el (Config.plate_number config);;
  el <- wait_for_element (Config.timeout config) "MainContent_txt_Make";;
  send_keys el (Config.vehicle_make config);;
  el <- wait_for_element (Config.timeout config) "MainContent_txt_Model";;
  send_keys el (Config.vehicle_model config);;
  el <- wait_for_element (Config.timeout config) "MainContent_txt_Color";;
  send_keys el (Config.vehicle_color config);;
  el <- wait_for_element (Config.timeout config) "MainContent_btn_Vehicle_Next";;
  click el;;
  el <- wait_for_element (Config.timeout config) "MainContent_btn_Auth_Next";;
  click el;;
  (* page 3 *)
  el <- wait_for_element (Config.timeout config) "MainContent_txt_Review_PlateNumber";;
  send_keys el (Config.plate_number config);;
  el <- wait_for_element (Config.timeout config) "MainContent_cb_Confirm";;
  click el;;
  el <- wait_for_element (Config.timeout config) "MainContent_btn_Submit";;
  click el.

Definition date_format : string := "%m/%d/%Y %I:%M:%S %p".

Definition get_parking_permit_expiration_date (timeout_duration : Z) : M datetime :=
  el <- wait_for_element timeout_duration "MainContent_lbl_Results_Expires";;
  date_str <- get_text el;;
  match Strptime.strptime date_str date_format with
  | Returns t => ret t
  | Raises e => raise e
  end.

Definition generate_screenshot_file_path (folder_path : string) : M string :=
  t <- datetime_now;;
  let current_time := strftime t "%Y-%m-%d_%H-%M-%S" in
  ret (folder_path +:+ "\rpm2park_parking_permit_" +:+ current_time +:+ ".png").

(** [driver.save_full_page_screenshot]: writes the file and answers
    whether it could; the program does not look at the answer. *)
Definition save_full_page_screenshot (path : string) : M bool := fun w =>
  let written := screenshot_written env (trace w) path in
  let w' := record_event (SaveFullPageScreenshot path written) w in
  (Ok written, if written then set_files ({[path]} ∪ files w') w' else w').

Definition save_screenshot_of_permit (screenshot_file_path : string) (config : Config.t)
  : M unit :=
  wait_for_element (Config.timeout config) "MainContent_img_QRC";;
  save_full_page_screenshot screenshot_file_path;;
  ret tt.

(** [subprocess.run(argv)], without [check]: the exit status is not
    looked at.  The command is taken to return. *)
Definition subprocess_run (argv : list string) : M unit := fun w =>
  (Ok tt, set_tasks (run_command argv (tasks w)) (record_event (Run argv) w)).

Definition task_name : string := "AutomaticParkingPermitRenewal".

Definition schedule_program_to_renew_permit
    (parking_permit_expiration_date : datetime) (args : Args.t) : M unit :=
  let program_path_escaped := escape_backslashes (program_path env) in
  let command_line_args := generate_command_line_arguments_as_str args in
  t <- datetime_now;;
  if datetime_gt parking_permit_expiration_date t then
    let formatted_expiration_date := strftime parking_permit_expiration_date "%m/%d/%Y" in
    let formatted_expiration_time := strftime parking_permit_expiration_date "%H:%M" in
    subprocess_run ["schtasks";
                    "/create";
                    "/tn"; task_name;
                    "/tr"; dquote +:+ "python " +:+ program_path_escaped +:+ " "
                             +:+ command_line_args +:+ dquote;
                    "/sc"; "once";
                    "/sd"; formatted_expiration_date;
                    "/st"; formatted_expiration_time;
                    "/rl"; "HIGHEST";
                    "/f"]
  else
    logging_error ("An unknown error has occurred where the parking permit has already expired."
                   +:+ newline +:+ "The program will NOT automatically run again.");;
    sys_exit 1.

(** [os.path.exists] then [os.remove], else an error in the log.  The
    removal of a path that exists is taken to succeed. *)
Definition delete_screenshot_of_permit (screenshot_file_path : string) : M unit := fun w =>
  if bool_decide (screenshot_file_path ∈ files w) then
    (Ok tt, set_files (files w ∖ {[screenshot_file_path]})
                      (record_event (Remove screenshot_file_path) w))
  else
    logging_error ("Could not find and delete " +:+ screenshot_file_path +:+ ".") w.

(** [driver.close()] *)
Definition driver_close : M unit := fun w =>
  match browser w with
  | SessionOpen => (Ok tt, set_browser WindowClosed (record_event Close w))
  | _ => (Raise (WebDriverException "no such window"), w)
  end.

(** The [async with discord.Client(...)] block around [client.start]:
    the ready handler logs, sends the file, logs and closes the client. *)
Definition discord_client_session (screenshot_file_path : string) (config : Config.t)
  : M unit := fun w =>
  let started := record_event (ClientStart (Config.discord_bot_token config)) w in
  let send w0 :=
    record_event (ChannelSend (Config.discord_channel_id config) screenshot_file_path)
      (record_event (LogInfo ("Sending PNG file to discord channel from " +:+ screenshot_file_path))
        (record_event (LogInfo ("Logged in as " +:+ client_user env)) w0)) in
  match discord env (trace w) with
  | Delivered =>
    (Ok tt, record_event ClientClose
              (record_event (LogInfo ("Logging off of " +:+ client_user env)) (send started)))
  | StartRaised e sent => (Raise e, if sent then send started else started)
  | NeverReturned sent => (Diverge, if sent then send started else started)
  end.

Definition send_screenshot_in_discord (screenshot_file_path : string) (config : Config.t)
  : M unit :=
  (if negb (Config.save_screenshot_of_permit config)
   then save_screenshot_of_permit screenshot_file_path config
   else driver_close);;
  discord_client_session screenshot_file_path config;;
  when (negb (Config.save_screenshot_of_permit config))
       (delete_screenshot_of_permit screenshot_file_path).

(** [with webdriver.Firefox() as driver: body]: the session is quit when
    the block is left, by return, exception or [sys.exit]. *)
Definition with_webdriver_Firefox {A} (body : M A) : M A := fun w =>
  if firefox_starts env then
    match body (set_browser SessionOpen (record_event Started w)) with
    | (Diverge, w') => (Diverge, w')
    | (r, w') => (r, set_browser SessionEnded (record_event Quit w'))
    end
  else (Raise (WebDriverException "browser did not start"), w).

Definition driver_get (url : string) : M unit := fun w =>
  if page_loads env (trace w) url then emit (Get url) w
  else (Raise (WebDriverException url), w).

(** [main], from the loaded configuration on, that is from the call of
    [validate_config_warning]; before it the arguments are parsed, the
    file in use is logged, checked and read. *)
Definition main (args : Args.t) (config : Config.t) : M unit :=
  validate_config_warning (Config.i_read_the_config_warning config);;
  parking_permit_expiration_date <-
    with_webdriver_Firefox (
      driver_get "https://rpm2park.com/visitors/";;
      create_parking_permit config;;
      parking_permit_expiration_date <-
        get_parking_permit_expiration_date (Config.timeout config);;
      screenshot_file_path <- generate_screenshot_file_path (Config.screenshot_folder config);;
      when (Config.save_screenshot_of_permit config)
           (save_screenshot_of_permit screenshot_file_path config);;
      when (Config.send_screenshot_in_discord config)
           (send_screenshot_in_discord screenshot_file_path config);;
      ret parking_permit_expiration_date);;
  when (Config.automatically_renew_permit config)
       (schedule_program_to_renew_permit parking_permit_expiration_date args).

End Program.

(** ** Calendar order *)

(** A number that grows with the calendar position of a timestamp. *)
Definition calendar_key (t : datetime) : Z :=
  (((((year t * 13 + month t) * 32 + day t) * 24 + hour t) * 60 + minute t) * 60
   + second t) * 1000000 + microsecond t.

(** ** Observing a run *)

Definition outcome {A} (m : M A) (w : World) : Result A := fst (m w).
Definition after {A} (m : M A) (w : World) : World := snd (m w).

(** The events a computation adds to the trace. *)
Definition events {A} (m : M A) (w : World) : list Event :=
  drop (length (trace w)) (trace (after m w)).

Definition count (p : Event -> bool) (l : list Event) : nat :=
  length (List.filter p l).

Definition is_run (e : Event) : bool :=
  match e with Run _ => true | _ => false end.
Definition is_remove (e : Event) : bool :=
  match e with Remove _ => true | _ => false end.
Definition is_capture (e : Event) : bool :=
  match e with SaveFullPageScreenshot _ _ => true | _ => false end.
Definition is_close (e : Event) : bool :=
  match e with Close => true | _ => false end.
Definition is_quit (e : Event) : bool :=
  match e with Quit => true | _ => false end.
Definition is_started (e : Event) : bool :=
  match e with Started => true | _ => false end.
Definition is_submit (e : Event) : bool :=
  match e with Click id => String.eqb id "MainContent_btn_Submit" | _ => false end.

(** ** The wizard *)

(** The interactions of the wizard, in the order of the form. *)
Definition wizard_steps (config : Config.t) : list Event :=
  [SelectByVisibleText "MainContent_ddl_Property" (Config.property_location config);
   SendKeys "MainContent_txt_Apartment" (Config.apartment_number_str config);
   Click "MainContent_btn_PropertyNext";
   SendKeys "MainContent_txt_Plate" (Config.plate_number config);
   SendKeys "MainContent_txt_Make" (Config.vehicle_make config);
   SendKeys "MainContent_txt_Model" (Config.vehicle_model config);
   SendKeys "MainContent_txt_Color" (Config.vehicle_color config);
   Click "MainContent_btn_Vehicle_Next";
   Click "MainContent_btn_Auth_Next";
   SendKeys "MainContent_txt_Review_PlateNumber" (Config.plate_number config);
   Click "MainContent_cb_Confirm";
   Click "MainContent_btn_Submit"].

(** The portal answers: every element shows up in time and the property
    is among the options of the dropdown. *)
Definition portal_answers (env : Env) (config : Config.t) : Prop :=
  (forall history element_id, appears env history element_id = true)
  /\ (forall history element_id,
        has_option env history element_id (Config.property_location config) = true).

(** Events of the wizard: they touch neither the session, the files, the
    notification channel nor the scheduler. *)
Definition is_form_event (e : Event) : bool :=
  match e with
  | SelectByVisibleText _ _ | SendKeys _ _ | Click _ => true
  | _ => false
  end.

(** ** The screenshot and the browser *)

(** Every screenshot of the events is taken while the browser session is
    open: after [Started] and before any [Close] or [Quit].  [open] is
    the state of the session before the events. *)
Fixpoint captured_with_open_browser (open : bool) (l : list Event) : bool :=
  match l with
  | [] => true
  | Started :: l' => captured_with_open_browser true l'
  | Close :: l' => captured_with_open_browser false l'
  | Quit :: l' => captured_with_open_browser false l'
  | SaveFullPageScreenshot _ _ :: l' => open && captured_with_open_browser open l'
  | _ :: l' => captured_with_open_browser open l'
  end.

(** The screenshot paths the events name: captured, sent or removed. *)
Definition artifact_path (e : Event) : option string :=
  match e with
  | SaveFullPageScreenshot p _ => Some p
  | ChannelSend _ p => Some p
  | Remove p => Some p
  | _ => None
  end.

Definition artifact_paths (l : list Event) : list string := omap artifact_path l.

(** The screenshots the events wrote to disk. *)
Definition written_path (e : Event) : option string :=
  match e with
  | SaveFullPageScreenshot p true => Some p
  | _ => None
  end.

Definition written_paths (l : list Event) : list string := omap written_path l.

Definition is_channel_send (e : Event) : bool :=
  match e with ChannelSend _ _ => true | _ => false end.
Definition is_client_start (e : Event) : bool :=
  match e with ClientStart _ => true | _ => false end.

(** C1 as stated, for the dispatch step: once the ephemeral screenshot is
    on disk and the step has finished, whatever its outcome, the file is
    gone. *)
Definition ephemeral_deleted_after_dispatch (env : Env) (config : Config.t)
    (path : string) (w : World) : Prop :=
  let run := send_screenshot_in_discord env path config in
  Config.save_screenshot_of_permit config = false ->
  path ∈ written_paths (events run w) ->
  outcome run w <> Diverge ->
  path ∉ files (after run w).

(** C2 as stated, for the ephemeral branch: the dispatch step does not
    need the browser session to capture, so it may have been closed
    before. *)
Definition ephemeral_capture_after_close (env : Env) (config : Config.t)
    (path : string) (w : World) : Prop :=
  let run := send_screenshot_in_discord env path config in
  Config.save_screenshot_of_permit config = false ->
  browser w = WindowClosed ->
  portal_answers env config ->
  count is_capture (events run w) = 1%nat.

(** C6 as stated: a run that opens the browser closes it exactly once,
    counting both [driver.close()] and the [quit] of the with block. *)
Definition closed_exactly_once (env : Env) (args : Args.t) (config : Config.t)
    (w : World) : Prop :=
  let evs := events (main env args config) w in
  (0 < count is_started evs)%nat ->
  (count is_close evs + count is_quit evs = 1)%nat.

Definition form_only (evs : list Event) : Prop :=
  Forall (fun e => is_form_event e = true) evs.

(** ** The scheduled task of a renewal *)

(** The expiration with its seconds dropped: what [%H:%M] keeps of it. *)
Definition to_the_minute (t : datetime) : datetime :=
  mkDatetime (year t) (month t) (day t) (hour t) (minute t) 0 0.

Definition renewal_command (env : Env) (args : Args.t) : string :=
  dquote +:+ "python " +:+ escape_backslashes (program_path env) +:+ " "
         +:+ generate_command_line_arguments_as_str args +:+ dquote.

Definition renewal_task (env : Env) (expiration : datetime) (args : Args.t) : Task :=
  mkTask (renewal_command env args) "once"
         (strftime expiration "%m/%d/%Y") (strftime expiration "%H:%M") "HIGHEST".

(** The registered trigger read as the expiration instant itself. *)
Definition trigger_is_expiration (env : Env) (expiration : datetime) (args : Args.t)
    (w : World) : Prop :=
  datetime_gt expiration (now env (trace w)) = true ->
  exists task,
    tasks (after (schedule_program_to_renew_permit env expiration args) w) !! task_name
    = Some task
    /\ trigger_time task = Returns expiration.

(** The values a two-digit directive reads. *)
Definition two_digit_range (d : Strptime.directive) : option (Z * Z) :=
  match d with
  | Strptime.D_m | Strptime.D_I => Some (1, 12)
  | Strptime.D_d => Some (1, 31)
  | Strptime.D_H => Some (0, 23)
  | Strptime.D_M | Strptime.D_S => Some (0, 59)
  | _ => None
  end.

(** ** The expiration text of the portal

    [month/day/year hour:minute:second AM|PM], 12-hour clock: the texts
    of the fixed pattern, with what the library lets through (one or two
    digits per number, a day written with a blank for its leading zero,
    any run of blanks between date, time and designator, the designator
    in either case). *)

Definition numeral (lo hi : Z) (cs : list ascii) (n : Z) : Prop :=
  (length cs = 1 \/ length cs = 2)%nat
  /\ forallb is_digit cs = true
  /\ int_of_digits cs = n
  /\ lo <= n <= hi.

Definition day_numeral (cs : list ascii) (n : Z) : Prop :=
  numeral 1 31 cs n
  \/ exists c, cs = [" "%char; c] /\ is_digit c = true /\ digit_val c = n /\ 1 <= n <= 9.

Definition year_numeral (cs : list ascii) (n : Z) : Prop :=
  length cs = 4%nat /\ forallb is_digit cs = true /\ int_of_digits cs = n.

Definition blanks (cs : list ascii) : Prop :=
  cs <> [] /\ forallb is_space cs = true.

(** [pm] tells whether the two letters spell PM; otherwise they spell AM. *)
Definition designator (cs : list ascii) (pm : bool) : Prop :=
  map Strptime.lower cs = chars (if pm then "pm" else "am").

Definition hour24 (hour12 : Z) (pm : bool) : Z :=
  if pm then (if hour12 =? 12 then 12 else hour12 + 12)
  else (if hour12 =? 12 then 0 else hour12).

Inductive expiration_text : list ascii -> datetime -> Prop :=
| expiration_text_intro mo d y ws1 h mi s ws2 p hour12 pm t :
    numeral 1 12 mo (month t) ->
    day_numeral d (day t) ->
    year_numeral y (year t) ->
    blanks ws1 ->
    numeral 1 12 h hour12 ->
    numeral 0 59 mi (minute t) ->
    numeral 0 59 s (second t) ->
    blanks ws2 ->
    designator p pm ->
    hour t = hour24 hour12 pm ->
    microsecond t = 0 ->
    1 <= year t ->
    day t <= Strptime.days_in_month (year t) (month t) ->
    expiration_text
      (mo ++ "/"%char :: d ++ "/"%char :: y ++ ws1 ++
       h ++ ":"%char :: mi ++ ":"%char :: s ++ ws2 ++ p) t.

(** The characters that follow a number in an expiration text. *)
Definition separators : list ascii :=
  ["/"%char; ":"%char] ++ map ascii_of_nat [9; 10; 11; 12; 13; 28; 29; 30; 31; 32]%nat.

(** ** Concrete collaborators for the examples *)

Definition friendly_env (clock : datetime) (outcome : DiscordOutcome) : Env :=
  mkEnv true (fun _ _ => true) (fun _ _ => true) (fun _ _ _ => true)
        (fun _ _ => "2/22/2024 6:52:05 PM") (fun _ _ => true)
        (fun _ => clock) (fun _ => outcome)
        "permit-bot" "C:\apps\automatic_parking_permit.py".

Definition feb21 : datetime := mkDatetime 2024 2 21 18 52 7 123456.
Definition feb22_expiry : datetime := mkDatetime 2024 2 22 18 52 5 0.
Definition feb23_expiry : datetime := mkDatetime 2024 2 23 19 0 0 0.

Definition sample_config (save send renew : bool) : Config.t :=
  Config.mk true 10 "Oak Court" "12B" "ABC123" "Honda" "Civic" "Blue" "C:\shots"
            save send "token" 42 renew.

Definition sample_args : Args.t := Args.mk "config.yaml" false.

Definition fresh_world : World := mkWorld NoSession ∅ ∅ [].
Definition browsing_world : World := mkWorld SessionOpen ∅ ∅ [Started].
Definition closed_window_world : World := mkWorld WindowClosed ∅ ∅ [Started; Close].

Definition login_failure : DiscordOutcome :=
  StartRaised (DiscordException "LoginFailure: Improper token has been passed.") false.
(** ** ASCII text *)

(** Text in which every character is an ASCII character.  On such text
    [is_digit] is what [\d] matches and [int] reads, and [is_space] is
    what [\s] matches and [str.strip] removes; Python's classes hold
    further digits and blanks outside ASCII, so what is stated about
    parsed or stripped text is stated for ASCII text. *)
Definition is_ascii (c : ascii) : bool := (nat_of_ascii c <? 128)%nat.

Definition ascii_only (s : string) : Prop := forallb is_ascii (chars s) = true.


(** ** The configuration file on disk *)

(** [str.endswith]: the last characters of the text are the suffix. *)
Definition endswith (s suffix : string) : bool :=
  let cs := chars s in
  let k := chars suffix in
  (length k <=? length cs)%nat && bool_decide (drop (length cs - length k) cs = k).

(** [validate_config_file]: [os.path.exists] is membership in the files
    of the world; [isfile] tells the regular files from the directories. *)
Definition validate_config_file (isfile : string -> bool) (config_file : string) : M unit :=
  fun w =>
    if negb (bool_decide (config_file ∈ files w)) then
      (logging_error ("Config file " +:+ config_file +:+ " does not exist.");;
       sys_exit 1) w
    else if negb (isfile config_file) || negb (endswith config_file ".yaml") then
      (logging_error (config_file +:+ " is not a valid YAML file.");;
       sys_exit 1) w
    else (Ok tt, w).

(** ** More observations on runs *)

(** No [q] event comes after a [p] event. *)
Fixpoint never_after (p q : Event -> bool) (l : list Event) : bool :=
  match l with
  | [] => true
  | e :: l' => (if p e then negb (existsb q l') else true) && never_after p q l'
  end.

Definition is_client_close (e : Event) : bool :=
  match e with ClientClose => true | _ => false end.

(** A timestamp with its microseconds dropped: what the screenshot name
    keeps of the clock. *)
Definition to_the_second (t : datetime) : datetime :=
  mkDatetime (year t) (month t) (day t) (hour t) (minute t) (second t) 0.

(** A text without blanks at either end. *)
Definition trimmed (cs : list ascii) : Prop :=
  lstrip cs = cs /\ lstrip (rev cs) = rev cs.

Definition unread_config : Config.t :=
  Config.mk false 10 "Oak Court" "12B" "ABC123" "Honda" "Civic" "Blue" "C:\shots"
            true true "token" 42 true.

Definition visitors_url : string := "https://rpm2park.com/visitors/".

(** The world in which the wizard starts: browser started, page loaded. *)
Definition at_the_form (w : World) : World :=
  record_event (Get visitors_url) (set_browser SessionOpen (record_event Started w)).

(** A portal on which no element ever shows up. *)
Definition silent_portal : Env :=
  mkEnv true (fun _ _ => true) (fun _ _ => false) (fun _ _ _ => true)
        (fun _ _ => "") (fun _ _ => true) (fun _ => feb21) (fun _ => Delivered)
        "permit-bot" "C:\apps\permit.py".


(** The name [generate_screenshot_file_path] gives at the time [clock]. *)
Definition screenshot_path_at (config : Config.t) (clock : datetime) : string :=
  Config.screenshot_folder config +:+ "\rpm2park_parking_permit_"
    +:+ strftime clock "%Y-%m-%d_%H-%M-%S" +:+ ".png".

Definition notes_world : World := mkWorld NoSession {["C:\notes.txt"]} ∅ [].

(** Everything around the form works, but the chat client never comes
    back from its start, having sent the file or not. *)
Definition chat_never_returns (env : Env) (shown : string) (clock : datetime)
    (sent : bool) : Prop :=
  firefox_starts env = true
  /\ (forall history url, page_loads env history url = true)
  /\ (forall history, element_text env history "MainContent_lbl_Results_Expires" = shown)
  /\ (forall history path, screenshot_written env history path = true)
  /\ (forall history, discord env history = NeverReturned sent)
  /\ (forall history, now env history = clock).

(** * Sanity checks of the embedding on concrete inputs *)

Example strptime_ex1 :
  Strptime.strptime "2/22/2024 6:52:05 PM" "%m/%d/%Y %I:%M:%S %p"
  = Returns (mkDatetime 2024 2 22 18 52 5 0).
Proof. vm_compute. reflexivity. Qed.

Example strptime_ex2 :
  Strptime.strptime "2024-02-22" "%m/%d/%Y %I:%M:%S %p" = Raises ValueError.
Proof. vm_compute. reflexivity. Qed.

Example strptime_ex3 :
  Strptime.strptime "12/31/1999   12:00:59	am" "%m/%d/%Y %I:%M:%S %p"
  = Returns (mkDatetime 1999 12 31 0 0 59 0).
Proof. vm_compute. reflexivity. Qed.

Example strptime_ex4 :
  Strptime.strptime "2/30/2024 6:52:05 PM" "%m/%d/%Y %I:%M:%S %p" = Raises ValueError.
Proof. vm_compute. reflexivity. Qed.

Example strftime_ex1 :
  strftime (mkDatetime 2024 2 22 18 52 5 0) "%m/%d/%Y" = "02/22/2024".
Proof. vm_compute. reflexivity. Qed.

Example strftime_ex2 :
  strftime (mkDatetime 2024 2 22 8 2 5 0) "%Y-%m-%d_%H-%M-%S" = "2024-02-22_08-02-05".
Proof. vm_compute. reflexivity. Qed.

Example command_line_ex1 :
  generate_command_line_arguments_as_str (Args.mk "my.yaml" true) = "--config my.yaml --verbose".
Proof. vm_compute. reflexivity. Qed.

Example command_line_ex2 :
  generate_command_line_arguments_as_str (Args.mk "config.yaml" false) = "".
Proof. vm_compute. reflexivity. Qed.

(** * Decimal numerals and the two directions of the date formats *)

Lemma chars_text (cs : list ascii) : chars (text cs) = cs.
Proof. apply list_ascii_of_string_of_list_ascii. Qed.

Lemma chars_append (a b : string) : chars (a +:+ b) = chars a ++ chars b.
Proof.
  unfold chars. induction a as [|c a IH]; [reflexivity|].
  change (String c a +:+ b) with (String c (a +:+ b)). cbn [list_ascii_of_string].
  rewrite IH. reflexivity.
Qed.

Lemma digit_char_of_nat (n : nat) :
  (n < 10)%nat ->
  is_digit (digit_char (Z.of_nat n)) = true /\ digit_val (digit_char (Z.of_nat n)) = Z.of_nat n.
Proof.
  intros Hb. do 10 (destruct n as [|n]; [vm_compute; auto|]). lia.
Qed.

Lemma digit_char_spec (d : Z) :
  0 <= d <= 9 -> is_digit (digit_char d) = true /\ digit_val (digit_char d) = d.
Proof.
  intros Hd. rewrite <- (Z2Nat.id d) by lia. apply digit_char_of_nat. lia.
Qed.

Lemma int_of_digits_app (a b : list ascii) (acc : Z) :
  fold_left (fun acc c => if is_digit c then 10 * acc + digit_val c else acc) (a ++ b) acc
  = fold_left (fun acc c => if is_digit c then 10 * acc + digit_val c else acc) b
      (fold_left (fun acc c => if is_digit c then 10 * acc + digit_val c else acc) a acc).
Proof. apply fold_left_app. Qed.

Lemma pad_digits_fold (width : nat) (n acc : Z) :
  0 <= n ->
  fold_left (fun acc c => if is_digit c then 10 * acc + digit_val c else acc)
            (pad_digits width n) acc
  = acc * 10 ^ Z.of_nat width + n mod 10 ^ Z.of_nat width.
Proof.
  revert n acc. induction width as [|width IH]; intros n acc Hn.
  - simpl. rewrite Z.mod_1_r. lia.
  - cbn [pad_digits]. rewrite int_of_digits_app, IH by (apply Z.div_pos; lia).
    cbn [fold_left].
    destruct (digit_char_spec (n mod 10)) as [Hdig Hval];
      [pose proof (Z.mod_pos_bound n 10); lia|].
    rewrite Hdig, Hval.
    replace (Z.of_nat (S width)) with (Z.of_nat width + 1) by lia.
    rewrite Z.pow_add_r, Z.pow_1_r by lia.
    set (p := 10 ^ Z.of_nat width).
    assert (Hp : 0 < p) by (apply Z.pow_pos_nonneg; lia).
    assert (Hmod : n mod (p * 10) = 10 * ((n / 10) mod p) + n mod 10).
    { rewrite (Z.mul_comm p 10). rewrite Z.rem_mul_r by lia. lia. }
    rewrite Hmod. lia.
Qed.

Lemma int_of_pad_digits (width : nat) (n : Z) :
  0 <= n < 10 ^ Z.of_nat width -> int_of_digits (pad_digits width n) = n.
Proof.
  intros Hn. unfold int_of_digits. rewrite pad_digits_fold by lia.
  rewrite Z.mod_small by lia. lia.
Qed.

Lemma pad_digits_all_digits (width : nat) (n : Z) :
  forallb is_digit (pad_digits width n) = true.
Proof.
  revert n. induction width as [|width IH]; intros n; [reflexivity|].
  cbn [pad_digits]. rewrite forallb_app, IH. simpl.
  destruct (digit_char_spec (n mod 10)) as [Hdig _];
    [pose proof (Z.mod_pos_bound n 10); lia|].
  rewrite Hdig. reflexivity.
Qed.

(** ** Reading back what [strftime] wrote *)

Import Strptime.

Lemma regex_match_head (d : directive) (ds : list directive) (s m s' : list ascii)
    (tl : list (list ascii * list ascii)) (found : found_dict) r :
  alternatives d s = (m, s') :: tl ->
  regex_match ds s' (record_group d m found) = Some r ->
  regex_match (d :: ds) s found = Some r.
Proof.
  intros Halt Hrest. cbn [regex_match]. rewrite Halt. cbn [first_success fst snd].
  rewrite Hrest. reflexivity.
Qed.

Lemma alternatives_pad2_nat (d : directive) (lo hi : Z) (n : nat) (rest : list ascii) :
  two_digit_range d = Some (lo, hi) ->
  lo <= Z.of_nat n <= hi ->
  exists tl, alternatives d (pad_digits 2 (Z.of_nat n) ++ rest)
             = (pad_digits 2 (Z.of_nat n), rest) :: tl.
Proof.
  intros Hd Hn.
  assert (Hhi : hi <= 59) by (destruct d; inversion Hd; lia).
  do 60 (destruct n as [|n];
         [destruct d; inversion Hd; subst;
          first [lia | vm_compute; eexists; reflexivity]|]).
  lia.
Qed.

Lemma alternatives_pad2 (d : directive) (lo hi v : Z) (rest : list ascii) :
  two_digit_range d = Some (lo, hi) ->
  lo <= v <= hi ->
  exists tl, alternatives d (pad_digits 2 v ++ rest) = (pad_digits 2 v, rest) :: tl.
Proof.
  intros Hd Hv.
  assert (0 <= v) by (destruct d; inversion Hd; lia).
  rewrite <- (Z2Nat.id v) by lia.
  apply (alternatives_pad2_nat d lo hi); [exact Hd | lia].
Qed.

Lemma regex_match_pad2 (d : directive) (lo hi v : Z) (ds : list directive)
    (rest : list ascii) (found : found_dict) r :
  two_digit_range d = Some (lo, hi) ->
  lo <= v <= hi ->
  regex_match ds rest (found ++ [(d, pad_digits 2 v)]) = Some r ->
  regex_match (d :: ds) (pad_digits 2 v ++ rest) found = Some r.
Proof.
  intros Hd Hv Hrest.
  destruct (alternatives_pad2 d lo hi v rest Hd Hv) as [tl Halt].
  apply (regex_match_head _ _ _ _ _ _ _ _ Halt).
  destruct d; inversion Hd; exact Hrest.
Qed.

Lemma regex_match_pad4 (ds : list directive) (y : Z) (rest : list ascii)
    (found : found_dict) r :
  0 <= y ->
  regex_match ds rest (found ++ [(D_Y, pad_digits 4 y)]) = Some r ->
  regex_match (D_Y :: ds) (pad_digits 4 y ++ rest) found = Some r.
Proof.
  intros Hy Hrest.
  assert (Hdig : forall k, 0 <= k -> is_digit (digit_char (k mod 10)) = true).
  { intros k Hk. apply digit_char_spec. pose proof (Z.mod_pos_bound k 10). lia. }
  apply (regex_match_head _ _ _ (pad_digits 4 y) rest []); [|exact Hrest].
  cbn [pad_digits app alternatives group_alternatives omap list_omap match_classes].
  rewrite !Hdig by (repeat apply Z.div_pos; lia).
  reflexivity.
Qed.

Lemma regex_match_lit (c : ascii) (ds : list directive) (rest : list ascii)
    (found : found_dict) r :
  is_space c = false ->
  regex_match ds rest found = Some r ->
  regex_match (D_lit c :: ds) (c :: rest) found = Some r.
Proof.
  intros _ Hrest. apply (regex_match_head _ _ _ [c] rest []); [|exact Hrest].
  cbn [alternatives group_alternatives omap list_omap match_classes].
  unfold same_letter. rewrite Ascii.eqb_refl. reflexivity.
Qed.

Lemma is_space_digit_char_nat (n : nat) :
  (n < 10)%nat -> is_space (digit_char (Z.of_nat n)) = false.
Proof. intros Hb. do 10 (destruct n as [|n]; [reflexivity|]). lia. Qed.

Lemma is_space_digit_char (d : Z) : 0 <= d <= 9 -> is_space (digit_char d) = false.
Proof.
  intros Hd. rewrite <- (Z2Nat.id d) by lia. apply is_space_digit_char_nat. lia.
Qed.

(** One blank before a padded number: [\s+] takes exactly that blank. *)
Lemma regex_match_blank (ds : list directive) (v : Z) (rest : list ascii)
    (found : found_dict) r :
  0 <= v ->
  regex_match ds (pad_digits 2 v ++ rest) found = Some r ->
  regex_match (D_space :: ds) (" "%char :: pad_digits 2 v ++ rest) found = Some r.
Proof.
  intros Hv Hrest.
  apply (regex_match_head _ _ _ [" "%char] (pad_digits 2 v ++ rest) []); [|exact Hrest].
  cbn [pad_digits app alternatives space_runs].
  change (is_space " ") with true. cbv iota.
  rewrite is_space_digit_char
    by (pose proof (Z.mod_pos_bound (v / 10) 10); lia).
  reflexivity.
Qed.

Lemma days_in_month_bound (y m : Z) : 28 <= days_in_month y m <= 31.
Proof.
  unfold days_in_month.
  destruct (m =? 2); [destruct (is_leap y); lia|].
  destruct ((m =? 4) || (m =? 6) || (m =? 9) || (m =? 11)); lia.
Qed.

Lemma valid_datetime_ranges (t : datetime) :
  valid_datetime t = true ->
  1 <= year t <= 9999 /\ 1 <= month t <= 12 /\ 1 <= day t <= days_in_month (year t) (month t)
  /\ 0 <= hour t <= 23 /\ 0 <= minute t <= 59 /\ 0 <= second t <= 59
  /\ 0 <= microsecond t <= 999999.
Proof.
  unfold valid_datetime. rewrite !andb_true_iff, !Z.leb_le. tauto.
Qed.

Lemma valid_datetime_to_the_minute (t : datetime) :
  valid_datetime t = true -> valid_datetime (to_the_minute t) = true.
Proof.
  intros Hv. apply valid_datetime_ranges in Hv.
  unfold valid_datetime, to_the_minute. cbn [year month day hour minute second microsecond].
  rewrite !andb_true_iff, !Z.leb_le. lia.
Qed.

Lemma scheduler_text (t : datetime) :
  chars (strftime t "%m/%d/%Y" +:+ " " +:+ strftime t "%H:%M")
  = pad_digits 2 (month t) ++ "/"%char :: pad_digits 2 (day t) ++ "/"%char ::
    pad_digits 4 (year t) ++ " "%char :: pad_digits 2 (hour t) ++ ":"%char ::
    pad_digits 2 (minute t) ++ [].
Proof.
  rewrite !chars_append. unfold strftime. rewrite !chars_text. reflexivity.
Qed.

(** The scheduler reads the start date and time of a renewal task as the
    expiration with its seconds dropped. *)
Lemma trigger_time_renewal (env : Env) (exp : datetime) (args : Args.t) :
  valid_datetime exp = true ->
  trigger_time (renewal_task env exp args) = Returns (to_the_minute exp).
Proof.
  intros Hvalid. pose proof (valid_datetime_ranges exp Hvalid) as Hr.
  pose proof (days_in_month_bound (year exp) (month exp)) as Hdim.
  unfold trigger_time, renewal_task. cbn [start_date start_time].
  unfold strptime. rewrite scheduler_text.
  change (compile_format false (chars "%m/%d/%Y %H:%M"))
    with (Some [D_m; D_lit "/"; D_d; D_lit "/"; D_Y; D_space; D_H; D_lit ":"; D_M]).
  cbv iota.
  match goal with
  | |- context [regex_match ?ds ?s []] => eassert (Hm : regex_match ds s [] = Some _)
  end.
  { apply (regex_match_pad2 D_m 1 12); [reflexivity|lia|].
    apply regex_match_lit; [reflexivity|].
    apply (regex_match_pad2 D_d 1 31); [reflexivity|lia|].
    apply regex_match_lit; [reflexivity|].
    apply regex_match_pad4; [lia|].
    apply regex_match_blank; [lia|].
    apply (regex_match_pad2 D_H 0 23); [reflexivity|lia|].
    apply regex_match_lit; [reflexivity|].
    apply (regex_match_pad2 D_M 0 59); [reflexivity|lia|].
    cbn [regex_match app]. reflexivity. }
  rewrite Hm. cbv iota beta.
  assert (Hc : convert [(D_m, pad_digits 2 (month exp)); (D_d, pad_digits 2 (day exp));
                        (D_Y, pad_digits 4 (year exp)); (D_H, pad_digits 2 (hour exp));
                        (D_M, pad_digits 2 (minute exp))] = to_the_minute exp).
  { unfold convert, hour_of, int_group. cbn [group directive_eqb].
    rewrite !int_of_pad_digits by (cbn; lia). reflexivity. }
  rewrite Hc, (valid_datetime_to_the_minute exp Hvalid). reflexivity.
Qed.

(** ** What the expiration parser lets through *)

Lemma first_success_inv {A B} (f : A -> option B) (l : list A) (b : B) :
  first_success f l = Some b -> exists a, a ∈ l /\ f a = Some b.
Proof.
  induction l as [|a l IH]; cbn [first_success]; [discriminate|].
  destruct (f a) eqn:Hfa.
  - intros [= ->]. exists a. split; [left|exact Hfa].
  - intros H. destruct (IH H) as (a' & Hin & Hf). exists a'. split; [right; exact Hin|exact Hf].
Qed.

Lemma regex_match_cons_inv (d : directive) (ds : list directive) (s : list ascii)
    (found : found_dict) r :
  regex_match (d :: ds) s found = Some r ->
  exists m s', (m, s') ∈ alternatives d s
               /\ regex_match ds s' (record_group d m found) = Some r.
Proof.
  cbn [regex_match]. intros H. apply first_success_inv in H as ([m s'] & Hin & Hrest).
  exists m, s'. split; assumption.
Qed.

Lemma match_classes_inv (cls : list (ascii -> bool)) (s m s' : list ascii) :
  match_classes cls s = Some (m, s') ->
  s = m ++ s' /\ Forall2 (fun p c => p c = true) cls m.
Proof.
  revert s m. induction cls as [|p cls IH]; intros s m; cbn [match_classes].
  - intros [= <- <-]. split; [reflexivity|constructor].
  - destruct s as [|c s]; [discriminate|].
    destruct (p c) eqn:Hp; [|discriminate].
    destruct (match_classes cls s) as [[m0 r0]|] eqn:Hrec; [|discriminate].
    intros [= <- <-]. destruct (IH _ _ Hrec) as [-> HF].
    split; [reflexivity|constructor; assumption].
Qed.

Lemma group_alternative_inv (d : directive) (s m s' : list ascii) :
  d <> D_space ->
  (m, s') ∈ alternatives d s ->
  s = m ++ s' /\ exists cls, cls ∈ group_alternatives d /\ Forall2 (fun p c => p c = true) cls m.
Proof.
  intros Hd Hin.
  assert (Hom : (m, s') ∈ omap (fun cls => match_classes cls s) (group_alternatives d)).
  { destruct d; try exact Hin. congruence. }
  apply list_elem_of_omap in Hom as (cls & Hcls & Hm).
  apply match_classes_inv in Hm as [-> HF]. split; [reflexivity|]. exists cls. auto.
Qed.

(** Character classes as bounds on the character code. *)
Lemma between_spec (lo hi c : ascii) :
  between lo hi c = true <-> (nat_of_ascii lo <= nat_of_ascii c <= nat_of_ascii hi)%nat.
Proof. unfold between. rewrite andb_true_iff, !Nat.leb_le. tauto. Qed.

Lemma is_digit_spec (c : ascii) :
  is_digit c = true <-> (48 <= nat_of_ascii c <= 57)%nat.
Proof. unfold is_digit. rewrite andb_true_iff, !Nat.leb_le. tauto. Qed.

Lemma eqb_code (a c : ascii) : Ascii.eqb a c = true -> nat_of_ascii c = nat_of_ascii a.
Proof. intros H. apply Ascii.eqb_eq in H. congruence. Qed.

Lemma int_of_one (c : ascii) :
  is_digit c = true -> int_of_digits [c] = digit_val c.
Proof. intros H. unfold int_of_digits. cbn [fold_left]. rewrite H. lia. Qed.

Lemma int_of_two (c1 c2 : ascii) :
  is_digit c1 = true -> is_digit c2 = true ->
  int_of_digits [c1; c2] = 10 * digit_val c1 + digit_val c2.
Proof. intros H1 H2. unfold int_of_digits. cbn [fold_left]. rewrite H1, H2. lia. Qed.

Lemma int_of_blank_digit (c : ascii) :
  is_digit c = true -> int_of_digits [" "%char; c] = digit_val c.
Proof. intros H. unfold int_of_digits. cbn [fold_left]. rewrite H. reflexivity. Qed.

(** Turn the facts about classes into bounds and split the matched text. *)
Ltac code_of a H :=
  let n := eval vm_compute in (nat_of_ascii a) in
  change (nat_of_ascii a) with n in H.

Ltac class_bounds :=
  repeat match goal with
         | H : Forall2 _ (_ :: _) _ |- _ =>
           apply Forall2_cons_inv_l in H as (? & ? & ? & H & ->)
         | H : Forall2 _ [] _ |- _ => apply Forall2_nil_inv_l in H as ->
         | H : between ?lo ?hi _ = true |- _ =>
           apply between_spec in H; code_of lo H; code_of hi H
         | H : is_digit _ = true |- _ => apply is_digit_spec in H
         | H : Ascii.eqb ?a _ = true |- _ => apply eqb_code in H; code_of a H
         end.

Ltac numeral_range :=
  unfold numeral; cbn [length forallb];
  repeat match goal with
         | |- _ /\ _ => split
         | |- _ \/ _ => first [left; reflexivity | right; reflexivity]
         | |- (_ && _) = true => apply andb_true_iff; split
         | |- is_digit _ = true => apply is_digit_spec; lia
         | |- true = true => reflexivity
         | |- int_of_digits _ = int_of_digits _ => reflexivity
         end;
  try (rewrite int_of_two by (apply is_digit_spec; lia));
  try (rewrite int_of_one by (apply is_digit_spec; lia));
  unfold digit_val; try lia.

Lemma two_digit_inv (d : directive) (lo hi : Z) (s m s' : list ascii) :
  two_digit_range d = Some (lo, hi) ->
  (m, s') ∈ alternatives d s ->
  s = m ++ s'
  /\ (numeral lo (if directive_eqb d D_S then 61 else hi) m (int_of_digits m)
      \/ (d = D_d /\ day_numeral m (int_of_digits m))).
Proof.
  intros Hd Hin.
  apply group_alternative_inv in Hin as [-> (cls & Hcls & HF)];
    [|destruct d; discriminate].
  split; [reflexivity|].
  destruct d; inversion Hd; subst; cbn [group_alternatives directive_eqb] in *;
    repeat (apply elem_of_cons in Hcls as [->|Hcls]);
    try (apply elem_of_nil in Hcls; contradiction);
    class_bounds;
    first [ left; solve [numeral_range]
          | right; split; [reflexivity|]; right;
            match goal with
            | H : nat_of_ascii ?x = 32%nat |- _ =>
              rewrite <- (ascii_nat_embedding x), H
            end;
            eexists; split; [reflexivity|];
            rewrite int_of_blank_digit by (apply is_digit_spec; lia);
            unfold digit_val; repeat split; try (apply is_digit_spec); lia ].
Qed.

Lemma year_inv (s m s' : list ascii) :
  (m, s') ∈ alternatives D_Y s -> s = m ++ s' /\ year_numeral m (int_of_digits m).
Proof.
  intros Hin. apply group_alternative_inv in Hin as [-> (cls & Hcls & HF)]; [|discriminate].
  split; [reflexivity|]. cbn [group_alternatives] in Hcls.
  apply list_elem_of_singleton in Hcls as ->.
  repeat match goal with
         | H : Forall2 _ (_ :: _) _ |- _ =>
           apply Forall2_cons_inv_l in H as (? & ? & ? & H & ->)
         | H : Forall2 _ [] _ |- _ => apply Forall2_nil_inv_l in H as ->
         end.
  unfold year_numeral. cbn [length forallb].
  repeat match goal with H : is_digit _ = true |- _ => rewrite H; clear H end.
  auto.
Qed.

Lemma lower_fixed (c : ascii) : between "A" "Z" c = false -> lower c = c.
Proof. intros H. unfold lower. rewrite H. reflexivity. Qed.

Lemma lower_is_not_upper (x : ascii) : between "A" "Z" (lower x) = false.
Proof.
  unfold lower. destruct (between "A" "Z" x) eqn:Hx; [|exact Hx].
  apply between_spec in Hx. code_of "A"%char Hx. code_of "Z"%char Hx.
  apply not_true_is_false. rewrite between_spec.
  rewrite nat_ascii_embedding by lia.
  change (nat_of_ascii "A") with 65%nat. change (nat_of_ascii "Z") with 90%nat. lia.
Qed.

(** A separator that is not a letter matches only itself. *)
Lemma separator_inv (c : ascii) (s m s' : list ascii) :
  between "A" "Z" c = false -> between "a" "z" c = false ->
  (m, s') ∈ alternatives (D_lit c) s -> s = c :: s' /\ m = [c].
Proof.
  intros Hup Hlow Hin.
  apply group_alternative_inv in Hin as [-> (cls & Hcls & HF)]; [|discriminate].
  cbn [group_alternatives] in Hcls. apply list_elem_of_singleton in Hcls as ->.
  apply Forall2_cons_inv_l in HF as (x & m' & Hx & HF & ->).
  apply Forall2_nil_inv_l in HF as ->.
  unfold same_letter in Hx. apply Ascii.eqb_eq in Hx. rewrite (lower_fixed c Hup) in Hx.
  assert (x = c) as ->; [|split; reflexivity].
  unfold lower in Hx. destruct (between "A" "Z" x) eqn:Hxu; [|congruence].
  exfalso. apply between_spec in Hxu. code_of "A"%char Hxu. code_of "Z"%char Hxu.
  apply not_true_iff_false in Hlow. apply Hlow. rewrite between_spec, Hx.
  rewrite nat_ascii_embedding by lia.
  change (nat_of_ascii "a") with 97%nat. change (nat_of_ascii "z") with 122%nat. lia.
Qed.

Lemma space_runs_inv (s m s' : list ascii) :
  (m, s') ∈ space_runs s -> s = m ++ s' /\ blanks m.
Proof.
  revert m. induction s as [|c s IH]; intros m; cbn [space_runs].
  - intros H. apply elem_of_nil in H. contradiction.
  - destruct (is_space c) eqn:Hc; [|intros H; apply elem_of_nil in H; contradiction].
    rewrite elem_of_app, list_elem_of_singleton.
    intros [Hin|Heq].
    + apply list_elem_of_In, in_map_iff in Hin as ([m0 r0] & Heq & Hin).
      apply list_elem_of_In in Hin.
      cbn [fst snd] in Heq. injection Heq as <- <-.
      destruct (IH _ Hin) as [-> [_ Hsp]].
      split; [reflexivity|]. split; [discriminate|]. cbn [forallb]. rewrite Hc. exact Hsp.
    + injection Heq as -> ->. split; [reflexivity|]. split; [discriminate|].
      cbn [forallb]. rewrite Hc. reflexivity.
Qed.

Lemma designator_inv (s m s' : list ascii) :
  (m, s') ∈ alternatives D_p s -> s = m ++ s' /\ exists pm, designator m pm.
Proof.
  intros Hin. apply group_alternative_inv in Hin as [-> (cls & Hcls & HF)]; [|discriminate].
  split; [reflexivity|]. cbn [group_alternatives] in Hcls.
  repeat (apply elem_of_cons in Hcls as [->|Hcls]);
    try (apply elem_of_nil in Hcls; contradiction);
    apply Forall2_cons_inv_l in HF as (x & m' & Hx & HF & ->);
    apply Forall2_cons_inv_l in HF as (y & m'' & Hy & HF & ->);
    apply Forall2_nil_inv_l in HF as ->;
    unfold same_letter in Hx, Hy; apply Ascii.eqb_eq in Hx, Hy;
    [exists false | exists true]; unfold designator; cbn [map]; rewrite <- Hx, <- Hy;
    reflexivity.
Qed.


Lemma strptime_returns_valid (s fmt : string) (t : datetime) :
  strptime s fmt = Returns t -> valid_datetime t = true.
Proof.
  unfold strptime.
  destruct (compile_format false (chars fmt)); [|congruence].
  destruct (regex_match _ _ _) as [[found [|c rest]]|]; try congruence.
  destruct (valid_datetime _) eqn:Hv; congruence.
Qed.

Ltac next_group H Hin :=
  apply regex_match_cons_inv in H as (? & ? & Hin & H).

Ltac two_digits d lo hi H Hs Hnum :=
  apply (two_digit_inv d lo hi) in H; [|reflexivity];
  destruct H as [Hs [Hnum|[? _]]]; [|discriminate].

(** Every text the parser turns into a timestamp is an expiration text of
    the fixed pattern, and the timestamp is the one the text denotes. *)
Lemma strptime_sound (s : string) (t : datetime) :
  strptime s date_format = Returns t -> expiration_text (chars s) t.
Proof.
  intros Hparse. pose proof (strptime_returns_valid _ _ _ Hparse) as Hvalid.
  apply valid_datetime_ranges in Hvalid.
  unfold strptime in Hparse.
  change (compile_format false (chars date_format))
    with (Some [D_m; D_lit "/"; D_d; D_lit "/"; D_Y; D_space;
                D_I; D_lit ":"; D_M; D_lit ":"; D_S; D_space; D_p]) in Hparse.
  cbv iota in Hparse.
  destruct (regex_match _ _ _) as [[found [|c rest]]|] eqn:Hm; try discriminate.
  destruct (valid_datetime (convert found)); [|discriminate].
  injection Hparse as <-.
  next_group Hm Hin. two_digits D_m 1 12 Hin Hs0 Hmo.
  next_group Hm Hin. apply separator_inv in Hin; [|reflexivity..]. destruct Hin as [Hs1 ->].
  next_group Hm Hin. apply (two_digit_inv D_d 1 31) in Hin; [|reflexivity].
  destruct Hin as [Hs2 Hd].
  next_group Hm Hin. apply separator_inv in Hin; [|reflexivity..]. destruct Hin as [Hs3 ->].
  next_group Hm Hin. apply year_inv in Hin as [Hs4 Hy].
  next_group Hm Hin. apply space_runs_inv in Hin as [Hs5 Hws1].
  next_group Hm Hin. two_digits D_I 1 12 Hin Hs6 Hh.
  next_group Hm Hin. apply separator_inv in Hin; [|reflexivity..]. destruct Hin as [Hs7 ->].
  next_group Hm Hin. two_digits D_M 0 59 Hin Hs8 Hmi.
  next_group Hm Hin. apply separator_inv in Hin; [|reflexivity..]. destruct Hin as [Hs9 ->].
  next_group Hm Hin. two_digits D_S 0 59 Hin Hs10 Hse.
  next_group Hm Hin. apply space_runs_inv in Hin as [Hs11 Hws2].
  next_group Hm Hin. apply designator_inv in Hin as [Hs12 [pm Hp]].
  cbn [regex_match record_group app] in Hm. injection Hm as Hfound Hrest.
  subst found x20. rewrite app_nil_r in Hs12. subst.
  rewrite Hs0. cbn [directive_eqb] in *.
  revert Hvalid. unfold convert, int_group.
  cbn [group directive_eqb Ascii.eqb Bool.eqb year month day hour minute second microsecond].
  intros Hvalid.
  eapply (expiration_text_intro _ _ _ _ _ _ _ _ _ _ pm);
    cbn [year month day hour minute second microsecond];
    try eassumption; try reflexivity; try lia.
  - destruct Hd as [Hd|[_ Hd]]; [left|]; exact Hd.
  - cbn [directive_eqb] in Hse. destruct Hse as (Hlen & Hdig & Heq & Hrange).
    repeat split; try assumption; lia.
  - unfold hour_of, hour24. cbn [group directive_eqb default].
    unfold designator in Hp. unfold id. rewrite Hp.
    destruct pm; cbn [text chars list_ascii_of_string string_of_list_ascii String.eqb Ascii.eqb
                      Bool.eqb orb];
      [destruct (int_of_digits x9 =? 12) eqn:H12; [apply Z.eqb_eq in H12; lia|]|];
      reflexivity.
Qed.

(** ** Every expiration text is parsed *)

Lemma digit_cases (c : ascii) :
  is_digit c = true -> exists n, (n < 10)%nat /\ c = digit_char (Z.of_nat n).
Proof.
  intros H. apply is_digit_spec in H. exists (nat_of_ascii c - 48)%nat.
  split; [lia|]. unfold digit_char.
  replace (Z.to_nat (48 + Z.of_nat (nat_of_ascii c - 48))) with (nat_of_ascii c) by lia.
  symmetry. apply ascii_nat_embedding.
Qed.

Lemma is_space_separator (c : ascii) : is_space c = true -> c ∈ separators.
Proof.
  intros H. unfold is_space in H.
  rewrite orb_true_iff, !andb_true_iff, !Nat.leb_le in H.
  rewrite <- (ascii_nat_embedding c). generalize dependent (nat_of_ascii c). intros n H.
  do 33 (destruct n as [|n]; [first [exfalso; lia | unfold separators; cbn; repeat constructor]|]).
  exfalso. lia.
Qed.

Lemma separator_not_digit (c : ascii) : c ∈ separators -> is_digit c = false.
Proof.
  unfold separators. cbn [app map]. intros H.
  repeat (apply elem_of_cons in H as [->|H]; [reflexivity|]).
  apply elem_of_nil in H. contradiction.
Qed.

Ltac each_digit n body :=
  do 10 (destruct n as [|n]; [body|]); try (exfalso; lia).

Ltac each_separator H :=
  unfold separators in H; cbn [app map] in H;
  repeat (apply elem_of_cons in H as [->|H]; [vm_compute; eexists; reflexivity|]);
  apply elem_of_nil in H; contradiction.

(** A number of the text, followed by a separator, is what its group
    matches first. *)
Lemma numeral_head (d : directive) (lo hi v : Z) (m : list ascii) (sep : ascii)
    (rest : list ascii) :
  two_digit_range d = Some (lo, hi) ->
  numeral lo hi m v ->
  sep ∈ separators ->
  exists tl, alternatives d (m ++ sep :: rest) = (m, sep :: rest) :: tl.
Proof.
  intros Hd (Hlen & Hdig & Hval & Hrange) Hsep.
  destruct m as [|c1 [|c2 [|c3 m]]]; cbn [length] in Hlen; try lia.
  - cbn [forallb] in Hdig. rewrite andb_true_r in Hdig.
    rewrite int_of_one in Hval by exact Hdig.
    destruct (digit_cases c1 Hdig) as (n1 & Hn1 & ->).
    rewrite (proj2 (digit_char_of_nat n1 Hn1)) in Hval. subst v. cbn [app].
    destruct d; inversion Hd; subst lo hi; clear Hd;
      each_digit n1 ltac:(first [exfalso; lia | each_separator Hsep]).
  - cbn [forallb] in Hdig. rewrite andb_true_r in Hdig.
    apply andb_true_iff in Hdig as [Hdig1 Hdig2].
    rewrite int_of_two in Hval by assumption.
    destruct (digit_cases c1 Hdig1) as (n1 & Hn1 & ->).
    destruct (digit_cases c2 Hdig2) as (n2 & Hn2 & ->).
    rewrite (proj2 (digit_char_of_nat n1 Hn1)), (proj2 (digit_char_of_nat n2 Hn2)) in Hval.
    subst v. cbn [app]. clear Hsep.
    destruct d; inversion Hd; subst lo hi; clear Hd;
      each_digit n1 ltac:(each_digit n2
        ltac:(first [exfalso; lia | vm_compute; eexists; reflexivity])).
Qed.

Lemma blank_day_head (c sep : ascii) (rest : list ascii) :
  is_digit c = true -> 1 <= digit_val c <= 9 ->
  exists tl, alternatives D_d (" "%char :: c :: sep :: rest)
             = ([" "%char; c], sep :: rest) :: tl.
Proof.
  intros Hdig Hrange. destruct (digit_cases c Hdig) as (n & Hn & ->).
  rewrite (proj2 (digit_char_of_nat n Hn)) in Hrange.
  each_digit n ltac:(first [exfalso; lia | vm_compute; eexists; reflexivity]).
Qed.

Lemma day_head (m : list ascii) (v : Z) (sep : ascii) (rest : list ascii) :
  day_numeral m v ->
  sep ∈ separators ->
  exists tl, alternatives D_d (m ++ sep :: rest) = (m, sep :: rest) :: tl.
Proof.
  intros [Hnum|(c & -> & Hdig & Hval & Hrange)] Hsep.
  - apply (numeral_head D_d 1 31 v); [reflexivity|exact Hnum|exact Hsep].
  - subst v. apply blank_day_head; assumption.
Qed.

Lemma year_head (m : list ascii) (v : Z) (rest : list ascii) :
  year_numeral m v ->
  alternatives D_Y (m ++ rest) = [(m, rest)].
Proof.
  intros (Hlen & Hdig & _).
  destruct m as [|c1 [|c2 [|c3 [|c4 [|c5 m]]]]]; try discriminate Hlen.
  cbn [forallb] in Hdig. rewrite !andb_true_iff in Hdig.
  destruct Hdig as (H1 & H2 & H3 & H4 & _).
  cbn [app alternatives group_alternatives omap list_omap match_classes].
  rewrite H1, H2, H3, H4. reflexivity.
Qed.

Lemma int_of_four (c1 c2 c3 c4 : ascii) :
  is_digit c1 = true -> is_digit c2 = true -> is_digit c3 = true -> is_digit c4 = true ->
  0 <= int_of_digits [c1; c2; c3; c4] <= 9999.
Proof.
  intros H1 H2 H3 H4. unfold int_of_digits. cbn [fold_left]. rewrite H1, H2, H3, H4.
  apply is_digit_spec in H1, H2, H3, H4. unfold digit_val. lia.
Qed.

Lemma year_numeral_bound (m : list ascii) (v : Z) : year_numeral m v -> 0 <= v <= 9999.
Proof.
  intros (Hlen & Hdig & <-).
  destruct m as [|c1 [|c2 [|c3 [|c4 [|c5 m]]]]]; try discriminate Hlen.
  cbn [forallb] in Hdig. rewrite !andb_true_iff in Hdig.
  destruct Hdig as (H1 & H2 & H3 & H4 & _). apply int_of_four; assumption.
Qed.

Lemma space_runs_head (ws : list ascii) (c : ascii) (rest : list ascii) :
  blanks ws ->
  is_space c = false ->
  exists tl, space_runs (ws ++ c :: rest) = (ws, c :: rest) :: tl.
Proof.
  intros [Hne Hsp] Hc. induction ws as [|a ws IH]; [congruence|].
  cbn [forallb] in Hsp. apply andb_true_iff in Hsp as [Ha Hws].
  cbn [app space_runs]. rewrite Ha.
  destruct ws as [|b ws].
  - cbn [app space_runs]. rewrite Hc. cbn [map app]. eexists. reflexivity.
  - destruct IH as [tl Htl]; [discriminate|exact Hws|].
    rewrite Htl. cbn [map app fst snd]. eexists. reflexivity.
Qed.

Lemma numeral_starts_with_digit (lo hi v : Z) (m : list ascii) :
  numeral lo hi m v -> exists c m', m = c :: m' /\ is_space c = false.
Proof.
  intros (Hlen & Hdig & _). destruct m as [|c m]; [cbn in Hlen; lia|].
  exists c, m. split; [reflexivity|].
  cbn [forallb] in Hdig. apply andb_true_iff in Hdig as [Hc _].
  apply is_digit_spec in Hc. unfold is_space.
  apply orb_false_iff. split; apply andb_false_iff; right; apply Nat.leb_gt; lia.
Qed.

(** The letters that [lower] sends to a given lower-case letter. *)
Lemma lower_inv (x c : ascii) :
  between "a" "z" c = true ->
  lower x = c -> x = c \/ x = ascii_of_nat (nat_of_ascii c - 32).
Proof.
  intros Hc. unfold lower. destruct (between "A" "Z" x) eqn:Hx; [|auto].
  intros <-. right. apply between_spec in Hx. code_of "Z"%char Hx.
  rewrite nat_ascii_embedding by lia.
  replace (nat_of_ascii x + 32 - 32)%nat with (nat_of_ascii x) by lia.
  symmetry. apply ascii_nat_embedding.
Qed.

Lemma designator_cases (p : list ascii) (pm : bool) :
  designator p pm ->
  exists x y, p = [x; y]
    /\ (x = (if pm then "p" else "a")%char \/ x = (if pm then "P" else "A")%char)
    /\ (y = "m"%char \/ y = "M"%char).
Proof.
  unfold designator. intros H.
  destruct p as [|x [|y [|z p]]]; try (destruct pm; discriminate H).
  exists x, y. split; [reflexivity|].
  destruct pm; cbn [map chars list_ascii_of_string] in H; injection H as Hx Hy;
    apply lower_inv in Hx; try reflexivity; apply lower_inv in Hy; try reflexivity;
    split; assumption.
Qed.

Lemma slash_separator : "/"%char ∈ separators.
Proof. unfold separators. cbn. repeat constructor. Qed.

Lemma colon_separator : ":"%char ∈ separators.
Proof. unfold separators. cbn. repeat constructor. Qed.

Lemma hour24_range (hour12 : Z) (pm : bool) : 1 <= hour12 <= 12 -> 0 <= hour24 hour12 pm <= 23.
Proof.
  intros H. unfold hour24.
  destruct pm; destruct (hour12 =? 12) eqn:H12; try apply Z.eqb_neq in H12; lia.
Qed.

Lemma day_numeral_value (m : list ascii) (v : Z) :
  day_numeral m v -> int_of_digits m = v /\ 1 <= v.
Proof.
  intros [(_ & _ & Hval & Hrange)|(c & -> & Hdig & Hval & Hrange)].
  - split; [exact Hval|lia].
  - rewrite int_of_blank_digit by exact Hdig. split; [exact Hval|lia].
Qed.

(** Conversely every expiration text is parsed, to the timestamp it
    denotes. *)
Lemma strptime_complete (s : string) (t : datetime) :
  expiration_text (chars s) t -> strptime s date_format = Returns t.
Proof.
  intros Htext.
  inversion Htext as [mo d y ws1 h mi se ws2 p hour12 pm t'
                         Hmo Hd Hy Hws1 Hh Hmi Hse Hws2 Hp Hhour Hus Hyear Hdim Hs Ht].
  subst t'. clear Htext.
  destruct (numeral_starts_with_digit _ _ _ _ Hh) as (ch & h' & Hheq & Hch).
  destruct Hws2 as [Hne2 Hsp2]. destruct ws2 as [|a ws2]; [congruence|].
  assert (Ha : a ∈ separators).
  { apply is_space_separator. cbn [forallb] in Hsp2. apply andb_true_iff in Hsp2. tauto. }
  destruct (designator_cases p pm Hp) as (x & z & Hpeq & Hx & Hz).
  assert (Hxsp : is_space x = false) by (destruct pm, Hx as [->| ->]; reflexivity).
  assert (Hmatch : regex_match
            [D_m; D_lit "/"; D_d; D_lit "/"; D_Y; D_space;
             D_I; D_lit ":"; D_M; D_lit ":"; D_S; D_space; D_p]
            (chars s) []
          = Some ([(D_m, mo); (D_d, d); (D_Y, y); (D_I, h); (D_M, mi); (D_S, se); (D_p, p)],
                  [])).
  { rewrite <- Hs.
    destruct (numeral_head D_m 1 12 _ mo "/"
                (d ++ "/"%char :: y ++ ws1 ++ h ++ ":"%char :: mi ++ ":"%char :: se
                   ++ (a :: ws2) ++ p) eq_refl Hmo slash_separator) as [tl1 H1].
    apply (regex_match_head _ _ _ _ _ _ _ _ H1). apply regex_match_lit; [reflexivity|].
    destruct (day_head d _ "/"
                (y ++ ws1 ++ h ++ ":"%char :: mi ++ ":"%char :: se ++ (a :: ws2) ++ p)
                Hd slash_separator) as [tl2 H2].
    apply (regex_match_head _ _ _ _ _ _ _ _ H2). apply regex_match_lit; [reflexivity|].
    apply (regex_match_head _ _ _ _ _ _ _ _ (year_head y _ _ Hy)).
    subst h.
    destruct (space_runs_head ws1 ch
                (h' ++ ":"%char :: mi ++ ":"%char :: se ++ (a :: ws2) ++ p) Hws1 Hch)
      as [tl3 H3].
    apply (regex_match_head D_space _ _ ws1
             ((ch :: h') ++ ":"%char :: mi ++ ":"%char :: se ++ (a :: ws2) ++ p) tl3);
      [exact H3|].
    destruct (numeral_head D_I 1 12 _ (ch :: h') ":"
                (mi ++ ":"%char :: se ++ (a :: ws2) ++ p) eq_refl Hh colon_separator)
      as [tl4 H4].
    apply (regex_match_head _ _ _ _ _ _ _ _ H4). apply regex_match_lit; [reflexivity|].
    destruct (numeral_head D_M 0 59 _ mi ":" (se ++ (a :: ws2) ++ p)
                eq_refl Hmi colon_separator) as [tl5 H5].
    apply (regex_match_head _ _ _ _ _ _ _ _ H5). apply regex_match_lit; [reflexivity|].
    destruct (numeral_head D_S 0 59 _ se a (ws2 ++ p) eq_refl Hse Ha) as [tl6 H6].
    apply (regex_match_head D_S _ _ se ((a :: ws2) ++ p) tl6); [exact H6|].
    subst p.
    destruct (space_runs_head (a :: ws2) x [z] (conj Hne2 Hsp2) Hxsp) as [tl7 H7].
    apply (regex_match_head D_space _ _ (a :: ws2) [x; z] tl7); [exact H7|].
    assert (H8 : exists tl, alternatives D_p [x; z] = ([x; z], []) :: tl).
    { destruct pm, Hx as [->| ->], Hz as [->| ->]; vm_compute; eexists; reflexivity. }
    destruct H8 as [tl8 H8].
    apply (regex_match_head _ _ _ _ _ _ _ _ H8). reflexivity. }
  unfold strptime.
  change (compile_format false (chars date_format))
    with (Some [D_m; D_lit "/"; D_d; D_lit "/"; D_Y; D_space;
                D_I; D_lit ":"; D_M; D_lit ":"; D_S; D_space; D_p]).
  cbv iota. rewrite Hmatch. cbv iota beta.
  destruct (day_numeral_value d _ Hd) as [Hdval Hdpos].
  pose proof (year_numeral_bound y _ Hy) as Hybound.
  destruct Hmo as (_ & _ & Hmoval & Hmorange). destruct Hy as (_ & _ & Hyval).
  destruct Hh as (_ & _ & Hhval & Hhrange). destruct Hmi as (_ & _ & Hmival & Hmirange).
  destruct Hse as (_ & _ & Hseval & Hserange).
  assert (Hconv : convert [(D_m, mo); (D_d, d); (D_Y, y); (D_I, h); (D_M, mi); (D_S, se);
                           (D_p, p)] = t).
  { destruct t as [ty tm td th tmi ts tus].
    cbn [year month day hour minute second microsecond] in *.
    unfold convert, int_group, hour_of. cbn [group directive_eqb default]. unfold id.
    unfold designator in Hp. rewrite Hp.
    rewrite Hmoval, Hdval, Hyval, Hmival, Hseval, Hhval, Hus, Hhour. unfold hour24.
    destruct pm; cbn [text chars list_ascii_of_string string_of_list_ascii String.eqb
                      Ascii.eqb Bool.eqb orb];
      [destruct (hour12 =? 12) eqn:H12; [apply Z.eqb_eq in H12; rewrite H12|]|];
      reflexivity. }
  rewrite Hconv.
  assert (Hvalid : valid_datetime t = true).
  { pose proof (hour24_range hour12 pm Hhrange) as Hhr. rewrite <- Hhour in Hhr.
    pose proof (days_in_month_bound (year t) (month t)).
    unfold valid_datetime. rewrite !andb_true_iff, !Z.leb_le. lia. }
  rewrite Hvalid. reflexivity.
Qed.


(** * Properties of the pipeline *)

(** ** Bookkeeping *)

Lemma events_of_extension {A} (m : M A) (w : World) (evs : list Event) :
  trace (after m w) = trace w ++ evs -> events m w = evs.
Proof.
  intros H. unfold events. rewrite H. apply drop_app_length.
Qed.

Lemma count_app (p : Event -> bool) (l1 l2 : list Event) :
  count p (l1 ++ l2) = (count p l1 + count p l2)%nat.
Proof. unfold count. rewrite List.filter_app, length_app. reflexivity. Qed.

Lemma datetime_gt_irrefl (t : datetime) : datetime_gt t t = false.
Proof.
  unfold datetime_gt. induction (datetime_fields t) as [|x l IH]; [reflexivity|].
  simpl. rewrite Z.gtb_ltb, Z.ltb_irrefl. exact IH.
Qed.

(** [datetime_gt] is "strictly later" on the calendar. *)
Lemma tuple_gt_cons (x y : Z) (a b : list Z) :
  tuple_gt (x :: a) (y :: b) = true <-> y < x \/ (x = y /\ tuple_gt a b = true).
Proof.
  cbn [tuple_gt]. destruct (x >? y) eqn:Hgt.
  - apply Z.gtb_lt in Hgt. split; auto.
  - destruct (x <? y) eqn:Hlt.
    + apply Z.ltb_lt in Hlt. split; [discriminate|lia].
    + apply Z.ltb_ge in Hlt. rewrite Z.gtb_ltb in Hgt. apply Z.ltb_ge in Hgt.
      split; [intros H; right; split; [lia|exact H]|intros [H|[_ H]]; [lia|exact H]].
Qed.

Lemma datetime_gt_later (a b : datetime) :
  Strptime.valid_datetime a = true -> Strptime.valid_datetime b = true ->
  (datetime_gt a b = true <-> calendar_key b < calendar_key a).
Proof.
  intros Ha Hb. apply valid_datetime_ranges in Ha, Hb.
  pose proof (days_in_month_bound (year a) (month a)).
  pose proof (days_in_month_bound (year b) (month b)).
  unfold datetime_gt, datetime_fields, calendar_key.
  rewrite !tuple_gt_cons. cbn [tuple_gt]. split; [intros H1|intros H1]; lia.
Qed.

(** ** Deleting the screenshot *)

(** C9: deleting a screenshot that is not on disk returns normally, writes
    one error to the log and attempts no removal: no [Remove] event, the
    files are as before. *)
Theorem delete_missing_reports_error (path : string) (w : World) :
  path ∉ files w ->
  outcome (delete_screenshot_of_permit path) w = Ok tt
  /\ events (delete_screenshot_of_permit path) w
     = [LogError ("Could not find and delete " +:+ path +:+ ".")]
  /\ count is_remove (events (delete_screenshot_of_permit path) w) = 0%nat
  /\ files (after (delete_screenshot_of_permit path) w) = files w.
Proof.
  intros Hmissing.
  assert (Hrun : delete_screenshot_of_permit path w
                 = (Ok tt, record_event (LogError ("Could not find and delete " +:+ path +:+ ".")) w)).
  { unfold delete_screenshot_of_permit. rewrite bool_decide_eq_false_2 by exact Hmissing.
    reflexivity. }
  assert (Hev : events (delete_screenshot_of_permit path) w
                = [LogError ("Could not find and delete " +:+ path +:+ ".")]).
  { apply events_of_extension. unfold after. rewrite Hrun. reflexivity. }
  unfold outcome, after. rewrite Hev, Hrun. simpl. auto.
Qed.

Lemma delete_missing_reports_error_witness :
  ("C:\shots\gone.png" ∉ files fresh_world)
  /\ outcome (delete_screenshot_of_permit "C:\shots\gone.png") fresh_world = Ok tt.
Proof.
  split.
  - simpl. set_solver.
  - apply (delete_missing_reports_error "C:\shots\gone.png" fresh_world).
    simpl. set_solver.
Defined.

(** ** Scheduling the renewal *)

Lemma schedule_future (env : Env) (exp : datetime) (args : Args.t) (w : World) :
  datetime_gt exp (now env (trace w)) = true ->
  schedule_program_to_renew_permit env exp args w
  = (Ok tt,
     set_tasks (<[task_name := renewal_task env exp args]> (tasks w))
               (record_event
                  (Run ["schtasks"; "/create"; "/tn"; task_name;
                        "/tr"; renewal_command env args;
                        "/sc"; "once";
                        "/sd"; strftime exp "%m/%d/%Y";
                        "/st"; strftime exp "%H:%M";
                        "/rl"; "HIGHEST"; "/f"]) w)).
Proof.
  intros Hgt. unfold schedule_program_to_renew_permit, bind, datetime_now.
  rewrite Hgt. reflexivity.
Qed.

Lemma schedule_not_future (env : Env) (exp : datetime) (args : Args.t) (w : World) :
  datetime_gt exp (now env (trace w)) = false ->
  schedule_program_to_renew_permit env exp args w
  = (Exit 1,
     record_event
       (LogError ("An unknown error has occurred where the parking permit has already expired."
                  +:+ newline +:+ "The program will NOT automatically run again.")) w).
Proof.
  intros Hgt. unfold schedule_program_to_renew_permit, bind, datetime_now.
  rewrite Hgt. reflexivity.
Qed.

(** C4: when the expiration is not strictly after the clock, the scheduler
    logs an error and leaves through [sys.exit(1)]: the exit status is 1,
    no command is run and the task table is untouched; an expiration
    equal to the clock is such a case.  Conversely a command is run only
    when the expiration is strictly after the clock. *)
Theorem expired_permit_is_fatal (env : Env) (exp : datetime) (args : Args.t) (w : World) :
  let run := schedule_program_to_renew_permit env exp args in
  (datetime_gt exp (now env (trace w)) = false ->
     outcome run w = Exit 1
     /\ exit_status (outcome run w) = Some 1
     /\ (exists msg, events run w = [LogError msg])
     /\ count is_run (events run w) = 0%nat
     /\ tasks (after run w) = tasks w)
  /\ (exp = now env (trace w) -> outcome run w = Exit 1)
  /\ ((0 < count is_run (events run w))%nat ->
     datetime_gt exp (now env (trace w)) = true).
Proof.
  intros run.
  assert (Hfatal : datetime_gt exp (now env (trace w)) = false -> outcome run w = Exit 1).
  { intros Hle. unfold outcome, run. rewrite schedule_not_future by exact Hle. reflexivity. }
  split; [|split].
  - intros Hle. pose proof (schedule_not_future env exp args w Hle) as Hrun.
    fold run in Hrun.
    assert (Hev : events run w
                  = [LogError ("An unknown error has occurred where the parking permit has already expired."
                               +:+ newline +:+ "The program will NOT automatically run again.")]).
    { apply events_of_extension. unfold after. rewrite Hrun. reflexivity. }
    unfold outcome, after. rewrite Hev, Hrun. simpl. eauto 6.
  - intros ->. apply Hfatal. apply datetime_gt_irrefl.
  - intros Hrun. destruct (datetime_gt exp (now env (trace w))) eqn:Hgt; [reflexivity|].
    pose proof (schedule_not_future env exp args w Hgt) as Hnf. fold run in Hnf.
    assert (Hev : count is_run (events run w) = 0%nat).
    { erewrite events_of_extension; [|unfold after; rewrite Hnf; reflexivity]. reflexivity. }
    lia.
Qed.

Lemma expired_permit_is_fatal_witness :
  datetime_gt feb22_expiry (now (friendly_env feb22_expiry Delivered) (trace fresh_world)) = false
  /\ outcome (schedule_program_to_renew_permit (friendly_env feb22_expiry Delivered)
                feb22_expiry sample_args) fresh_world = Exit 1.
Proof.
  split.
  - reflexivity.
  - destruct (expired_permit_is_fatal (friendly_env feb22_expiry Delivered)
                feb22_expiry sample_args fresh_world) as (Hfatal & _).
    apply Hfatal. reflexivity.
Defined.

(** C3, as stated, fails: for the expiration 2024-02-22 18:52:05 the
    registered task starts at 18:52, five seconds before the expiration
    instant. *)
Lemma trigger_drops_seconds :
  ~ trigger_is_expiration (friendly_env feb21 Delivered) feb22_expiry sample_args fresh_world.
Proof.
  intros Hclaim. destruct (Hclaim eq_refl) as (task & Hlookup & Htrigger).
  unfold after in Hlookup. rewrite schedule_future in Hlookup by reflexivity.
  cbn [snd tasks set_tasks] in Hlookup. rewrite lookup_insert_eq in Hlookup.
  injection Hlookup as <-.
  rewrite trigger_time_renewal in Htrigger by reflexivity.
  discriminate Htrigger.
Qed.

(** C3, amended: for an expiration strictly after the clock the scheduler
    runs exactly one command, [schtasks /create /f], which leaves exactly
    one task named AutomaticParkingPermitRenewal: a once-task at run level
    HIGHEST whose start date is the expiration's date and whose start time
    is the expiration's hour and minute, that is the expiration with its
    seconds dropped; no other task is touched.  A second call with another
    future expiration replaces that task: the name then maps to the new
    task and the table has the same names as before. *)
Theorem renewal_task_registered (env : Env) (exp1 exp2 : datetime) (args : Args.t)
    (w : World) :
  let first := schedule_program_to_renew_permit env exp1 args in
  let second := schedule_program_to_renew_permit env exp2 args in
  datetime_gt exp1 (now env (trace w)) = true ->
  (outcome first w = Ok tt
   /\ count is_run (events first w) = 1%nat
   /\ length (events first w) = 1%nat
   /\ tasks (after first w) !! task_name = Some (renewal_task env exp1 args)
   /\ (forall name, name <> task_name -> tasks (after first w) !! name = tasks w !! name)
   /\ schedule (renewal_task env exp1 args) = "once"
   /\ run_level (renewal_task env exp1 args) = "HIGHEST"
   /\ start_date (renewal_task env exp1 args) = strftime exp1 "%m/%d/%Y"
   /\ start_time (renewal_task env exp1 args) = strftime exp1 "%H:%M"
   /\ (Strptime.valid_datetime exp1 = true ->
       trigger_time (renewal_task env exp1 args) = Returns (to_the_minute exp1)))
  /\ (datetime_gt exp2 (now env (trace (after first w))) = true ->
      tasks (after second (after first w)) !! task_name = Some (renewal_task env exp2 args)
      /\ dom (tasks (after second (after first w))) = dom (tasks (after first w))
      /\ size (tasks (after second (after first w))) = size (tasks (after first w))).
Proof.
  intros first second Hfuture.
  pose proof (schedule_future env exp1 args w Hfuture) as Hrun. fold first in Hrun.
  assert (Hev : events first w
                = [Run ["schtasks"; "/create"; "/tn"; task_name;
                        "/tr"; renewal_command env args; "/sc"; "once";
                        "/sd"; strftime exp1 "%m/%d/%Y"; "/st"; strftime exp1 "%H:%M";
                        "/rl"; "HIGHEST"; "/f"]]).
  { apply events_of_extension. unfold after. rewrite Hrun. reflexivity. }
  assert (Htasks : tasks (after first w) = <[task_name := renewal_task env exp1 args]> (tasks w)).
  { unfold after. rewrite Hrun. reflexivity. }
  split.
  - rewrite Hev, Htasks. unfold outcome. rewrite Hrun.
    repeat split; try reflexivity.
    + apply lookup_insert_eq.
    + intros name Hname. apply lookup_insert_ne. congruence.
    + apply trigger_time_renewal.
  - intros Hfuture2.
    pose proof (schedule_future env exp2 args (after first w) Hfuture2) as Hrun2.
    fold second in Hrun2.
    assert (Htasks2 : tasks (after second (after first w))
                      = <[task_name := renewal_task env exp2 args]> (tasks (after first w))).
    { unfold after at 1. rewrite Hrun2. reflexivity. }
    rewrite Htasks2, Htasks. rewrite insert_insert_eq.
    repeat split.
    + apply lookup_insert_eq.
    + rewrite !dom_insert_L. reflexivity.
    + destruct (tasks w !! task_name) eqn:Hold.
      * rewrite !map_size_insert_Some by eauto. reflexivity.
      * rewrite !map_size_insert_None by assumption. reflexivity.
Qed.

Lemma renewal_task_registered_witness :
  datetime_gt feb22_expiry (now (friendly_env feb21 Delivered) (trace fresh_world)) = true
  /\ datetime_gt feb23_expiry
       (now (friendly_env feb21 Delivered)
            (trace (after (schedule_program_to_renew_permit (friendly_env feb21 Delivered)
                             feb22_expiry sample_args) fresh_world))) = true
  /\ tasks (after (schedule_program_to_renew_permit (friendly_env feb21 Delivered)
                     feb22_expiry sample_args) fresh_world) !! task_name
     = Some (renewal_task (friendly_env feb21 Delivered) feb22_expiry sample_args)
  /\ tasks (after (schedule_program_to_renew_permit (friendly_env feb21 Delivered)
                     feb23_expiry sample_args)
                  (after (schedule_program_to_renew_permit (friendly_env feb21 Delivered)
                            feb22_expiry sample_args) fresh_world)) !! task_name
     = Some (renewal_task (friendly_env feb21 Delivered) feb23_expiry sample_args).
Proof.
  destruct (renewal_task_registered (friendly_env feb21 Delivered)
              feb22_expiry feb23_expiry sample_args fresh_world eq_refl)
    as ((_ & _ & _ & Hfirst & _) & Hsecond).
  destruct (Hsecond eq_refl) as (Hreplaced & _).
  split; [reflexivity|]. split; [reflexivity|]. split; [exact Hfirst|exact Hreplaced].
Defined.

(** ** Reading the expiration *)



(** ** The wizard *)

Ltac form_leaf Hrun config :=
  injection Hrun as <- <-;
  cbn [browser record_event trace files tasks];
  rewrite <- ?app_assoc; cbn [app];
  first [ exists [], (wizard_steps config);
          rewrite app_nil_r; repeat split; try assumption;
          right; split; [eexists; reflexivity|discriminate]
        | eexists _, _; split; [reflexivity|]; split; [reflexivity|];
          repeat split; try assumption;
          first [left; split; reflexivity
                | right; split; [eexists; reflexivity|discriminate]] ].

Ltac form_run Hrun Hb config :=
  lazymatch type of Hrun with
  | context [appears ?env ?h ?id] =>
    destruct (appears env h id) eqn:?;
    cbn [browser record_event trace files tasks] in Hrun; rewrite ?Hb in Hrun;
    [form_run Hrun Hb config | form_leaf Hrun config]
  | context [has_option ?env ?h ?id ?t] =>
    destruct (has_option env h id t) eqn:?;
    cbn [browser record_event trace files tasks] in Hrun; rewrite ?Hb in Hrun;
    [form_run Hrun Hb config | form_leaf Hrun config]
  | _ => form_leaf Hrun config
  end.

(** Every run of the wizard performs an initial segment of its steps,
    stops at the first element that does not show up, and changes nothing
    but the trace. *)
Lemma create_parking_permit_runs (env : Env) (config : Config.t) (w : World) :
  exists evs rest,
    trace (after (create_parking_permit env config) w) = trace w ++ evs
    /\ wizard_steps config = evs ++ rest
    /\ browser (after (create_parking_permit env config) w) = browser w
    /\ files (after (create_parking_permit env config) w) = files w
    /\ tasks (after (create_parking_permit env config) w) = tasks w
    /\ ((outcome (create_parking_permit env config) w = Ok tt /\ rest = [])
        \/ ((exists e, outcome (create_parking_permit env config) w = Raise e)
            /\ rest <> [])).
Proof.
  unfold outcome, after.
  destruct (create_parking_permit env config w) as [r w'] eqn:Hrun.
  cbn [fst snd].
  unfold create_parking_permit, bind, wait_for_element, select_by_visible_text,
    send_keys, click, emit in Hrun.
  destruct (browser w) eqn:Hb; [form_leaf Hrun config| |form_leaf Hrun config..].
  form_run Hrun Hb config.
Qed.

Lemma create_parking_permit_answers (env : Env) (config : Config.t) (w : World) :
  browser w = SessionOpen ->
  portal_answers env config ->
  outcome (create_parking_permit env config) w = Ok tt.
Proof.
  intros Hb [Happears Hoption]. unfold outcome.
  unfold create_parking_permit, bind, wait_for_element, select_by_visible_text,
    send_keys, click, emit.
  repeat (cbn [browser record_event]; rewrite ?Hb, ?Happears, ?Hoption).
  reflexivity.
Qed.

Lemma count_submit_steps (config : Config.t) :
  count is_submit (wizard_steps config) = 1%nat.
Proof. reflexivity. Qed.

(** C7: the wizard interactions are an initial segment of the fixed
    sequence (nothing reordered, skipped or added), the submit button is
    clicked at most once, and the driver returns normally exactly when it
    has performed the whole sequence, in which case it has clicked submit
    exactly once.  With a valid configuration on an answering portal the
    driver does return normally: the whole sequence, one submit. *)
Theorem wizard_submits_once (env : Env) (config : Config.t) (w : World) :
  let run := create_parking_permit env config in
  events run w `prefix_of` wizard_steps config
  /\ (count is_submit (events run w) <= 1)%nat
  /\ (outcome run w = Ok tt <-> events run w = wizard_steps config)
  /\ (outcome run w = Ok tt -> count is_submit (events run w) = 1%nat)
  /\ (browser w = SessionOpen -> portal_answers env config ->
      outcome run w = Ok tt
      /\ events run w = wizard_steps config
      /\ count is_submit (events run w) = 1%nat).
Proof.
  intros run.
  destruct (create_parking_permit_runs env config w)
    as (evs & rest & Htrace & Hsteps & _ & _ & _ & Hout).
  fold run in Htrace, Hout.
  rewrite (events_of_extension run w evs Htrace).
  pose proof (count_submit_steps config) as Hone.
  rewrite Hsteps, count_app in Hone.
  assert (Hiff : outcome run w = Ok tt <-> evs = wizard_steps config).
  { split.
    - intros Hok. destruct Hout as [[_ ->]|[[e He] _]]; [|congruence].
      rewrite Hsteps, app_nil_r. reflexivity.
    - intros Heq. destruct Hout as [[Hok _]|[_ Hrest]]; [exact Hok|].
      exfalso. apply Hrest. rewrite Heq in Hsteps.
      apply (app_inv_head (wizard_steps config)). rewrite app_nil_r. symmetry. exact Hsteps. }
  assert (Hdone : outcome run w = Ok tt -> count is_submit evs = 1%nat).
  { intros Hok. apply Hiff in Hok. rewrite Hok. apply count_submit_steps. }
  repeat split.
  - exists rest. exact Hsteps.
  - lia.
  - apply Hiff.
  - apply Hiff.
  - exact Hdone.
  - apply create_parking_permit_answers; assumption.
  - apply Hiff. apply create_parking_permit_answers; assumption.
  - apply Hdone. apply create_parking_permit_answers; assumption.
Qed.

Lemma wizard_submits_once_witness :
  browser browsing_world = SessionOpen
  /\ portal_answers (friendly_env feb21 Delivered) (sample_config false true true)
  /\ outcome (create_parking_permit (friendly_env feb21 Delivered)
                (sample_config false true true)) browsing_world = Ok tt
  /\ events (create_parking_permit (friendly_env feb21 Delivered)
               (sample_config false true true)) browsing_world
     = wizard_steps (sample_config false true true)
  /\ count is_submit
       (events (create_parking_permit (friendly_env feb21 Delivered)
                  (sample_config false true true)) browsing_world) = 1%nat.
Proof.
  assert (Hanswers : portal_answers (friendly_env feb21 Delivered)
                       (sample_config false true true)).
  { split; intros; reflexivity. }
  split; [reflexivity|]. split; [exact Hanswers|].
  apply (wizard_submits_once (friendly_env feb21 Delivered)
           (sample_config false true true) browsing_world);
    [reflexivity|exact Hanswers].
Defined.

(** ** Exploring a run

    The program is straight-line code over the oracles: a run is explored
    by asking each oracle in turn. *)

Ltac reduce_run H :=
  cbn [fst snd browser files tasks trace record_event set_browser set_files set_tasks
       negb when ret] in H.

Ltac split_on H x :=
  let E := fresh "Hanswer" in
  destruct x eqn:E; rewrite ?E in H.

Ltac ask_oracle H :=
  lazymatch type of H with
  | context [firefox_starts ?e] => split_on H (firefox_starts e)
  | context [page_loads ?e ?h ?u] => split_on H (page_loads e h u)
  | context [match browser ?w with _ => _ end] => split_on H (browser w)
  | context [appears ?e ?h ?i] => split_on H (appears e h i)
  | context [Strptime.strptime ?s ?f] => split_on H (Strptime.strptime s f)
  | context [screenshot_written ?e ?h ?p] => split_on H (screenshot_written e h p)
  | context [discord ?e ?h] =>
    let E := fresh "Hanswer" in
    destruct (discord e h) as [|? []|[]] eqn:E; rewrite ?E in H
  | context [bool_decide ?P] =>
    let E := fresh "Hanswer" in
    destruct (bool_decide P) eqn:E; rewrite ?E in H;
    [apply bool_decide_eq_true in E | apply bool_decide_eq_false in E]
  | context [datetime_gt ?a ?b] => split_on H (datetime_gt a b)
  end.

Ltac explore H := repeat (reduce_run H; ask_oracle H); reduce_run H.

Ltac unfold_dispatch H :=
  unfold send_screenshot_in_discord, save_screenshot_of_permit, save_full_page_screenshot,
    discord_client_session, delete_screenshot_of_permit, driver_close, wait_for_element,
    logging_error, logging_info, emit, bind, when, ret in H.

(** ** The dispatch step *)

(** C1, as stated, fails: when the bot token is refused, [client.start]
    raises, the dispatch step ends with that exception, and the ephemeral
    screenshot is still on disk. *)
Lemma ephemeral_left_behind_on_login_failure :
  ~ ephemeral_deleted_after_dispatch (friendly_env feb21 login_failure)
      (sample_config false true false) "C:\shots\permit.png" browsing_world.
Proof.
  intros Hclaim. unfold ephemeral_deleted_after_dispatch in Hclaim.
  apply Hclaim.
  - reflexivity.
  - vm_compute. left.
  - vm_compute. discriminate.
  - vm_compute. set_solver.
Qed.

(** C1, amended: in the ephemeral case (the screenshot is not kept) the
    file is deleted once the send attempt has completed successfully.
    When the dispatch step returns normally the file is not on disk and
    was sent exactly once; nothing is sent after a removal, and there is
    at most one removal.  If the step created the screenshot, the
    removal of that file is the last thing the step did, after the one
    send; the step ends with the error in the log instead only when it
    found no file to remove, that is when the screenshot was not written
    and no file of that name was there before.  With an open browser and
    a visible QR code the step returns normally whenever the
    notification session delivers, and a failure of the session is
    propagated as the exception of the step. *)
Theorem ephemeral_deleted_after_delivery (env : Env) (config : Config.t)
    (path : string) (w : World) :
  let run := send_screenshot_in_discord env path config in
  Config.save_screenshot_of_permit config = false ->
  (outcome run w = Ok tt ->
     (path ∉ files (after run w))
     /\ count is_channel_send (events run w) = 1%nat
     /\ (last (events run w) = Some (Remove path)
         \/ last (events run w)
            = Some (LogError ("Could not find and delete " +:+ path +:+ ".")))
     /\ never_after is_remove is_channel_send (events run w) = true
     /\ (count is_remove (events run w) <= 1)%nat
     /\ (path ∈ written_paths (events run w) ->
         last (events run w) = Some (Remove path)
         /\ count is_remove (events run w) = 1%nat)
     /\ (last (events run w)
         = Some (LogError ("Could not find and delete " +:+ path +:+ ".")) ->
         path ∉ written_paths (events run w) /\ path ∉ files w))
  /\ (browser w = SessionOpen ->
      appears env (trace w) "MainContent_img_QRC" = true ->
      (forall history, discord env history = Delivered) ->
      outcome run w = Ok tt)
  /\ (forall e sent,
      browser w = SessionOpen ->
      appears env (trace w) "MainContent_img_QRC" = true ->
      (forall history, discord env history = StartRaised e sent) ->
      outcome run w = Raise e).
Proof.
  intros run Hsave.
  assert (Hfacts :
    exists evs, trace (after run w) = trace w ++ evs
    /\ (outcome run w = Ok tt ->
        (path ∉ files (after run w))
        /\ count is_channel_send evs = 1%nat
        /\ (last evs = Some (Remove path)
            \/ last evs = Some (LogError ("Could not find and delete " +:+ path +:+ ".")))
        /\ never_after is_remove is_channel_send evs = true
        /\ (count is_remove evs <= 1)%nat
        /\ (path ∈ written_paths evs ->
            last evs = Some (Remove path) /\ count is_remove evs = 1%nat)
        /\ (last evs = Some (LogError ("Could not find and delete " +:+ path +:+ ".")) ->
            path ∉ written_paths evs /\ path ∉ files w))).
  { unfold outcome, after. destruct (run w) as [r w'] eqn:Hrun. unfold run in Hrun.
    unfold_dispatch Hrun. rewrite Hsave in Hrun.
    explore Hrun; injection Hrun as <- <-;
      cbn [fst snd trace files record_event set_files set_browser] in *;
      rewrite <- ?app_assoc; cbn [app];
      (first [ exists []; split; [symmetry; apply app_nil_r|]
             | eexists; split; [reflexivity|] ]);
      intros Hok; try discriminate Hok;
      unfold written_paths, count;
      cbn [omap list_omap written_path last List.filter length is_remove is_channel_send
           never_after existsb andb orb negb];
      repeat match goal with |- _ /\ _ => split end;
      try reflexivity; try lia; try (left; reflexivity); try (right; reflexivity);
      try (intros; split; reflexivity);
      try (intros Hlast; discriminate Hlast);
      set_solver. }
  destruct Hfacts as (evs & Htrace & Hok).
  rewrite (events_of_extension run w evs Htrace).
  split; [exact Hok|]. split.
  - intros Hb Hqr Hdeliver. unfold outcome.
    destruct (run w) as [r w'] eqn:Hrun. unfold run in Hrun.
    unfold_dispatch Hrun. rewrite Hsave in Hrun.
    explore Hrun; injection Hrun as <- <-; cbn [fst];
      repeat match goal with Hd : discord _ _ = _ |- _ => rewrite Hdeliver in Hd end;
      congruence.
  - intros e sent Hb Hqr Hfail. unfold outcome.
    destruct (run w) as [r w'] eqn:Hrun. unfold run in Hrun.
    unfold_dispatch Hrun. rewrite Hsave in Hrun.
    explore Hrun; injection Hrun as <- <-; cbn [fst];
      repeat match goal with Hd : discord _ _ = _ |- _ => rewrite Hfail in Hd end;
      congruence.
Qed.

Lemma ephemeral_deleted_after_delivery_witness :
  Config.save_screenshot_of_permit (sample_config false true false) = false
  /\ outcome (send_screenshot_in_discord (friendly_env feb21 Delivered)
                "C:\shots\permit.png" (sample_config false true false))
             browsing_world = Ok tt
  /\ ("C:\shots\permit.png"
      ∉ files (after (send_screenshot_in_discord (friendly_env feb21 Delivered)
                        "C:\shots\permit.png" (sample_config false true false))
                     browsing_world))
  /\ last (events (send_screenshot_in_discord (friendly_env feb21 Delivered)
                     "C:\shots\permit.png" (sample_config false true false))
                  browsing_world)
     = Some (Remove "C:\shots\permit.png").
Proof.
  pose proof (ephemeral_deleted_after_delivery (friendly_env feb21 Delivered)
                (sample_config false true false) "C:\shots\permit.png" browsing_world
                eq_refl) as (Hdeleted & Hdelivers & _).
  assert (Hok : outcome (send_screenshot_in_discord (friendly_env feb21 Delivered)
                           "C:\shots\permit.png" (sample_config false true false))
                        browsing_world = Ok tt).
  { apply Hdelivers; [reflexivity|reflexivity|intros; reflexivity]. }
  destruct (Hdeleted Hok) as (Hgone & _ & _ & _ & _ & Hlast & _).
  split; [reflexivity|]. split; [exact Hok|]. split; [exact Hgone|].
  apply Hlast. vm_compute. left.
Defined.

(** C2, as stated, fails in the ephemeral branch: with the browser window
    closed beforehand the dispatch step cannot capture, it raises on its
    first browser command and takes no screenshot. *)
Lemma ephemeral_capture_needs_browser :
  ~ ephemeral_capture_after_close (friendly_env feb21 Delivered)
      (sample_config false true false) "C:\shots\permit.png" closed_window_world.
Proof.
  intros Hclaim.
  assert (Hcount : count is_capture
            (events (send_screenshot_in_discord (friendly_env feb21 Delivered)
                       "C:\shots\permit.png" (sample_config false true false))
                    closed_window_world) = 1%nat).
  { apply Hclaim; [reflexivity|reflexivity|split; intros; reflexivity]. }
  vm_compute in Hcount. discriminate Hcount.
Qed.

Lemma count_cons (p : Event -> bool) (e : Event) (l : list Event) :
  count p (e :: l) = ((if p e then 1 else 0) + count p l)%nat.
Proof. unfold count. cbn [List.filter]. destruct (p e); reflexivity. Qed.

Ltac dispatch_numbers :=
  unfold artifact_paths;
  rewrite ?count_cons; unfold count;
  cbn [List.filter length is_capture is_close is_remove Nat.add omap list_omap artifact_path].

Ltac dispatch_leaf :=
  dispatch_numbers; intros;
  try discriminate; try congruence; try lia; try reflexivity;
  try (repeat match goal with
              | H : _ ∈ _ :: _ |- _ => apply elem_of_cons in H as [->|H]
              | H : _ ∈ [] |- _ => apply elem_of_nil in H; contradiction
              end; reflexivity);
  try (eexists; split; [reflexivity|dispatch_numbers; reflexivity]);
  try (eexists _, _; split; [reflexivity|dispatch_numbers; reflexivity]);
  try (split; [reflexivity|eexists; reflexivity]).

(** What the dispatch step does with the browser and the screenshot, in
    the retained and in the ephemeral case. *)
Lemma dispatch_facts (env : Env) (path : string) (config : Config.t) (w : World) :
  let run := send_screenshot_in_discord env path config in
  let save := Config.save_screenshot_of_permit config in
  exists evs,
    trace (after run w) = trace w ++ evs
    /\ (save = true -> count is_capture evs = 0%nat)
    /\ (save = true -> count is_remove evs = 0%nat)
    /\ (save = true -> files (after run w) = files w)
    /\ (save = true -> browser w = SessionOpen ->
        exists rest, evs = Close :: rest /\ count is_close rest = 0%nat)
    /\ (save = false -> count is_close evs = 0%nat)
    /\ (save = false -> (count is_capture evs <= 1)%nat)
    /\ (save = false -> browser w = SessionOpen ->
        appears env (trace w) "MainContent_img_QRC" = true ->
        exists written rest, evs = SaveFullPageScreenshot path written :: rest
                             /\ count is_capture rest = 0%nat)
    /\ (save = false -> browser w <> SessionOpen ->
        evs = [] /\ exists e, outcome run w = Raise e)
    /\ (forall p, p ∈ artifact_paths evs -> p = path).
Proof.
  intros run save. unfold outcome, after, save.
  destruct (run w) as [r w'] eqn:Hrun. unfold run in Hrun. clear run save.
  unfold_dispatch Hrun.
  destruct (Config.save_screenshot_of_permit config) eqn:Hsave;
    explore Hrun; injection Hrun as <- <-;
    cbn [fst snd browser files tasks trace record_event set_browser set_files set_tasks];
    rewrite <- ?app_assoc; cbn [app];
    (first [ exists []; split; [symmetry; apply app_nil_r|]
           | eexists; split; [reflexivity|] ]);
    repeat match goal with |- _ /\ _ => split end.
  all: solve [dispatch_leaf].
Qed.

(** ** Events of the wizard are neutral for the session and the files *)

Lemma wizard_steps_form_only (config : Config.t) : form_only (wizard_steps config).
Proof. unfold form_only, wizard_steps. repeat constructor. Qed.

Lemma form_only_prefix (config : Config.t) (evs rest : list Event) :
  wizard_steps config = evs ++ rest -> form_only evs.
Proof.
  intros Hsteps. pose proof (wizard_steps_form_only config) as Hall.
  rewrite Hsteps in Hall. apply Forall_app in Hall. tauto.
Qed.

Lemma count_form_only (p : Event -> bool) (evs : list Event) :
  (forall e, is_form_event e = true -> p e = false) ->
  form_only evs -> count p evs = 0%nat.
Proof.
  intros Hp Hform. induction Hform as [|e evs He _ IH]; [reflexivity|].
  unfold count in *. cbn [List.filter]. rewrite (Hp e He). exact IH.
Qed.

Lemma omap_form_only {A} (f : Event -> option A) (evs : list Event) :
  (forall e, is_form_event e = true -> f e = None) ->
  form_only evs -> omap f evs = [].
Proof.
  intros Hf Hform. induction Hform as [|e evs He _ IH]; [reflexivity|].
  cbn [omap list_omap]. rewrite (Hf e He). exact IH.
Qed.

Lemma captured_form_only (open : bool) (evs l : list Event) :
  form_only evs ->
  captured_with_open_browser open (evs ++ l) = captured_with_open_browser open l.
Proof.
  intros Hform. induction Hform as [|e evs He _ IH]; [reflexivity|].
  destruct e; try discriminate He; cbn [app captured_with_open_browser]; exact IH.
Qed.

Ltac form_neutral :=
  intros []; cbn; intros; first [reflexivity | discriminate].

Lemma form_only_facts (evs : list Event) :
  form_only evs ->
  count is_started evs = 0%nat /\ count is_close evs = 0%nat /\ count is_quit evs = 0%nat
  /\ count is_capture evs = 0%nat /\ count is_remove evs = 0%nat
  /\ count is_run evs = 0%nat /\ count is_channel_send evs = 0%nat
  /\ count is_client_start evs = 0%nat
  /\ artifact_paths evs = [] /\ written_paths evs = [].
Proof.
  intros Hform.
  repeat split;
    first [ apply count_form_only; [form_neutral|exact Hform]
          | apply omap_form_only; [form_neutral|exact Hform] ].
Qed.

(** ** Exploring [main] *)

Lemma create_parking_permit_world (env : Env) (config : Config.t) (w : World) :
  exists evs r,
    create_parking_permit env config w
    = (r, mkWorld (browser w) (files w) (tasks w) (trace w ++ evs))
    /\ form_only evs
    /\ (r = Ok tt \/ exists e, r = Raise e).
Proof.
  destruct (create_parking_permit_runs env config w)
    as (evs & rest & Htrace & Hsteps & Hbrowser & Hfiles & Htasks & Hout).
  unfold outcome, after in *.
  destruct (create_parking_permit env config w) as [r [b f t tr]].
  cbn [fst snd browser files tasks trace] in *. subst.
  exists evs, r. split; [reflexivity|]. split; [eapply form_only_prefix; eassumption|].
  destruct Hout as [[-> _]|[He _]]; auto.
Qed.

Ltac unfold_main H :=
  unfold main, validate_config_warning, with_webdriver_Firefox, driver_get,
    get_parking_permit_expiration_date, get_text, generate_screenshot_file_path,
    schedule_program_to_renew_permit, subprocess_run, sys_exit, datetime_now in H;
  unfold_dispatch H.

(** The wizard inside a run: replace it by what
    [create_parking_permit_world] says about it. *)
Ltac run_wizard H :=
  lazymatch type of H with
  | context [create_parking_permit ?e ?c ?w0] =>
    let form := fresh "form" in
    let Hform := fresh "Hform" in
    let Hrun_form := fresh "Hrun_form" in
    let r3 := fresh "r" in
    destruct (create_parking_permit_world e c w0)
      as (form & r3 & Hrun_form & Hform & [->|[? ->]]);
    rewrite Hrun_form in H; clear Hrun_form
  end.

Ltac ask_flag H :=
  lazymatch type of H with
  | context [Config.i_read_the_config_warning ?c] =>
    split_on H (Config.i_read_the_config_warning c)
  | context [Config.save_screenshot_of_permit ?c] =>
    split_on H (Config.save_screenshot_of_permit c)
  | context [Config.send_screenshot_in_discord ?c] =>
    split_on H (Config.send_screenshot_in_discord c)
  | context [Config.automatically_renew_permit ?c] =>
    split_on H (Config.automatically_renew_permit c)
  end.

Ltac explore_main H :=
  repeat (reduce_run H; first [run_wizard H | ask_oracle H | ask_flag H]);
  reduce_run H.

Lemma count_singleton (p : Event -> bool) (e : Event) :
  count p [e] = if p e then 1%nat else 0%nat.
Proof. unfold count. cbn [List.filter]. destruct (p e); reflexivity. Qed.

Lemma count_nil (p : Event -> bool) : count p [] = 0%nat.
Proof. reflexivity. Qed.

Lemma events_nil {A} (m : M A) (w : World) :
  trace (after m w) = trace w -> trace (after m w) = trace w ++ [].
Proof. intros ->. symmetry. apply app_nil_r. Qed.

(** Bring the facts about the events of a leaf to numbers and lists. *)
Ltac form_numbers form Hform :=
  let H1 := fresh in let H2 := fresh in let H3 := fresh in let H4 := fresh in
  let H5 := fresh in let H6 := fresh in let H7 := fresh in let H8 := fresh in
  let H9 := fresh in let H10 := fresh in
  destruct (form_only_facts form Hform) as (H1 & H2 & H3 & H4 & H5 & H6 & H7 & H8 & H9 & H10);
  unfold artifact_paths, written_paths in H9, H10;
  rewrite ?H1, ?H2, ?H3, ?H4, ?H5, ?H6, ?H7, ?H8, ?H9, ?H10;
  clear H1 H2 H3 H4 H5 H6 H7 H8 H9 H10.

Ltac leaf_numbers :=
  unfold artifact_paths, written_paths;
  rewrite ?count_app, ?omap_app;
  try match goal with
      | Hform : form_only ?form |- _ => form_numbers form Hform
      end;
  rewrite ?count_singleton, ?count_nil;
  cbn [is_started is_close is_quit is_capture is_remove is_run is_channel_send
       is_client_start omap list_omap artifact_path written_path app Nat.add head].

Ltac leaf_members :=
  repeat match goal with
         | H : _ ∈ _ :: _ |- _ => apply elem_of_cons in H as [->|H]
         | H : _ ∈ [] |- _ => apply elem_of_nil in H; contradiction
         end.

Ltac leaf_fact :=
  leaf_numbers; intros;
  try discriminate;
  try congruence;
  try lia;
  try (repeat (cbn [app captured_with_open_browser andb];
               rewrite ?captured_form_only by assumption); reflexivity);
  try (leaf_members; reflexivity);
  try (repeat split; (reflexivity || lia));
  try (split; [set_solver|intros; leaf_members; set_solver]).

(** What every run of [main] does to the browser session, the screenshot
    and the files. *)
Lemma main_facts (env : Env) (args : Args.t) (config : Config.t) (w : World) :
  let run := main env args config in
  let save := Config.save_screenshot_of_permit config in
  let send := Config.send_screenshot_in_discord config in
  exists evs,
    trace (after run w) = trace w ++ evs
    /\ (count is_started evs <= 1)%nat
    /\ (outcome run w <> Diverge -> count is_quit evs = count is_started evs)
    /\ (outcome run w = Diverge -> count is_quit evs = 0%nat)
    /\ (count is_close evs <= 1)%nat
    /\ ((0 < count is_close evs)%nat ->
        save = true /\ send = true /\ count is_capture evs = 1%nat)
    /\ (save = true -> send = true -> (0 < count is_client_start evs)%nat ->
        count is_close evs = 1%nat)
    /\ (count is_capture evs <= 1)%nat
    /\ (forall p, p ∈ artifact_paths evs -> Some p = head (artifact_paths evs))
    /\ captured_with_open_browser false evs = true
    /\ (save = true -> count is_remove evs = 0%nat)
    /\ (save = true ->
        files w ⊆ files (after run w)
        /\ forall p, p ∈ written_paths evs -> p ∈ files (after run w)).
Proof.
  intros run save send. unfold outcome, after, save, send.
  destruct (run w) as [r w'] eqn:Hrun. unfold run in Hrun. clear run save send.
  unfold_main Hrun.
  explore_main Hrun; injection Hrun as <- <-;
    cbn [fst snd browser files tasks trace record_event set_browser set_files set_tasks];
    rewrite <- ?app_assoc;
    (first [ exists []; split; [symmetry; apply app_nil_r|]
           | eexists; split; [reflexivity|] ]);
    repeat match goal with |- _ /\ _ => split end.
  all: solve [leaf_fact].
Qed.

(** ** The browser session over a whole run *)

(** C6, as stated, fails when the screenshot is both kept and sent: the
    dispatch step closes the browser window and the with block then quits
    the session, two closing operations on one session. *)
Lemma closed_twice_when_kept_and_sent :
  ~ closed_exactly_once (friendly_env feb21 Delivered) sample_args
      (sample_config true true false) fresh_world.
Proof.
  unfold closed_exactly_once. intros Hclaim.
  assert (Hstarted : (0 < count is_started
            (events (main (friendly_env feb21 Delivered) sample_args
                       (sample_config true true false)) fresh_world))%nat).
  { vm_compute. lia. }
  specialize (Hclaim Hstarted). vm_compute in Hclaim. discriminate Hclaim.
Qed.

(** C6, amended: the browser is started at most once, and every run that
    comes to an end, by return, exception or [sys.exit], has quit the
    session as often as it started it: exactly once when it was opened,
    on every exit path.  On top of that the dispatch step closes the
    browser window itself, at most once and only when the screenshot is
    both kept and sent; it then always does so once the notification
    session is started.  In every other combination of the two flags the
    quit of the with block is the only closing operation. *)
Theorem session_released_once (env : Env) (args : Args.t) (config : Config.t) (w : World) :
  let run := main env args config in
  let evs := events run w in
  let save := Config.save_screenshot_of_permit config in
  let send := Config.send_screenshot_in_discord config in
  (count is_started evs <= 1)%nat
  /\ (outcome run w <> Diverge -> count is_quit evs = count is_started evs)
  /\ (count is_close evs <= 1)%nat
  /\ ((0 < count is_close evs)%nat -> save = true /\ send = true)
  /\ (save = true -> send = true -> (0 < count is_client_start evs)%nat ->
      count is_close evs = 1%nat)
  /\ (save && send = false -> outcome run w <> Diverge ->
      (0 < count is_started evs)%nat ->
      (count is_close evs + count is_quit evs = 1)%nat).
Proof.
  intros run evs save send.
  destruct (main_facts env args config w)
    as (evs' & Htrace & Hstarted & Hquit & _ & Hclose & Hclosed & Hboth & _).
  fold run in Htrace, Hquit. fold save send in Hclosed, Hboth.
  assert (Hevs : evs = evs') by (apply events_of_extension; exact Htrace).
  rewrite Hevs. clear Hevs evs.
  repeat match goal with |- _ /\ _ => split end; try assumption.
  - intros Hc. destruct (Hclosed Hc) as (Hs & Hd & _). auto.
  - intros Hflags Hfinished Hopened.
    assert (Hnone : count is_close evs' = 0%nat).
    { destruct (count is_close evs') eqn:Hc; [reflexivity|].
      destruct Hclosed as (Hs & Hd & _); [lia|].
      rewrite Hs, Hd in Hflags. discriminate Hflags. }
    rewrite Hnone, (Hquit Hfinished). lia.
Qed.

Lemma session_released_once_witness :
  outcome (main (friendly_env feb21 Delivered) sample_args (sample_config false true false))
          fresh_world <> Diverge
  /\ count is_quit (events (main (friendly_env feb21 Delivered) sample_args
                              (sample_config false true false)) fresh_world)
     = count is_started (events (main (friendly_env feb21 Delivered) sample_args
                                   (sample_config false true false)) fresh_world).
Proof.
  assert (Hfinished : outcome (main (friendly_env feb21 Delivered) sample_args
                                 (sample_config false true false)) fresh_world <> Diverge).
  { vm_compute. discriminate. }
  split; [exact Hfinished|].
  destruct (session_released_once (friendly_env feb21 Delivered) sample_args
              (sample_config false true false) fresh_world) as (_ & Hquit & _).
  apply Hquit. exact Hfinished.
Defined.

(** ** The kept screenshot *)

(** C8: when the screenshot is to be kept, no run removes a file: no
    [Remove] event on any path, the dispatch step included; every file
    that was on disk is still there when the run is over, and so is every
    screenshot the run wrote. *)
Theorem kept_screenshot_survives (env : Env) (args : Args.t) (config : Config.t) (w : World) :
  let run := main env args config in
  Config.save_screenshot_of_permit config = true ->
  count is_remove (events run w) = 0%nat
  /\ files w ⊆ files (after run w)
  /\ (forall p, p ∈ written_paths (events run w) -> p ∈ files (after run w))
  /\ (forall path w0,
      count is_remove (events (send_screenshot_in_discord env path config) w0) = 0%nat
      /\ files (after (send_screenshot_in_discord env path config) w0) = files w0).
Proof.
  intros run Hsave.
  destruct (main_facts env args config w)
    as (evs & Htrace & _ & _ & _ & _ & _ & _ & _ & _ & _ & Hremove & Hfiles).
  fold run in Htrace, Hfiles.
  rewrite (events_of_extension run w evs Htrace).
  destruct (Hfiles Hsave) as [Hkept Hwritten].
  repeat match goal with |- _ /\ _ => split end; auto.
  intros path w0.
  destruct (dispatch_facts env path config w0)
    as (evs0 & Htrace0 & _ & Hremove0 & Hfiles0 & _).
  rewrite (events_of_extension _ w0 evs0 Htrace0). auto.
Qed.

Lemma kept_screenshot_survives_witness :
  Config.save_screenshot_of_permit (sample_config true true false) = true
  /\ count is_remove (events (main (friendly_env feb21 Delivered) sample_args
                                (sample_config true true false)) fresh_world) = 0%nat.
Proof.
  split; [reflexivity|].
  apply (kept_screenshot_survives (friendly_env feb21 Delivered) sample_args
           (sample_config true true false) fresh_world).
  reflexivity.
Defined.

(** ** One capture, one file *)

(** C10: a run takes at most one screenshot, and every event that names a
    screenshot file (capture, send, removal) names the same path.  In the
    dispatch step: when the screenshot is kept the step takes no
    screenshot, it starts by closing the browser and works on the path it
    was given; when the screenshot is not kept the step starts with the
    one capture, at the path it was given. *)
Theorem one_capture_one_path (env : Env) (args : Args.t) (config : Config.t) (w : World) :
  let run := main env args config in
  let evs := events run w in
  let save := Config.save_screenshot_of_permit config in
  (count is_capture evs <= 1)%nat
  /\ (forall p q, p ∈ artifact_paths evs -> q ∈ artifact_paths evs -> p = q)
  /\ (forall path w0,
      let dispatch := send_screenshot_in_discord env path config in
      (save = true ->
         count is_capture (events dispatch w0) = 0%nat
         /\ (browser w0 = SessionOpen ->
             exists rest, events dispatch w0 = Close :: rest))
      /\ (save = false ->
          (count is_capture (events dispatch w0) <= 1)%nat
          /\ (browser w0 = SessionOpen ->
              appears env (trace w0) "MainContent_img_QRC" = true ->
              exists written rest,
                events dispatch w0 = SaveFullPageScreenshot path written :: rest
                /\ count is_capture rest = 0%nat))
      /\ (forall p, p ∈ artifact_paths (events dispatch w0) -> p = path)).
Proof.
  intros run evs save.
  destruct (main_facts env args config w)
    as (evs' & Htrace & _ & _ & _ & _ & _ & _ & Hcapture & Hpaths & _).
  fold run in Htrace.
  assert (Hevs : evs = evs') by (apply events_of_extension; exact Htrace).
  rewrite Hevs. clear Hevs evs.
  split; [exact Hcapture|]. split.
  - intros p q Hp Hq. apply Hpaths in Hp, Hq. congruence.
  - intros path w0 dispatch.
    destruct (dispatch_facts env path config w0)
      as (evs0 & Htrace0 & Hnone & _ & _ & Hclose & _ & Hmost & Hfirst & _ & Hpath).
    fold dispatch in Htrace0. fold save in Hnone, Hclose, Hmost, Hfirst.
    rewrite (events_of_extension dispatch w0 evs0 Htrace0).
    split; [|split].
    + intros Hsave. split; [auto|].
      intros Hopen. destruct (Hclose Hsave Hopen) as (rest & -> & _). eauto.
    + intros Hsave. split; auto.
    + exact Hpath.
Qed.

Lemma one_capture_one_path_witness :
  Config.save_screenshot_of_permit (sample_config true true false) = true
  /\ count is_capture
       (events (send_screenshot_in_discord (friendly_env feb21 Delivered)
                  "C:\shots\permit.png" (sample_config true true false))
               browsing_world) = 0%nat.
Proof.
  split; [reflexivity|].
  destruct (one_capture_one_path (friendly_env feb21 Delivered) sample_args
              (sample_config true true false) fresh_world) as (_ & _ & Hdispatch).
  destruct (Hdispatch "C:\shots\permit.png" browsing_world) as (Hkept & _).
  apply Hkept. reflexivity.
Defined.

(** ** Closing the browser and capturing *)

(** C2, amended: every screenshot of a run is taken while the browser
    session is open.  When the screenshot is kept, [main] captures it
    before the dispatch step, and the dispatch step starts by closing the
    browser window and captures nothing; so the window is closed only
    after the capture.  When the screenshot is ephemeral the dispatch
    step captures it itself and needs the open session for that: it never
    closes the window, and on a session that is not open it raises
    without doing anything. *)
Theorem browser_open_until_captured (env : Env) (args : Args.t) (config : Config.t)
    (w : World) :
  let run := main env args config in
  let evs := events run w in
  let save := Config.save_screenshot_of_permit config in
  captured_with_open_browser false evs = true
  /\ ((0 < count is_close evs)%nat -> save = true /\ count is_capture evs = 1%nat)
  /\ (save = false -> count is_close evs = 0%nat)
  /\ (forall path w0,
      let dispatch := send_screenshot_in_discord env path config in
      (save = true -> browser w0 = SessionOpen ->
         count is_capture (events dispatch w0) = 0%nat
         /\ exists rest, events dispatch w0 = Close :: rest /\ count is_close rest = 0%nat)
      /\ (save = false -> count is_close (events dispatch w0) = 0%nat)
      /\ (save = false -> browser w0 <> SessionOpen ->
          events dispatch w0 = [] /\ exists e, outcome dispatch w0 = Raise e)).
Proof.
  intros run evs save.
  destruct (main_facts env args config w)
    as (evs' & Htrace & _ & _ & _ & _ & Hclosed & _ & _ & _ & Hopen & _).
  fold run in Htrace. fold save in Hclosed.
  assert (Hevs : evs = evs') by (apply events_of_extension; exact Htrace).
  rewrite Hevs. clear Hevs evs.
  split; [exact Hopen|]. split; [|split].
  - intros Hc. destruct (Hclosed Hc) as (Hs & _ & Hcap). auto.
  - intros Hsave. destruct (count is_close evs') eqn:Hc; [reflexivity|].
    destruct Hclosed as (Hs & _); [lia|]. congruence.
  - intros path w0 dispatch.
    destruct (dispatch_facts env path config w0)
      as (evs0 & Htrace0 & Hnone & _ & _ & Hclose & Hnoclose & _ & _ & Hneeds & _).
    fold dispatch in Htrace0, Hneeds. fold save in Hnone, Hclose, Hnoclose, Hneeds.
    rewrite (events_of_extension dispatch w0 evs0 Htrace0).
    split; [|split].
    + intros Hsave Hopen0. split; auto.
    + exact Hnoclose.
    + exact Hneeds.
Qed.

Lemma browser_open_until_captured_witness :
  Config.save_screenshot_of_permit (sample_config false true false) = false
  /\ browser closed_window_world <> SessionOpen
  /\ events (send_screenshot_in_discord (friendly_env feb21 Delivered)
               "C:\shots\permit.png" (sample_config false true false))
            closed_window_world = [].
Proof.
  split; [reflexivity|]. split; [discriminate|].
  destruct (browser_open_until_captured (friendly_env feb21 Delivered) sample_args
              (sample_config false true false) fresh_world) as (_ & _ & _ & Hdispatch).
  destruct (Hdispatch "C:\shots\permit.png" closed_window_world) as (_ & _ & Hneeds).
  apply Hneeds; [reflexivity|discriminate].
Defined.

(** * Further properties of the pipeline *)

(** ** The configuration warning *)

(** X1: when the configuration warning was not acknowledged, [main]
    leaves with exit status 1, and the last things it did were to print
    the hint and to log the error.  It has started no browser, taken no
    screenshot, started no chat client and run no command, and the
    browser, the files and the scheduled tasks are as before. *)
Theorem unread_warning_stops_run (env : Env) (args : Args.t) (config : Config.t) (w : World) :
  let run := main env args config in
  Config.i_read_the_config_warning config = false ->
  outcome run w = Exit 1
  /\ exit_status (outcome run w) = Some 1
  /\ [Print "Did not set up config correctly, read debug.log for details";
      LogError "Read the config warning and then set the bool under it to true."]
     `suffix_of` events run w
  /\ count is_started (events run w) = 0%nat
  /\ count is_capture (events run w) = 0%nat
  /\ count is_client_start (events run w) = 0%nat
  /\ count is_run (events run w) = 0%nat
  /\ browser (after run w) = browser w
  /\ files (after run w) = files w
  /\ tasks (after run w) = tasks w.
Proof.
  intros run Hunread.
  assert (Hrun : run w
                 = (Exit 1,
                    record_event
                      (LogError "Read the config warning and then set the bool under it to true.")
                      (record_event
                         (Print "Did not set up config correctly, read debug.log for details") w))).
  { unfold run, main, validate_config_warning, bind. rewrite Hunread. reflexivity. }
  assert (Hev : events run w
     = [Print "Did not set up config correctly, read debug.log for details";
        LogError "Read the config warning and then set the bool under it to true."]).
  { apply events_of_extension. unfold after. rewrite Hrun.
    cbn [snd trace record_event]. rewrite <- app_assoc. reflexivity. }
  unfold outcome, after. rewrite Hev, Hrun. cbn.
  repeat split. exists []. reflexivity.
Qed.

Lemma unread_warning_stops_run_witness :
  Config.i_read_the_config_warning unread_config = false
  /\ outcome (main (friendly_env feb21 Delivered) sample_args unread_config) fresh_world = Exit 1.
Proof.
  split; [reflexivity|].
  destruct (unread_warning_stops_run (friendly_env feb21 Delivered) sample_args unread_config
              fresh_world eq_refl) as (Hexit & _).
  exact Hexit.
Defined.

(** ** Taking and deleting the screenshot *)

(** X2: the screenshot is taken only once the QR code is visible.  The
    step returns normally exactly on an open session whose QR code shows
    up in time; it has then taken one screenshot at the given path, which
    is on disk if the browser could write it.  Otherwise it raises
    without having done anything; on an open session the exception is
    the timeout on the QR code. *)
Theorem screenshot_waits_for_qr (env : Env) (path : string) (config : Config.t) (w : World) :
  let run := save_screenshot_of_permit env path config in
  (outcome run w = Ok tt <->
     browser w = SessionOpen /\ appears env (trace w) "MainContent_img_QRC" = true)
  /\ (outcome run w = Ok tt ->
      exists written,
        events run w = [SaveFullPageScreenshot path written]
        /\ files (after run w) = (if written then {[path]} ∪ files w else files w))
  /\ (outcome run w <> Ok tt -> after run w = w /\ exists e, outcome run w = Raise e)
  /\ (browser w = SessionOpen ->
      appears env (trace w) "MainContent_img_QRC" = false ->
      outcome run w = Raise (TimeoutException "MainContent_img_QRC" (Config.timeout config))).
Proof.
  intros run. unfold outcome, after.
  destruct (run w) as [r w'] eqn:Hrun.
  assert (Hev : forall evs, trace w' = trace w ++ evs -> events run w = evs).
  { intros evs H. apply events_of_extension. unfold after. rewrite Hrun. exact H. }
  unfold run in Hrun. unfold_dispatch Hrun.
  explore Hrun; injection Hrun as <- <-; cbn [fst snd files set_files record_event];
    repeat match goal with
           | |- _ /\ _ => split
           | |- _ <-> _ => split
           end;
    intros;
    repeat match goal with H : _ /\ _ |- _ => destruct H end;
    try congruence; try discriminate; auto;
    try (eexists; split; [apply Hev; reflexivity|reflexivity]);
    try (split; [reflexivity|eexists; reflexivity]).
Qed.

Lemma screenshot_waits_for_qr_witness :
  browser browsing_world = SessionOpen
  /\ appears (friendly_env feb21 Delivered) (trace browsing_world) "MainContent_img_QRC" = true
  /\ outcome (save_screenshot_of_permit (friendly_env feb21 Delivered) "C:\shots\permit.png"
                (sample_config true false false)) browsing_world = Ok tt.
Proof.
  split; [reflexivity|]. split; [reflexivity|].
  destruct (screenshot_waits_for_qr (friendly_env feb21 Delivered) "C:\shots\permit.png"
              (sample_config true false false) browsing_world) as (Hiff & _).
  apply Hiff. split; reflexivity.
Defined.

(** X3: when the screenshot is on disk and the deletion returns
    normally, it has done one removal, of that file, and logged nothing:
    the file is gone and every other file is there exactly when it was
    before. *)
Theorem delete_removes_only_that_file (path : string) (w : World) :
  let run := delete_screenshot_of_permit path in
  path ∈ files w ->
  outcome run w = Ok tt ->
  events run w = [Remove path]
  /\ files (after run w) = files w ∖ {[path]}
  /\ (path ∉ files (after run w))
  /\ (forall other, other <> path -> (other ∈ files (after run w) <-> other ∈ files w)).
Proof.
  intros run Hthere _.
  assert (Hrun : run w = (Ok tt, set_files (files w ∖ {[path]}) (record_event (Remove path) w))).
  { unfold run, delete_screenshot_of_permit. rewrite bool_decide_eq_true_2 by exact Hthere.
    reflexivity. }
  assert (Hev : events run w = [Remove path]).
  { apply events_of_extension. unfold after. rewrite Hrun. reflexivity. }
  unfold after. rewrite Hev, Hrun. cbn [fst snd files set_files].
  repeat split; try set_solver.
Qed.

Lemma delete_removes_only_that_file_witness :
  ("C:\shots\permit.png"
   ∈ files (after (save_screenshot_of_permit (friendly_env feb21 Delivered)
                     "C:\shots\permit.png" (sample_config true false false))
                  browsing_world))
  /\ events (delete_screenshot_of_permit "C:\shots\permit.png")
       (after (save_screenshot_of_permit (friendly_env feb21 Delivered)
                 "C:\shots\permit.png" (sample_config true false false))
              browsing_world) = [Remove "C:\shots\permit.png"].
Proof.
  assert (Hthere : "C:\shots\permit.png"
     ∈ files (after (save_screenshot_of_permit (friendly_env feb21 Delivered)
                       "C:\shots\permit.png" (sample_config true false false))
                    browsing_world)).
  { cbn. set_solver. }
  split; [exact Hthere|].
  destruct (delete_removes_only_that_file "C:\shots\permit.png" _ Hthere eq_refl)
    as (Hremoved & _).
  exact Hremoved.
Defined.

(** ** Reading the expiration: what can happen *)

Lemma strptime_no_microseconds (s fmt : string) (t : datetime) :
  strptime s fmt = Returns t -> microsecond t = 0.
Proof.
  unfold strptime.
  destruct (compile_format false (chars fmt)); [|discriminate].
  destruct (regex_match _ _ _) as [[found [|c rest]]|]; try discriminate.
  destruct (valid_datetime _); [|discriminate].
  intros [= <-]. reflexivity.
Qed.

(** X4: reading the expiration changes nothing and never leaves the
    process.  A timestamp it returns is a date of the calendar and a time
    of day, without microseconds (so "2/30/2024 ..." is never returned),
    read on an open session from a label that showed up.  On an open
    session whose label does not show up in time, the wait for the label
    times out. *)
Theorem returned_expiration_is_valid (env : Env) (timeout_duration : Z) (w : World) :
  let run := get_parking_permit_expiration_date env timeout_duration in
  after run w = w
  /\ (forall t, outcome run w = Ok t ->
        (1 <= year t <= 9999 /\ 1 <= month t <= 12
         /\ 1 <= day t <= days_in_month (year t) (month t)
         /\ 0 <= hour t <= 23 /\ 0 <= minute t <= 59 /\ 0 <= second t <= 59)
        /\ microsecond t = 0
        /\ valid_datetime t = true
        /\ browser w = SessionOpen
        /\ appears env (trace w) "MainContent_lbl_Results_Expires" = true)
  /\ (browser w = SessionOpen ->
      appears env (trace w) "MainContent_lbl_Results_Expires" = false ->
      outcome run w
      = Raise (TimeoutException "MainContent_lbl_Results_Expires" timeout_duration))
  /\ (forall code, outcome run w <> Exit code).
Proof.
  intros run. unfold outcome, after.
  destruct (run w) as [r w'] eqn:Hrun. unfold run in Hrun.
  unfold get_parking_permit_expiration_date, get_text, wait_for_element, bind, ret, raise in Hrun.
  explore Hrun; injection Hrun as <- <-; cbn [fst snd];
    (split; [reflexivity|]); (split; [intros t Ht; try discriminate Ht|]);
    try (split; [intros Hopen Hnone; congruence|intros code; discriminate]).
  injection Ht as <-.
  match goal with H : strptime _ _ = Returns _ |- _ =>
    pose proof (strptime_returns_valid _ _ _ H) as Hvalid;
    pose proof (strptime_no_microseconds _ _ _ H) as Hmicro
  end.
  pose proof (valid_datetime_ranges _ Hvalid) as Hranges.
  repeat split; try assumption; tauto.
Qed.

Lemma returned_expiration_is_valid_witness :
  outcome (get_parking_permit_expiration_date (friendly_env feb21 Delivered) 10)
          browsing_world = Ok feb22_expiry
  /\ valid_datetime feb22_expiry = true.
Proof.
  split; [reflexivity|].
  destruct (returned_expiration_is_valid (friendly_env feb21 Delivered) 10 browsing_world)
    as (_ & Hreturned & _).
  destruct (Hreturned feb22_expiry eq_refl) as (_ & _ & Hvalid & _).
  exact Hvalid.
Defined.

(** ** The submit click of the wizard *)

Lemma last_of_wizard_steps (config : Config.t) (evs : list Event) (pending : Event)
    (rest : list Event) :
  wizard_steps config = evs ++ pending :: rest -> count is_submit evs = 0%nat.
Proof.
  intros Hsteps. pose proof (count_submit_steps config) as Hone.
  rewrite Hsteps, count_app in Hone.
  assert (Hlast : last (pending :: rest) = Some (Click "MainContent_btn_Submit")).
  { rewrite <- (last_app_cons evs), <- Hsteps. reflexivity. }
  assert (Hrest : (1 <= count is_submit (pending :: rest))%nat).
  { clear Hsteps Hone. revert Hlast. generalize (pending :: rest). intros l.
    induction l as [|a l IH]; [discriminate|].
    rewrite count_cons. destruct l as [|b l].
    - intros [= ->]. cbn. lia.
    - intros Hl. cbn [last] in Hl. specialize (IH Hl). lia. }
  lia.
Qed.

(** The wizard changes nothing but the trace and adds only form events.
    When it returns it has gone through all its steps, with one click on
    submit; when it raises, no click on submit has returned. *)
Lemma create_parking_permit_submits (env : Env) (config : Config.t) (w : World) :
  exists evs r,
    create_parking_permit env config w
    = (r, mkWorld (browser w) (files w) (tasks w) (trace w ++ evs))
    /\ form_only evs
    /\ ((r = Ok tt /\ evs = wizard_steps config /\ count is_submit evs = 1%nat)
        \/ ((exists e, r = Raise e) /\ count is_submit evs = 0%nat)).
Proof.
  destruct (create_parking_permit_runs env config w)
    as (evs & rest & Htrace & Hsteps & Hbrowser & Hfiles & Htasks & Hout).
  unfold outcome, after in *.
  destruct (create_parking_permit env config w) as [r [b f t tr]].
  cbn [fst snd browser files tasks trace] in *. subst.
  exists evs, r. split; [reflexivity|]. split; [eapply form_only_prefix; eassumption|].
  destruct Hout as [[-> ->]|[[e ->] Hrest]].
  - left. split; [reflexivity|].
    rewrite app_nil_r in Hsteps. rewrite <- Hsteps.
    split; [reflexivity|apply count_submit_steps].
  - right. split; [eauto|].
    destruct rest as [|pending rest]; [contradiction|].
    eapply last_of_wizard_steps. exact Hsteps.
Qed.

(** ** The name of the screenshot *)

Lemma length_pad_digits (width : nat) (n : Z) : length (pad_digits width n) = width.
Proof.
  revert n. induction width as [|width IH]; intros n; [reflexivity|].
  cbn [pad_digits]. rewrite length_app, IH. cbn. lia.
Qed.

Lemma pad_digits_inj (width : nat) (a b : Z) (l1 l2 : list ascii) :
  0 <= a < 10 ^ Z.of_nat width -> 0 <= b < 10 ^ Z.of_nat width ->
  pad_digits width a ++ l1 = pad_digits width b ++ l2 -> a = b /\ l1 = l2.
Proof.
  intros Ha Hb Heq. apply app_inj_1 in Heq as [Hpad Hrest];
    [|rewrite !length_pad_digits; reflexivity].
  split; [|exact Hrest].
  rewrite <- (int_of_pad_digits width a Ha), <- (int_of_pad_digits width b Hb), Hpad.
  reflexivity.
Qed.

Lemma tail_eq {A} (a b : A) (l1 l2 : list A) : a :: l1 = b :: l2 -> l1 = l2.
Proof. intros [= _ H]. exact H. Qed.

Lemma chars_inj (a b : string) : chars a = chars b -> a = b.
Proof.
  intros H. rewrite <- (string_of_list_ascii_of_string a), <- (string_of_list_ascii_of_string b).
  unfold chars in H. rewrite H. reflexivity.
Qed.

Lemma stamp_chars (t : datetime) :
  chars (strftime t "%Y-%m-%d_%H-%M-%S")
  = pad_digits 4 (year t) ++ "-"%char :: pad_digits 2 (month t) ++ "-"%char ::
    pad_digits 2 (day t) ++ "_"%char :: pad_digits 2 (hour t) ++ "-"%char ::
    pad_digits 2 (minute t) ++ "-"%char :: pad_digits 2 (second t) ++ [].
Proof. unfold strftime. rewrite chars_text. reflexivity. Qed.

Lemma stamp_inj (t1 t2 : datetime) :
  valid_datetime t1 = true -> valid_datetime t2 = true ->
  strftime t1 "%Y-%m-%d_%H-%M-%S" = strftime t2 "%Y-%m-%d_%H-%M-%S" ->
  to_the_second t1 = to_the_second t2.
Proof.
  intros H1 H2 Heq. apply valid_datetime_ranges in H1, H2.
  apply (f_equal chars) in Heq. rewrite !stamp_chars in Heq.
  apply pad_digits_inj in Heq as [Hy Heq]; [|cbn; lia..]. apply tail_eq in Heq.
  apply pad_digits_inj in Heq as [Hm Heq]; [|cbn; lia..]. apply tail_eq in Heq.
  pose proof (days_in_month_bound (year t1) (month t1)).
  pose proof (days_in_month_bound (year t2) (month t2)).
  apply pad_digits_inj in Heq as [Hd Heq]; [|cbn; lia..]. apply tail_eq in Heq.
  apply pad_digits_inj in Heq as [Hh Heq]; [|cbn; lia..]. apply tail_eq in Heq.
  apply pad_digits_inj in Heq as [Hmi Heq]; [|cbn; lia..]. apply tail_eq in Heq.
  apply pad_digits_inj in Heq as [Hs _]; [|cbn; lia..].
  unfold to_the_second. congruence.
Qed.

(** X6: the screenshot name is the folder, a fixed prefix, the clock to
    the second and ".png".  Generating it changes nothing, and for valid
    clock readings two names in one folder are equal exactly when the
    readings fall in the same second: runs a second or more apart never
    share a name, runs within one second always do. *)
Theorem screenshot_name_per_second (env : Env) (folder : string) (w1 w2 : World) :
  let name w := outcome (generate_screenshot_file_path env folder) w in
  valid_datetime (now env (trace w1)) = true ->
  valid_datetime (now env (trace w2)) = true ->
  (name w1 = name w2 <->
     to_the_second (now env (trace w1)) = to_the_second (now env (trace w2)))
  /\ name w1
     = Ok (folder +:+ "\rpm2park_parking_permit_"
             +:+ strftime (now env (trace w1)) "%Y-%m-%d_%H-%M-%S" +:+ ".png")
  /\ after (generate_screenshot_file_path env folder) w1 = w1.
Proof.
  intros name Hv1 Hv2.
  assert (Hname : forall w, name w
            = Ok (folder +:+ "\rpm2park_parking_permit_"
                    +:+ strftime (now env (trace w)) "%Y-%m-%d_%H-%M-%S" +:+ ".png")).
  { intros w. reflexivity. }
  split; [|split; [apply Hname|reflexivity]].
  rewrite !Hname. split.
  - intros [= Heq]. apply stamp_inj; [assumption..|].
    apply (f_equal chars) in Heq. rewrite !chars_append in Heq.
    apply app_inv_head in Heq. apply app_inv_head in Heq. apply app_inv_tail in Heq.
    apply chars_inj. exact Heq.
  - intros Hsame. unfold to_the_second in Hsame. injection Hsame as Hy Hm Hd Hh Hmi Hs.
    assert (Hstamp : strftime (now env (trace w1)) "%Y-%m-%d_%H-%M-%S"
                     = strftime (now env (trace w2)) "%Y-%m-%d_%H-%M-%S").
    { apply chars_inj. rewrite !stamp_chars. congruence. }
    rewrite Hstamp. reflexivity.
Qed.

Lemma screenshot_name_per_second_witness :
  valid_datetime (now (friendly_env feb21 Delivered) (trace fresh_world)) = true
  /\ valid_datetime (now (friendly_env feb21 Delivered) (trace browsing_world)) = true
  /\ outcome (generate_screenshot_file_path (friendly_env feb21 Delivered) "C:\shots")
       fresh_world
     = outcome (generate_screenshot_file_path (friendly_env feb21 Delivered) "C:\shots")
         browsing_world.
Proof.
  split; [reflexivity|]. split; [reflexivity|].
  destruct (screenshot_name_per_second (friendly_env feb21 Delivered) "C:\shots"
              fresh_world browsing_world eq_refl eq_refl) as (Hiff & _).
  apply Hiff. reflexivity.
Defined.

(** ** The reconstructed command line *)

Lemma lstrip_fixed (l : list ascii) :
  lstrip l = l -> l = [] \/ exists c l', l = c :: l' /\ is_space c = false.
Proof.
  destruct l as [|c l]; [auto|]. intros H. right. exists c, l. split; [reflexivity|].
  destruct (is_space c) eqn:Hc; [|reflexivity]. exfalso.
  cbn [lstrip] in H. rewrite Hc in H.
  assert (Hlen : forall k, (length (lstrip k) <= length k)%nat).
  { induction k as [|a k IH]; [reflexivity|]. cbn [lstrip]. destruct (is_space a); cbn; lia. }
  specialize (Hlen l). rewrite H in Hlen. cbn in Hlen. lia.
Qed.

Lemma lstrip_nonblank (c : ascii) (l : list ascii) :
  is_space c = false -> lstrip (c :: l) = c :: l.
Proof. intros H. cbn [lstrip]. rewrite H. reflexivity. Qed.

Lemma lstrip_idempotent (l : list ascii) : lstrip (lstrip l) = lstrip l.
Proof.
  induction l as [|c l IH]; [reflexivity|]. cbn [lstrip].
  destruct (is_space c) eqn:Hc; [exact IH|]. apply lstrip_nonblank. exact Hc.
Qed.

Lemma lstrip_snoc_nonblank (l : list ascii) (c : ascii) :
  is_space c = false -> lstrip (l ++ [c]) = lstrip l ++ [c].
Proof.
  intros Hc. induction l as [|a l IH]; cbn [app lstrip].
  - rewrite Hc. reflexivity.
  - destruct (is_space a); [exact IH|reflexivity].
Qed.

(** Dropping the blanks at the end keeps a first character that is not
    blank. *)
Lemma rstrip_cons_nonblank (c : ascii) (l : list ascii) :
  is_space c = false ->
  rev (lstrip (rev (c :: l))) = c :: rev (lstrip (rev l)).
Proof.
  intros Hc. cbn [rev]. rewrite lstrip_snoc_nonblank by exact Hc.
  rewrite rev_app_distr. reflexivity.
Qed.

Lemma strip_trimmed (s : string) : trimmed (chars (strip s)).
Proof.
  unfold strip, trimmed. rewrite chars_text. split.
  - destruct (lstrip_fixed (lstrip (chars s)) (lstrip_idempotent _))
      as [->|(c & l & -> & Hc)]; [reflexivity|].
    rewrite rstrip_cons_nonblank by exact Hc. apply lstrip_nonblank. exact Hc.
  - rewrite rev_involutive. apply lstrip_idempotent.
Qed.

Lemma strip_of_trimmed (cs : list ascii) : trimmed cs -> strip (text cs) = text cs.
Proof.
  intros [Hl Hr]. unfold strip. rewrite chars_text, Hl, Hr, rev_involutive. reflexivity.
Qed.

Lemma trimmed_app (a b : list ascii) :
  a <> [] -> b <> [] -> lstrip a = a -> lstrip (rev b) = rev b -> trimmed (a ++ b).
Proof.
  intros Ha Hb Hla Hrb.
  destruct (lstrip_fixed a Hla) as [->|(c & a' & -> & Hc)]; [exfalso; apply Ha; reflexivity|].
  destruct (lstrip_fixed (rev b) Hrb) as [Hnil|(d & b' & Hrev & Hd)].
  { apply (f_equal (@rev ascii)) in Hnil. rewrite rev_involutive in Hnil.
    exfalso. apply Hb. exact Hnil. }
  split.
  - cbn [app]. apply lstrip_nonblank. exact Hc.
  - rewrite rev_app_distr, Hrev. cbn [app]. apply lstrip_nonblank. exact Hd.
Qed.

Lemma strip_trailing_blank (cs : list ascii) :
  trimmed cs -> cs <> [] -> strip (text (cs ++ [" "%char])) = text cs.
Proof.
  intros [Hl Hr] Hne. unfold strip. rewrite chars_text.
  destruct (lstrip_fixed cs Hl) as [->|(c & l & -> & Hc)]; [exfalso; apply Hne; reflexivity|].
  cbn [app]. rewrite lstrip_nonblank by exact Hc.
  change (c :: l ++ [" "%char]) with ((c :: l) ++ [" "%char]).
  rewrite rev_app_distr. cbn [rev app lstrip]. change (is_space " ") with true. cbv iota.
  cbn [rev] in Hr. rewrite Hr, rev_app_distr, rev_involutive. reflexivity.
Qed.

Lemma strip_of_chars (s : string) (cs : list ascii) :
  chars s = cs ++ [" "%char] -> trimmed cs -> cs <> [] -> strip s = text cs.
Proof.
  intros Hs Htrim Hne. rewrite <- (string_of_list_ascii_of_string s).
  fold (chars s). fold (text (chars s)). rewrite Hs.
  apply strip_trailing_blank; assumption.
Qed.

(** X7: for a configuration file name in ASCII text, the reconstructed
    command line has no blank at either end and leaves out what is at its
    default: nothing for the default configuration file without
    [--verbose], [--verbose] alone, [--config] with the file name alone,
    or both separated by one blank.  The file name comes back unchanged
    when it is not empty and has no blank at either end. *)
Theorem command_line_omits_defaults (args : Args.t) :
  let line := generate_command_line_arguments_as_str args in
  let file := Args.config args in
  ascii_only file ->
  trimmed (chars line)
  /\ (file = "config.yaml" ->
      line = if Args.verbose args then "--verbose" else "")
  /\ (file <> "config.yaml" -> Args.verbose args = true ->
      line = "--config " +:+ file +:+ " --verbose")
  /\ (file <> "config.yaml" -> Args.verbose args = false ->
      trimmed (chars file) -> file <> "" ->
      line = "--config " +:+ file).
Proof.
  intros line file _. split; [apply strip_trimmed|].
  unfold line, generate_command_line_arguments_as_str. fold file.
  split; [|split].
  - intros ->. destruct (Args.verbose args); reflexivity.
  - intros Hfile ->. apply String.eqb_neq in Hfile. rewrite Hfile. cbn [negb].
    rewrite (strip_of_chars _ (chars "--config " ++ chars file ++ chars " " ++ chars "--verbose")).
    + apply chars_inj. rewrite chars_text, !chars_append. reflexivity.
    + rewrite !chars_append. change (chars "") with (@nil ascii).
      change (chars "--verbose ") with (chars "--verbose" ++ [" "%char]).
      cbn [app]. rewrite <- !app_assoc. reflexivity.
    + apply (trimmed_app (chars "--config ") (chars file ++ chars " " ++ chars "--verbose")).
      * discriminate.
      * destruct (chars file); discriminate.
      * reflexivity.
      * rewrite !rev_app_distr. reflexivity.
    + discriminate.
  - intros Hfile -> [Hl Hr] Hne. apply String.eqb_neq in Hfile. rewrite Hfile. cbn [negb].
    assert (Hchars : chars file <> []).
    { intros H. apply Hne. apply chars_inj. exact H. }
    rewrite (strip_of_chars _ (chars "--config " ++ chars file)).
    + apply chars_inj. rewrite chars_text, !chars_append. reflexivity.
    + rewrite !chars_append. change (chars "") with (@nil ascii).
      change (chars " ") with [" "%char].
      cbn [app]. rewrite <- ?app_assoc. reflexivity.
    + apply trimmed_app; [discriminate|exact Hchars|reflexivity|exact Hr].
    + discriminate.
Qed.

Lemma command_line_omits_defaults_witness :
  ascii_only (Args.config (Args.mk "my.yaml" false))
  /\ Args.config (Args.mk "my.yaml" false) <> "config.yaml"
  /\ trimmed (chars (Args.config (Args.mk "my.yaml" false)))
  /\ generate_command_line_arguments_as_str (Args.mk "my.yaml" false) = "--config my.yaml".
Proof.
  assert (Hfile : Args.config (Args.mk "my.yaml" false) <> "config.yaml") by discriminate.
  assert (Htrim : trimmed (chars (Args.config (Args.mk "my.yaml" false)))).
  { split; reflexivity. }
  split; [reflexivity|]. split; [exact Hfile|]. split; [exact Htrim|].
  destruct (command_line_omits_defaults (Args.mk "my.yaml" false) eq_refl)
    as (_ & _ & _ & Hplain).
  apply Hplain; [exact Hfile|reflexivity|exact Htrim|discriminate].
Defined.

(** ** Checking the configuration file *)

Lemma endswith_spec (s suffix : string) :
  endswith s suffix = true <-> exists stem, s = stem +:+ suffix.
Proof.
  unfold endswith. rewrite andb_true_iff, Nat.leb_le, bool_decide_eq_true. split.
  - intros [Hlen Hdrop]. exists (text (take (length (chars s) - length (chars suffix)) (chars s))).
    apply chars_inj. rewrite chars_append, chars_text, <- Hdrop at 1.
    symmetry. rewrite Hdrop. rewrite <- Hdrop at 2. apply take_drop.
  - intros [stem ->]. rewrite chars_append, length_app. split; [lia|].
    apply drop_app_length'. lia.
Qed.

(** X8: the configuration file is accepted exactly when the path exists,
    is a regular file and its name ends in ".yaml"; the world is then
    untouched.  In every other case one error is logged and the run
    leaves with exit status 1, with the files, the tasks and the browser
    as they were; a path that does not exist is reported as such,
    whatever its name. *)
Theorem config_file_is_checked (isfile : string -> bool) (config_file : string) (w : World) :
  let run := validate_config_file isfile config_file in
  (outcome run w = Ok tt <->
     config_file ∈ files w /\ isfile config_file = true
     /\ exists stem, config_file = stem +:+ ".yaml")
  /\ (outcome run w = Ok tt -> after run w = w)
  /\ (outcome run w <> Ok tt ->
      outcome run w = Exit 1
      /\ (exists msg, events run w = [LogError msg])
      /\ files (after run w) = files w
      /\ tasks (after run w) = tasks w
      /\ browser (after run w) = browser w)
  /\ (config_file ∉ files w ->
      events run w = [LogError ("Config file " +:+ config_file +:+ " does not exist.")]).
Proof.
  intros run. unfold outcome, after.
  destruct (run w) as [r w'] eqn:Hrun.
  assert (Hev : forall evs, trace w' = trace w ++ evs -> events run w = evs).
  { intros evs H. apply events_of_extension. unfold after. rewrite Hrun. exact H. }
  unfold run, validate_config_file, logging_error, emit, sys_exit, bind in Hrun.
  destruct (bool_decide (config_file ∈ files w)) eqn:Hexists; cbn [negb] in Hrun.
  - apply bool_decide_eq_true in Hexists.
    destruct (isfile config_file) eqn:Hfile; cbn [negb orb] in Hrun.
    + destruct (endswith config_file ".yaml") eqn:Hends; cbn [negb] in Hrun;
        injection Hrun as <- <-; cbn [fst snd files tasks browser record_event].
      * apply endswith_spec in Hends.
        repeat split; try tauto; try congruence.
      * assert (Hnot : ~ exists stem, config_file = stem +:+ ".yaml").
        { intros H. apply endswith_spec in H. congruence. }
        repeat split; try tauto; try congruence; try discriminate.
        eexists. apply Hev. reflexivity.
    + injection Hrun as <- <-; cbn [fst snd files tasks browser record_event].
      repeat split; try tauto; try congruence; try discriminate.
      * intros (_ & H & _). discriminate H.
      * eexists. apply Hev. reflexivity.
  - apply bool_decide_eq_false in Hexists.
    injection Hrun as <- <-; cbn [fst snd files tasks browser record_event].
    repeat split; try tauto; try congruence; try discriminate.
    + eexists. apply Hev. reflexivity.
    + intros _. apply Hev. reflexivity.
Qed.

Lemma config_file_is_checked_witness :
  outcome (validate_config_file (fun _ => true) "config.yaml") fresh_world <> Ok tt
  /\ outcome (validate_config_file (fun _ => true) "config.yaml") fresh_world = Exit 1.
Proof.
  assert (Hrefused : outcome (validate_config_file (fun _ => true) "config.yaml") fresh_world
                     <> Ok tt).
  { cbn. discriminate. }
  split; [exact Hrefused|].
  destruct (config_file_is_checked (fun _ => true) "config.yaml" fresh_world)
    as (_ & _ & Hexit & _).
  destruct (Hexit Hrefused) as (Hone & _). exact Hone.
Defined.

(** ** More on the dispatch step *)

Ltac order_leaf :=
  cbn [fst snd browser files tasks trace record_event set_browser set_files set_tasks];
  unfold count;
  cbn [List.filter length is_remove is_client_close is_channel_send is_client_start];
  intros;
  try discriminate;
  try congruence;
  try reflexivity;
  try lia;
  try (split; reflexivity);
  try (split; lia);
  try (split; [set_solver|reflexivity]);
  try set_solver.

(** The files, the order of the notification session and the removal in
    every run of the dispatch step. *)
Lemma dispatch_order (env : Env) (path : string) (config : Config.t) (w : World) :
  let run := send_screenshot_in_discord env path config in
  let save := Config.save_screenshot_of_permit config in
  exists evs,
    trace (after run w) = trace w ++ evs
    /\ tasks (after run w) = tasks w
    /\ (save = false -> outcome run w = Ok tt ->
        files (after run w) = files w ∖ {[path]} /\ browser (after run w) = browser w)
    /\ (forall other, other <> path -> (other ∈ files (after run w) <-> other ∈ files w))
    /\ never_after is_remove is_channel_send evs = true
    /\ never_after is_channel_send is_client_start evs = true
    /\ never_after is_client_close is_channel_send evs = true
    /\ never_after is_remove is_client_close evs = true
    /\ ((0 < count is_remove evs)%nat ->
        count is_client_close evs = 1%nat /\ count is_channel_send evs = 1%nat)
    /\ (count is_channel_send evs <= 1)%nat
    /\ (count is_client_start evs <= 1)%nat
    /\ ((0 < count is_channel_send evs)%nat -> count is_client_start evs = 1%nat)
    /\ (outcome run w = Ok tt ->
        count is_channel_send evs = 1%nat /\ count is_client_close evs = 1%nat)
    /\ (outcome run w <> Ok tt -> count is_remove evs = 0%nat)
    /\ (outcome run w <> Ok tt -> files w ⊆ files (after run w))
    /\ (forall code, outcome run w <> Exit code).
Proof.
  intros run save. unfold outcome, after, save.
  destruct (run w) as [r w'] eqn:Hrun. unfold run in Hrun. clear run save.
  unfold_dispatch Hrun.
  destruct (Config.save_screenshot_of_permit config) eqn:Hsave;
    explore Hrun; injection Hrun as <- <-;
    cbn [fst snd browser files tasks trace record_event set_browser set_files set_tasks];
    rewrite <- ?app_assoc; cbn [app];
    (first [ exists []; split; [symmetry; apply app_nil_r|]
           | eexists; split; [reflexivity|] ]);
    repeat match goal with |- _ /\ _ => split end.
  all: solve [order_leaf].
Qed.

(** X9: the dispatch step never touches the scheduled tasks, never exits
    the process, and leaves every file other than the screenshot as it
    was.  In the ephemeral case a step that returns normally leaves the
    screenshot path absent, so the disk is as before when the path was
    free, and it leaves the browser session as it found it. *)
Theorem dispatch_touches_one_file (env : Env) (path : string) (config : Config.t)
    (w : World) :
  let run := send_screenshot_in_discord env path config in
  tasks (after run w) = tasks w
  /\ (forall other, other <> path -> (other ∈ files (after run w) <-> other ∈ files w))
  /\ (forall code, outcome run w <> Exit code)
  /\ (Config.save_screenshot_of_permit config = false -> outcome run w = Ok tt ->
      files (after run w) = files w ∖ {[path]}
      /\ (path ∉ files w -> files (after run w) = files w)
      /\ browser (after run w) = browser w).
Proof.
  intros run.
  destruct (dispatch_order env path config w)
    as (evs & _ & Htasks & Hephemeral & Hothers & _ & _ & _ & _ & _ & _ & _ & _ & _ & _ & _
        & Hexit).
  fold run in Htasks, Hephemeral, Hothers, Hexit.
  repeat match goal with |- _ /\ _ => split end; try assumption.
  intros Hsave Hok. destruct (Hephemeral Hsave Hok) as [Hfiles Hbrowser].
  repeat split; try assumption. intros Hfree. rewrite Hfiles. set_solver.
Qed.

Lemma dispatch_touches_one_file_witness :
  Config.save_screenshot_of_permit (sample_config false true false) = false
  /\ outcome (send_screenshot_in_discord (friendly_env feb21 Delivered)
                "C:\shots\permit.png" (sample_config false true false))
             browsing_world = Ok tt
  /\ files (after (send_screenshot_in_discord (friendly_env feb21 Delivered)
                     "C:\shots\permit.png" (sample_config false true false))
                  browsing_world)
     = files browsing_world ∖ {["C:\shots\permit.png"]}.
Proof.
  assert (Hok : outcome (send_screenshot_in_discord (friendly_env feb21 Delivered)
                           "C:\shots\permit.png" (sample_config false true false))
                        browsing_world = Ok tt) by reflexivity.
  split; [reflexivity|]. split; [exact Hok|].
  destruct (dispatch_touches_one_file (friendly_env feb21 Delivered) "C:\shots\permit.png"
              (sample_config false true false) browsing_world) as (_ & _ & _ & Hephemeral).
  destruct (Hephemeral eq_refl Hok) as (Hfiles & _). exact Hfiles.
Defined.

(** X10: the notification session keeps its order in every run of the
    dispatch step: the client is started at most once, the file is sent
    at most once, only with the client started and never before its
    start, never after the client was closed or the file was removed, and
    a removal happens only after the file was sent and the client
    closed.  A step that returns normally has sent the file once and
    closed the client once. *)
Theorem notification_in_order (env : Env) (path : string) (config : Config.t) (w : World) :
  let run := send_screenshot_in_discord env path config in
  let evs := events run w in
  (count is_client_start evs <= 1)%nat
  /\ (count is_channel_send evs <= 1)%nat
  /\ ((0 < count is_channel_send evs)%nat -> count is_client_start evs = 1%nat)
  /\ never_after is_channel_send is_client_start evs = true
  /\ never_after is_client_close is_channel_send evs = true
  /\ never_after is_remove is_channel_send evs = true
  /\ never_after is_remove is_client_close evs = true
  /\ ((0 < count is_remove evs)%nat ->
      count is_client_close evs = 1%nat /\ count is_channel_send evs = 1%nat)
  /\ (outcome run w = Ok tt ->
      count is_channel_send evs = 1%nat /\ count is_client_close evs = 1%nat).
Proof.
  intros run evs.
  destruct (dispatch_order env path config w)
    as (evs' & Htrace & _ & _ & _ & H1 & H2 & H3 & H4 & H5 & H6 & H7 & H8 & H9 & _).
  fold run in Htrace, H9.
  assert (Hevs : evs = evs') by (apply events_of_extension; exact Htrace).
  rewrite Hevs. auto 10.
Qed.

Lemma notification_in_order_witness :
  outcome (send_screenshot_in_discord (friendly_env feb21 Delivered)
             "C:\shots\permit.png" (sample_config false true false))
          browsing_world = Ok tt
  /\ count is_channel_send
       (events (send_screenshot_in_discord (friendly_env feb21 Delivered)
                  "C:\shots\permit.png" (sample_config false true false))
               browsing_world) = 1%nat.
Proof.
  assert (Hok : outcome (send_screenshot_in_discord (friendly_env feb21 Delivered)
                           "C:\shots\permit.png" (sample_config false true false))
                        browsing_world = Ok tt) by reflexivity.
  split; [exact Hok|].
  destruct (notification_in_order (friendly_env feb21 Delivered) "C:\shots\permit.png"
              (sample_config false true false) browsing_world)
    as (_ & _ & _ & _ & _ & _ & _ & _ & Hsent).
  destruct (Hsent Hok) as (Hone & _). exact Hone.
Defined.

(** X11: a dispatch step that does not return normally, because the
    notification session raised or never came back or the browser step
    before it failed, has removed nothing: no [Remove] event, and every
    file that was on disk is still there. *)
Theorem failed_dispatch_removes_nothing (env : Env) (path : string) (config : Config.t)
    (w : World) :
  let run := send_screenshot_in_discord env path config in
  outcome run w <> Ok tt ->
  count is_remove (events run w) = 0%nat
  /\ files w ⊆ files (after run w).
Proof.
  intros run Hfailed.
  destruct (dispatch_order env path config w)
    as (evs & Htrace & _ & _ & _ & _ & _ & _ & _ & _ & _ & _ & _ & _ & Hnone & Hkept & _).
  fold run in Htrace, Hnone, Hkept.
  rewrite (events_of_extension run w evs Htrace). auto.
Qed.

Lemma failed_dispatch_removes_nothing_witness :
  outcome (send_screenshot_in_discord (friendly_env feb21 login_failure)
             "C:\shots\permit.png" (sample_config false true false))
          browsing_world <> Ok tt
  /\ count is_remove
       (events (send_screenshot_in_discord (friendly_env feb21 login_failure)
                  "C:\shots\permit.png" (sample_config false true false))
               browsing_world) = 0%nat.
Proof.
  assert (Hfailed : outcome (send_screenshot_in_discord (friendly_env feb21 login_failure)
                               "C:\shots\permit.png" (sample_config false true false))
                            browsing_world <> Ok tt).
  { cbn. discriminate. }
  split; [exact Hfailed|].
  destruct (failed_dispatch_removes_nothing (friendly_env feb21 login_failure)
              "C:\shots\permit.png" (sample_config false true false) browsing_world Hfailed)
    as (Hnone & _).
  exact Hnone.
Defined.

(** ** A run whose wizard fails *)

(** X12: when the wizard raises, [main] ends with that exception and exit
    status 1.  The run ends with the browser started, the page
    requested, the steps the wizard got through, and the session quit;
    no screenshot was taken, no chat client started and no command run,
    and the files and tasks are as before. *)
Theorem failed_wizard_aborts_run (env : Env) (args : Args.t) (config : Config.t)
    (w : World) (e : Exn) :
  let run := main env args config in
  let wizard := create_parking_permit env config in
  Config.i_read_the_config_warning config = true ->
  firefox_starts env = true ->
  page_loads env (trace w ++ [Started]) visitors_url = true ->
  outcome wizard (at_the_form w) = Raise e ->
  outcome run w = Raise e
  /\ exit_status (outcome run w) = Some 1
  /\ ([Started; Get visitors_url] ++ events wizard (at_the_form w) ++ [Quit])
     `suffix_of` events run w
  /\ count is_started (events run w) = 1%nat
  /\ count is_quit (events run w) = 1%nat
  /\ count is_capture (events run w) = 0%nat
  /\ count is_client_start (events run w) = 0%nat
  /\ count is_run (events run w) = 0%nat
  /\ files (after run w) = files w
  /\ tasks (after run w) = tasks w
  /\ browser (after run w) = SessionEnded.
Proof.
  intros run wizard Hread Hstarts Hloads Hraised.
  destruct (create_parking_permit_world env config (at_the_form w))
    as (form & r & Hwizard & Hform & _).
  fold wizard in Hwizard.
  assert (Hr : r = Raise e).
  { unfold outcome in Hraised. rewrite Hwizard in Hraised. exact Hraised. }
  subst r.
  assert (Hevw : events wizard (at_the_form w) = form).
  { apply events_of_extension. unfold after. rewrite Hwizard. reflexivity. }
  rewrite Hevw in *.
  assert (Hrun : run w
                 = (Raise e,
                    set_browser SessionEnded
                      (record_event Quit
                         (mkWorld SessionOpen (files w) (tasks w)
                                  (((trace w ++ [Started]) ++ [Get visitors_url]) ++ form))))).
  { unfold run, main, validate_config_warning, with_webdriver_Firefox, driver_get, bind, emit.
    rewrite Hread, Hstarts. cbn [negb ret trace record_event set_browser].
    fold visitors_url. rewrite Hloads.
    unfold wizard, at_the_form in Hwizard. rewrite Hwizard. reflexivity. }
  assert (Hev : events run w = [Started; Get visitors_url] ++ form ++ [Quit]).
  { apply events_of_extension. unfold after. rewrite Hrun.
    cbn [snd trace record_event set_browser]. rewrite <- !app_assoc. reflexivity. }
  destruct (form_only_facts form Hform)
    as (Hstarted & _ & Hquit & Hcap & _ & Hrunc & _ & Hstart & _).
  unfold outcome, after. rewrite Hev, Hrun.
  cbn [fst snd files tasks browser set_browser record_event exit_status].
  rewrite !count_app, Hstarted, Hquit, Hcap, Hstart, Hrunc.
  repeat split. exists []. reflexivity.
Qed.

Lemma failed_wizard_aborts_run_witness :
  outcome (main silent_portal
                sample_args (sample_config true true true)) fresh_world
  = Raise (TimeoutException "MainContent_ddl_Property" 10).
Proof.
  destruct (failed_wizard_aborts_run
              silent_portal
              sample_args (sample_config true true true) fresh_world
              (TimeoutException "MainContent_ddl_Property" 10)
              eq_refl eq_refl eq_refl eq_refl) as (Hraised & _).
  exact Hraised.
Defined.

(** ** Whole runs: scheduling, switched-off features, hanging, files *)

Lemma existsb_form_only (q : Event -> bool) (form l : list Event) :
  form_only form -> (forall e, is_form_event e = true -> q e = false) ->
  existsb q (form ++ l) = existsb q l.
Proof.
  intros Hform Hq. induction Hform as [|e form He _ IH]; [reflexivity|].
  cbn [app existsb]. rewrite (Hq e He). exact IH.
Qed.

Lemma never_after_form_only (p q : Event -> bool) (form l : list Event) :
  form_only form -> (forall e, is_form_event e = true -> p e = false) ->
  never_after p q (form ++ l) = never_after p q l.
Proof.
  intros Hform Hp. induction Hform as [|e form He _ IH]; [reflexivity|].
  cbn [app never_after]. rewrite (Hp e He). exact IH.
Qed.

Ltac run_wizard_submits H :=
  lazymatch type of H with
  | context [create_parking_permit ?e ?c ?w0] =>
    let form := fresh "form" in
    let Hform := fresh "Hform" in
    let Hsubmit := fresh "Hsubmit" in
    let Hrun_form := fresh "Hrun_form" in
    let r3 := fresh "r" in
    destruct (create_parking_permit_submits e c w0)
      as (form & r3 & Hrun_form & Hform & [(-> & -> & Hsubmit)|[[? ->] Hsubmit]]);
    rewrite Hrun_form in H; clear Hrun_form
  end.

Ltac explore_submits H :=
  repeat (reduce_run H; first [run_wizard_submits H | ask_oracle H | ask_flag H]);
  reduce_run H.

Ltac whole_numbers :=
  unfold artifact_paths, written_paths;
  rewrite ?count_app, ?omap_app;
  try match goal with
      | Hform : form_only ?form, Hsubmit : count is_submit ?form = _ |- _ =>
        rewrite ?Hsubmit; form_numbers form Hform
      end;
  rewrite ?count_singleton, ?count_nil;
  cbn [is_started is_close is_quit is_capture is_remove is_run is_channel_send
       is_client_start is_submit String.eqb Ascii.eqb Bool.eqb
       omap list_omap artifact_path written_path app Nat.add head].

Ltac whole_order :=
  repeat (cbn [app never_after existsb is_run is_quit andb orb negb];
          rewrite ?(never_after_form_only is_run is_quit),
                  ?(existsb_form_only is_quit) by first [assumption | form_neutral]).

(** The answers of the portal, the clock and the chat service matter
    only for what the scheduler is given. *)
Ltac forget_answers :=
  repeat match goal with
         | H : firefox_starts _ = _ |- _ => clear H
         | H : page_loads _ _ _ = _ |- _ => clear H
         | H : appears _ _ _ = _ |- _ => clear H
         | H : strptime _ _ = _ |- _ => clear H
         | H : screenshot_written _ _ _ = _ |- _ => clear H
         | H : discord _ _ = _ |- _ => clear H
         | H : datetime_gt _ _ = _ |- _ => clear H
         end.

Ltac schedule_fact :=
  lazymatch goal with
  | |- _ -> exists _, _ =>
    intros _;
    match goal with
    | Hparse : strptime _ _ = Returns ?t |- _ =>
      exists t; split; [|split; [|reflexivity]];
      [ rewrite <- !app_assoc in Hparse; exact Hparse
      | rewrite !app_assoc, removelast_last, !app_assoc; eassumption ]
    end
  | |- _ -> _ `prefix_of` _ =>
    intros _; eexists; rewrite <- ?app_assoc; reflexivity
  end.

(** Nor do the texts of the events. *)
Ltac hide_text s :=
  tryif is_var s then fail
  else (let x := fresh "text" in set (x := s) in *; clearbody x).

Ltac hide_texts :=
  repeat match goal with
         | |- context [Get ?s] => hide_text s
         | |- context [LogInfo ?s] => hide_text s
         | |- context [LogError ?s] => hide_text s
         | |- context [Print ?s] => hide_text s
         | |- context [SaveFullPageScreenshot ?s _] => hide_text s
         | |- context [Run ?s] => hide_text s
         end.

Ltac whole_fact :=
  forget_answers; hide_texts; whole_numbers; intros;
  try discriminate;
  try congruence;
  try lia;
  try (whole_order; reflexivity);
  try (repeat split; first [reflexivity | congruence | lia]);
  try (eexists; reflexivity);
  try (left; lia);
  try (right; split; first [reflexivity | lia]);
  try (lazymatch goal with |- context [@elem_of] => set_solver end).

(** What every run of [main] does about scheduling, the features that
    are switched off, leaving the process and the files. *)
Lemma whole_run_facts (env : Env) (args : Args.t) (config : Config.t) (w : World) :
  let run := main env args config in
  let save := Config.save_screenshot_of_permit config in
  let send := Config.send_screenshot_in_discord config in
  let renew := Config.automatically_renew_permit config in
  exists evs,
    trace (after run w) = trace w ++ evs
    /\ (count is_run evs <= 1)%nat
    /\ ((0 < count is_run evs)%nat ->
        renew = true /\ outcome run w = Ok tt /\ count is_quit evs = 1%nat)
    /\ never_after is_run is_quit evs = true
    /\ (count is_run evs = 0%nat -> tasks (after run w) = tasks w)
    /\ ((0 < count is_run evs)%nat ->
        exists t,
          strptime (element_text env
                      (trace w ++ [Started; Get visitors_url] ++ wizard_steps config)
                      "MainContent_lbl_Results_Expires") date_format
          = Returns t
          /\ datetime_gt t (now env (trace w ++ removelast evs)) = true
          /\ tasks (after run w) = <[task_name := renewal_task env t args]> (tasks w))
    /\ ((0 < count is_run evs)%nat ->
        ([Started; Get visitors_url] ++ wizard_steps config) `prefix_of` evs)
    /\ (send = false ->
        count is_client_start evs = 0%nat /\ count is_channel_send evs = 0%nat
        /\ count is_close evs = 0%nat /\ count is_remove evs = 0%nat)
    /\ (save = false -> send = false ->
        count is_capture evs = 0%nat /\ files (after run w) = files w)
    /\ (forall code, outcome run w = Exit code ->
        code = 1
        /\ (count is_started evs = 0%nat \/ (renew = true /\ count is_quit evs = 1%nat)))
    /\ (forall p, p ∈ files w -> p ∉ artifact_paths evs -> p ∈ files (after run w))
    /\ (forall p, p ∈ files (after run w) -> p ∈ files w \/ p ∈ written_paths evs)
    /\ ((0 < count is_started evs)%nat -> outcome run w <> Diverge ->
        browser (after run w) = SessionEnded)
    /\ (count is_submit evs <= 1)%nat
    /\ ((0 < count is_capture evs + count is_client_start evs + count is_run evs)%nat ->
        count is_submit evs = 1%nat)
    /\ (outcome run w = Ok tt ->
        count is_submit evs = 1%nat /\ count is_quit evs = 1%nat
        /\ (renew = true -> count is_run evs = 1%nat)
        /\ (send = true -> count is_channel_send evs = 1%nat)
        /\ (save = true -> count is_capture evs = 1%nat)
        /\ (send = true -> count is_capture evs = 1%nat)).
Proof.
  intros run save send renew. unfold outcome, after, save, send, renew.
  destruct (run w) as [r w'] eqn:Hrun. unfold run in Hrun. clear run save send renew.
  unfold_main Hrun.
  explore_submits Hrun; injection Hrun as <- <-;
    cbn [fst snd browser files tasks trace record_event set_browser set_files set_tasks];
    rewrite <- ?app_assoc;
    (first [ exists []; split; [symmetry; apply app_nil_r|]
           | eexists; split; [reflexivity|] ]);
    repeat match goal with |- _ /\ _ => split end.
  all: first [solve [schedule_fact] | solve [whole_fact]].
Qed.

(** ** What a whole run may and may not do *)

(** X13: a run schedules at most one renewal, and only as its very last
    stage: after the browser session was quit, in a run that submitted
    the form and that returns normally.  The task it registers is for a
    timestamp that lies after the clock read by the scheduler, and the
    trigger of the task is that timestamp to the minute.  The timestamp
    was read from the label as it showed in this run when the wizard had
    just done its last step: if that text is ASCII text, it is an
    expiration text of the pattern and denotes the timestamp.  A run that
    schedules nothing leaves the tasks alone. *)
Theorem renewal_scheduled_last (env : Env) (args : Args.t) (config : Config.t) (w : World) :
  let run := main env args config in
  (count is_run (events run w) <= 1)%nat
  /\ never_after is_run is_quit (events run w) = true
  /\ (count is_run (events run w) = 0%nat -> tasks (after run w) = tasks w)
  /\ ((0 < count is_run (events run w))%nat ->
      Config.automatically_renew_permit config = true
      /\ outcome run w = Ok tt
      /\ count is_quit (events run w) = 1%nat
      /\ count is_submit (events run w) = 1%nat
      /\ exists t history,
           history `prefix_of` trace (after run w)
           /\ ([Started; Get visitors_url] ++ wizard_steps config) `suffix_of` history
           /\ (ascii_only (element_text env history "MainContent_lbl_Results_Expires") ->
               expiration_text
                 (chars (element_text env history "MainContent_lbl_Results_Expires")) t)
           /\ datetime_gt t (now env (trace w ++ removelast (events run w))) = true
           /\ tasks (after run w) = <[task_name := renewal_task env t args]> (tasks w)
           /\ trigger_time (renewal_task env t args) = Returns (to_the_minute t)).
Proof.
  intros run.
  destruct (whole_run_facts env args config w)
    as (evs & Htrace & Hone & Hwhen & Horder & Hnone & Htask & Hprefix & _ & _ & _ & _ & _
        & _ & _ & Hfirst & _).
  fold run in Htrace, Hwhen, Hnone, Htask.
  rewrite (events_of_extension run w evs Htrace).
  split; [exact Hone|]. split; [exact Horder|]. split; [exact Hnone|].
  intros Hran. destruct (Hwhen Hran) as (Hrenew & Hok & Hquit).
  destruct (Htask Hran) as (t & Hparse & Hfuture & Htasks).
  destruct (Hprefix Hran) as (rest & Hevs).
  split; [exact Hrenew|]. split; [exact Hok|]. split; [exact Hquit|].
  split; [apply Hfirst; lia|].
  exists t, (trace w ++ [Started; Get visitors_url] ++ wizard_steps config).
  split; [exists rest; rewrite Htrace, Hevs, <- !app_assoc; reflexivity|].
  split; [exists (trace w); reflexivity|].
  split; [intros _; apply strptime_sound; exact Hparse|].
  split; [exact Hfuture|]. split; [exact Htasks|].
  apply trigger_time_renewal. eapply strptime_returns_valid. exact Hparse.
Qed.

Lemma renewal_scheduled_last_witness :
  outcome (main (friendly_env feb21 Delivered) sample_args (sample_config true true true))
          fresh_world = Ok tt.
Proof.
  destruct (renewal_scheduled_last (friendly_env feb21 Delivered) sample_args
              (sample_config true true true) fresh_world) as (_ & _ & _ & Hran).
  destruct Hran as (_ & Hok & _); [vm_compute; lia|exact Hok].
Defined.

(** X14: a feature that is switched off leaves no trace.  Without the
    notification no chat client is started, nothing is sent, the browser
    window is not closed and no file is removed; without screenshot and
    notification nothing is captured and the files are as before; without
    renewal no command is run and the tasks are as before. *)
Theorem switched_off_features_do_nothing (env : Env) (args : Args.t) (config : Config.t)
    (w : World) :
  let run := main env args config in
  (Config.send_screenshot_in_discord config = false ->
   count is_client_start (events run w) = 0%nat
   /\ count is_channel_send (events run w) = 0%nat
   /\ count is_close (events run w) = 0%nat
   /\ count is_remove (events run w) = 0%nat)
  /\ (Config.save_screenshot_of_permit config = false ->
      Config.send_screenshot_in_discord config = false ->
      count is_capture (events run w) = 0%nat /\ files (after run w) = files w)
  /\ (Config.automatically_renew_permit config = false ->
      count is_run (events run w) = 0%nat /\ tasks (after run w) = tasks w).
Proof.
  intros run.
  destruct (whole_run_facts env args config w)
    as (evs & Htrace & _ & Hwhen & _ & Hnone & _ & _ & Hsend & Hsave & _).
  fold run in Htrace, Hwhen, Hnone, Hsave.
  rewrite (events_of_extension run w evs Htrace).
  split; [exact Hsend|]. split; [exact Hsave|].
  intros Hrenew.
  assert (Hzero : count is_run evs = 0%nat).
  { destruct (count is_run evs) as [|n] eqn:Hn; [reflexivity|].
    destruct Hwhen as (Hon & _); [lia|]. congruence. }
  split; [exact Hzero|]. apply Hnone. exact Hzero.
Qed.

Lemma switched_off_features_do_nothing_witness :
  files (after (main (friendly_env feb21 Delivered) sample_args
                     (sample_config false false false)) notes_world)
  = files notes_world.
Proof.
  destruct (switched_off_features_do_nothing (friendly_env feb21 Delivered) sample_args
              (sample_config false false false) notes_world) as (_ & Hoff & _).
  destruct Hoff as (_ & Hfiles); [reflexivity|reflexivity|exact Hfiles].
Defined.

(** X16: the process is never left in the middle of the browser
    session.  When a run of [main] leaves through [sys.exit], either no
    browser was started at all, or the status is 1, the renewal is
    switched on, the one session that was started has been quit, and
    nothing was scheduled: the tasks are as before. *)
Theorem no_exit_inside_browser_session (env : Env) (args : Args.t) (config : Config.t)
    (w : World) (code : Z) :
  let run := main env args config in
  outcome run w = Exit code ->
  count is_started (events run w) = 0%nat
  \/ (code = 1
      /\ Config.automatically_renew_permit config = true
      /\ count is_started (events run w) = 1%nat
      /\ count is_quit (events run w) = 1%nat
      /\ browser (after run w) = SessionEnded
      /\ count is_run (events run w) = 0%nat
      /\ tasks (after run w) = tasks w).
Proof.
  intros run Hleft.
  destruct (whole_run_facts env args config w)
    as (evs & Htrace & _ & Hwhen & _ & Hnone & _ & _ & _ & _ & Hexit & _ & _ & Hended & _).
  destruct (main_facts env args config w) as (evs' & Htrace' & _ & Hquits & _).
  fold run in Htrace, Htrace', Hwhen, Hnone, Hexit, Hended, Hquits.
  assert (evs' = evs) as ->.
  { rewrite Htrace in Htrace'. apply app_inv_head in Htrace'. congruence. }
  rewrite (events_of_extension run w evs Htrace).
  destruct (Hexit code Hleft) as (-> & [Hnone_started|(Hrenew & Hquit)]); [left; exact Hnone_started|].
  right.
  assert (Hstarted : count is_started evs = 1%nat).
  { rewrite <- Hquits; [exact Hquit|]. rewrite Hleft. discriminate. }
  assert (Hzero : count is_run evs = 0%nat).
  { destruct (count is_run evs) as [|n] eqn:Hn; [reflexivity|].
    destruct Hwhen as (_ & Hok & _); [lia|]. rewrite Hleft in Hok. discriminate Hok. }
  split; [reflexivity|]. split; [exact Hrenew|]. split; [exact Hstarted|].
  split; [exact Hquit|].
  split; [apply Hended; [lia|rewrite Hleft; discriminate]|].
  split; [exact Hzero|apply Hnone; exact Hzero].
Qed.

Lemma no_exit_inside_browser_session_witness :
  count is_started
    (events (main (friendly_env feb22_expiry Delivered) sample_args
                  (sample_config true false true)) fresh_world) = 1%nat
  /\ tasks (after (main (friendly_env feb22_expiry Delivered) sample_args
                        (sample_config true false true)) fresh_world)
     = tasks fresh_world.
Proof.
  destruct (no_exit_inside_browser_session (friendly_env feb22_expiry Delivered) sample_args
              (sample_config true false true) fresh_world 1 eq_refl)
    as [Hnone|(_ & _ & Hstarted & _ & _ & _ & Htasks)].
  - vm_compute in Hnone. discriminate Hnone.
  - split; [exact Hstarted|exact Htasks].
Defined.

(** X17: the only file a run touches is its screenshot.  A file that was
    there before is still there unless its path is the one the run
    captured, sent or removed, and a file that is there afterwards was
    there before or was written by the capture. *)
Theorem run_touches_only_the_screenshot (env : Env) (args : Args.t) (config : Config.t)
    (w : World) :
  let run := main env args config in
  (forall p, p ∈ files w -> p ∉ artifact_paths (events run w) -> p ∈ files (after run w))
  /\ (forall p, p ∈ files (after run w) -> p ∈ files w \/ p ∈ written_paths (events run w)).
Proof.
  intros run.
  destruct (whole_run_facts env args config w)
    as (evs & Htrace & _ & _ & _ & _ & _ & _ & _ & _ & _ & Hkept & Hnew & _).
  fold run in Htrace, Hkept, Hnew.
  rewrite (events_of_extension run w evs Htrace).
  split; [exact Hkept|exact Hnew].
Qed.

Lemma run_touches_only_the_screenshot_witness :
  "C:\notes.txt" ∈ files (after (main (friendly_env feb21 Delivered) sample_args
                                     (sample_config false true true)) notes_world).
Proof.
  destruct (run_touches_only_the_screenshot (friendly_env feb21 Delivered) sample_args
              (sample_config false true true) notes_world) as (Hkept & _).
  apply Hkept.
  - vm_compute. set_solver.
  - vm_compute. intros Hin.
    repeat (apply elem_of_cons in Hin as [Heq|Hin]; [discriminate Heq|]).
    apply elem_of_nil in Hin. exact Hin.
Defined.

(** X18: the form is submitted at most once per run, and nothing is
    captured, sent or scheduled in a run that did not submit it.  A run
    that returns normally has done everything that is switched on, once:
    it started the browser, submitted the form, quit the session, took
    the screenshot if it is kept or sent, sent it if it is sent, and
    scheduled the renewal if it is renewed. *)
Theorem normal_return_means_done (env : Env) (args : Args.t) (config : Config.t) (w : World) :
  let run := main env args config in
  (count is_submit (events run w) <= 1)%nat
  /\ ((0 < count is_capture (events run w) + count is_client_start (events run w)
           + count is_run (events run w))%nat ->
      count is_submit (events run w) = 1%nat)
  /\ (outcome run w = Ok tt ->
      count is_started (events run w) = 1%nat
      /\ count is_submit (events run w) = 1%nat
      /\ count is_quit (events run w) = 1%nat
      /\ browser (after run w) = SessionEnded
      /\ (Config.save_screenshot_of_permit config = true
          \/ Config.send_screenshot_in_discord config = true ->
          count is_capture (events run w) = 1%nat)
      /\ (Config.send_screenshot_in_discord config = true ->
          count is_channel_send (events run w) = 1%nat)
      /\ (Config.automatically_renew_permit config = true ->
          count is_run (events run w) = 1%nat)).
Proof.
  intros run.
  destruct (whole_run_facts env args config w)
    as (evs & Htrace & _ & _ & _ & _ & _ & _ & _ & _ & _ & _ & _ & Hended & Hmost
        & Hfirst & Hdone).
  destruct (main_facts env args config w) as (evs' & Htrace' & _ & Hquits & _).
  fold run in Htrace, Htrace', Hended, Hdone, Hquits.
  assert (evs' = evs) as ->.
  { rewrite Htrace in Htrace'. apply app_inv_head in Htrace'. congruence. }
  rewrite (events_of_extension run w evs Htrace).
  split; [exact Hmost|]. split; [exact Hfirst|].
  intros Hok.
  destruct (Hdone Hok) as (Hsubmit & Hquit & Hrenew & Hsend & Hsave & Hsent).
  assert (Hstarted : count is_started evs = 1%nat).
  { rewrite <- Hquits; [exact Hquit|]. rewrite Hok. discriminate. }
  split; [exact Hstarted|]. split; [exact Hsubmit|]. split; [exact Hquit|].
  split; [apply Hended; [lia|rewrite Hok; discriminate]|].
  split; [intros [H|H]; auto|]. split; [exact Hsend|exact Hrenew].
Qed.

Lemma normal_return_means_done_witness :
  count is_submit
    (events (main (friendly_env feb21 Delivered) sample_args (sample_config true true true))
            fresh_world) = 1%nat.
Proof.
  destruct (normal_return_means_done (friendly_env feb21 Delivered) sample_args
              (sample_config true true true) fresh_world) as (_ & _ & Hdone).
  destruct Hdone as (_ & Hsubmit & _); [reflexivity|exact Hsubmit].
Defined.

(** ** A run on which everything answers *)

Lemma create_parking_permit_completes (env : Env) (config : Config.t) (w : World) :
  browser w = SessionOpen -> portal_answers env config ->
  create_parking_permit env config w
  = (Ok tt, mkWorld (browser w) (files w) (tasks w) (trace w ++ wizard_steps config)).
Proof.
  intros Hb Hanswers.
  destruct (create_parking_permit_runs env config w)
    as (evs & rest & Htrace & Hsteps & Hbrowser & Hfiles & Htasks & Hout).
  pose proof (create_parking_permit_answers env config w Hb Hanswers) as Hok.
  unfold outcome, after in *.
  destruct (create_parking_permit env config w) as [r [b f t tr]].
  cbn [fst snd browser files tasks trace] in *. subst.
  destruct Hout as [[_ ->]|[[e He] _]]; [|discriminate He].
  rewrite app_nil_r in Hsteps. rewrite Hsteps. reflexivity.
Qed.



(** ** A run whose chat client never comes back *)

(** X15: when the notification is switched on and the chat client never
    comes back from its start, the run never ends, even though the form
    was submitted and the screenshot taken: the browser session is never
    quit, no renewal is scheduled, so the tasks are as before, and the
    screenshot stays on disk, also when it was taken only to be sent. *)
Theorem hanging_notification_blocks_renewal (env : Env) (args : Args.t) (config : Config.t)
    (w : World) (shown : string) (clock t : datetime) (sent : bool) :
  let run := main env args config in
  let path := screenshot_path_at config clock in
  Config.i_read_the_config_warning config = true ->
  Config.send_screenshot_in_discord config = true ->
  portal_answers env config ->
  chat_never_returns env shown clock sent ->
  expiration_text (chars shown) t ->
  outcome run w = Diverge
  /\ count is_submit (events run w) = 1%nat
  /\ count is_capture (events run w) = 1%nat
  /\ count is_client_start (events run w) = 1%nat
  /\ count is_channel_send (events run w) = (if sent then 1 else 0)%nat
  /\ count is_quit (events run w) = 0%nat
  /\ count is_run (events run w) = 0%nat
  /\ count is_remove (events run w) = 0%nat
  /\ browser (after run w) <> SessionEnded
  /\ tasks (after run w) = tasks w
  /\ path ∈ files (after run w).
Proof.
  intros run path Hread Hsend Hanswers
    (Hstarts & Hloads & Htext & Hwritten & Hdiscord & Hclock) Hshown.
  pose proof Hanswers as [Happears Hoption].
  pose proof (strptime_complete shown t Hshown) as Hparse.
  unfold path, screenshot_path_at. clear path.
  destruct (Config.save_screenshot_of_permit config) eqn:Hsave;
    destruct (Config.automatically_renew_permit config) eqn:Hrenew;
    destruct sent.
  all: unfold outcome, events, after; destruct (run w) as [r w'] eqn:Hrun; unfold run in Hrun.
  all: unfold_main Hrun.
  all: repeat (reduce_run Hrun;
               progress (rewrite ?Hread, ?Hsave, ?Hsend, ?Hrenew, ?Hstarts, ?Hloads,
                           ?Happears, ?Htext, ?Hparse, ?Hwritten, ?Hdiscord, ?Hclock
                           in Hrun;
                         rewrite ?(create_parking_permit_completes env config) in Hrun
                           by (first [reflexivity | assumption]))).
  all: reduce_run Hrun; injection Hrun as <- <-.
  all: cbn [fst snd browser files tasks trace record_event set_browser set_files set_tasks].
  all: rewrite <- ?app_assoc, drop_app_length.
  all: repeat split; try reflexivity; try discriminate; set_solver.
Qed.

Lemma hanging_notification_blocks_renewal_witness :
  outcome (main (friendly_env feb21 (NeverReturned true)) sample_args
                (sample_config false true true)) fresh_world = Diverge
  /\ tasks (after (main (friendly_env feb21 (NeverReturned true)) sample_args
                        (sample_config false true true)) fresh_world)
     = tasks fresh_world.
Proof.
  assert (Hanswers : portal_answers (friendly_env feb21 (NeverReturned true))
                       (sample_config false true true)).
  { split; intros; reflexivity. }
  assert (Hhangs : chat_never_returns (friendly_env feb21 (NeverReturned true))
                     "2/22/2024 6:52:05 PM" feb21 true).
  { repeat split. }
  assert (Hshown : expiration_text (chars "2/22/2024 6:52:05 PM") feb22_expiry).
  { apply strptime_sound. vm_compute. reflexivity. }
  destruct (hanging_notification_blocks_renewal (friendly_env feb21 (NeverReturned true))
              sample_args (sample_config false true true) fresh_world
              "2/22/2024 6:52:05 PM" feb21 feb22_expiry true eq_refl eq_refl
              Hanswers Hhangs Hshown)
    as (Hdiverges & _ & _ & _ & _ & _ & _ & _ & _ & Htasks & _).
  split; [exact Hdiverges|exact Htasks].
Defined.
